(** * A shallow embedding of the rental-listing scraper (src/main.py)

    The development has two halves.  The first half gives executable
    models: of the few Python library operations the program calls
    (string methods, [int], [re], [json.loads], the BeautifulSoup tree
    API) and then of every function of [src/main.py], transcribed from the
    source.  The second half states and proves the properties.

    Modelling conventions.
    - Text is [string]; a character is an [ascii], read as the code point
      U+0000..U+00FF.  Character classes ([str.isspace], the regex classes
      [\s], [\d], [\w], and [str.lower]) are the Unicode ones restricted to
      that range.
    - A Python exception is a value of [Py.exn]; a computation that may raise
      returns [Py.result].
    - [BeautifulSoup(html, "html.parser")] is not modelled: a fetched page is
      given as the tree the parser produced.
    - The interpreter is CPython 3.11 with its default limits: [int]
      refuses a literal of more than 4300 digits, and the recursion limit
      is 1000.  The program is run as a script, so that [json.loads] is
      called at line 88 four frames deep.  The recursion of the tree
      operations of BeautifulSoup is not modelled. *)

From Stdlib Require Import String Ascii List ZArith NArith Bool Arith Lia.
From Stdlib Require Import Numbers.DecimalString.
Import ListNotations.
Local Open Scope string_scope.
Set Warnings "-register-all".

(* ================================================================== *)
(** * Python values, exceptions and string operations *)
(* ================================================================== *)

Module Py.

Inductive exn : Set :=
| TypeError
| ValueError
| JSONDecodeError   (* a subclass of ValueError *)
| KeyError
| IndexError
| RecursionError
| RequestException.

Inductive result (A : Type) : Type :=
| Ok (a : A)
| Raise (e : exn).

Arguments Ok {A} a.
Arguments Raise {A} e.

Definition bind {A B : Type} (c : result A) (f : A -> result B) : result B :=
  match c with
  | Ok a => f a
  | Raise e => Raise e
  end.

Definition is_ok {A : Type} (c : result A) : bool :=
  match c with Ok _ => true | Raise _ => false end.

(** The three shapes of value that flow through the characteristic lookup:
    [None], an [int] and a [str]. *)
Inductive value : Set :=
| PNone
| PInt (z : Z)
| PStr (s : string).

(** Truth value of [if v:]. *)
Definition truthy (v : value) : bool :=
  match v with
  | PNone => false
  | PInt z => negb (z =? 0)%Z
  | PStr s => negb (s =? "")
  end.

(** ** Characters *)

Definition code (c : ascii) : N := N_of_ascii c.

Definition in_range (lo hi : N) (c : ascii) : bool :=
  ((lo <=? code c) && (code c <=? hi))%N.

(** [str.isspace], also the regex class [\s]. *)
Definition isspace (c : ascii) : bool :=
  in_range 9 13 c || in_range 28 32 c
  || (code c =? 133)%N || (code c =? 160)%N.

(** The regex class [\d]; also the digits [int] accepts. *)
Definition isdigit (c : ascii) : bool := in_range 48 57 c.

(** The regex class [\w]. *)
Definition isword (c : ascii) : bool :=
  isdigit c || in_range 65 90 c || in_range 97 122 c || (code c =? 95)%N
  || (code c =? 170)%N || in_range 178 179 c || (code c =? 181)%N
  || in_range 185 186 c || in_range 188 190 c
  || in_range 192 214 c || in_range 216 246 c || in_range 248 255 c.

Definition lower_char (c : ascii) : ascii :=
  if in_range 65 90 c || (in_range 192 222 c && negb (code c =? 215)%N)
  then ascii_of_N (code c + 32)
  else c.

Definition digit_val (c : ascii) : Z := Z.of_N (code c) - 48.

(** ** Strings *)

Fixpoint lstrip_by (p : ascii -> bool) (s : string) : string :=
  match s with
  | String c s' => if p c then lstrip_by p s' else s
  | EmptyString => EmptyString
  end.

Fixpoint rstrip_by (p : ascii -> bool) (s : string) : string :=
  match s with
  | EmptyString => EmptyString
  | String c s' =>
      match rstrip_by p s' with
      | EmptyString => if p c then EmptyString else String c EmptyString
      | t => String c t
      end
  end.

(** [s.strip()] *)
Definition strip (s : string) : string := rstrip_by isspace (lstrip_by isspace s).

(** [s.lower()] *)
Fixpoint lower (s : string) : string :=
  match s with
  | EmptyString => EmptyString
  | String c s' => String (lower_char c) (lower s')
  end.

(** [needle in hay] *)
Fixpoint contains (needle hay : string) : bool :=
  String.prefix needle hay
  || match hay with
     | EmptyString => false
     | String _ hay' => contains needle hay'
     end.

(** [s.split(sep)] for a one-character separator. *)
Fixpoint split (sep : ascii) (s : string) : list string :=
  match s with
  | EmptyString => [EmptyString]
  | String c s' =>
      if Ascii.eqb c sep then EmptyString :: split sep s'
      else match split sep s' with
           | p :: ps => String c p :: ps
           | [] => [String c EmptyString]
           end
  end.

(** [sep.join(parts)] *)
Definition join (sep : string) (parts : list string) : string :=
  String.concat sep parts.

(** [s.replace(old, "")] for a one-character [old]. *)
Fixpoint remove_char (old : ascii) (s : string) : string :=
  match s with
  | EmptyString => EmptyString
  | String c s' =>
      if Ascii.eqb c old then remove_char old s' else String c (remove_char old s')
  end.

(** [l[i]] for a possibly negative index. *)
Definition getitem {A : Type} (l : list A) (i : Z) : result A :=
  let n := Z.of_nat (List.length l) in
  let j := if (i <? 0)%Z then (n + i)%Z else i in
  if (j <? 0)%Z then Raise IndexError
  else match nth_error l (Z.to_nat j) with
       | Some a => Ok a
       | None => Raise IndexError
       end.

(** ** [int(text)] *)

(** Digits with single underscores between them. *)
Fixpoint int_digits (acc : Z) (s : string) : option Z :=
  match s with
  | EmptyString => None
  | String c s' =>
      if isdigit c then
        let acc' := (acc * 10 + digit_val c)%Z in
        match s' with
        | EmptyString => Some acc'
        | String "_"%char s'' => int_digits acc' s''
        | _ => int_digits acc' s'
        end
      else None
  end.

(** The blanks [int] skips around the literal. *)
Definition int_blank (c : ascii) : bool :=
  in_range 9 13 c || (code c =? 32)%N || (code c =? 133)%N || (code c =? 160)%N.

(** [sys.get_int_max_str_digits()]: the most digits [int] converts. *)
Definition int_max_str_digits : nat := 4300.

(** The number of digits of a text. *)
Fixpoint count_digits (s : string) : nat :=
  match s with
  | EmptyString => 0
  | String c s' => (if isdigit c then 1 else 0) + count_digits s'
  end.

(** [int(s)]: a [ValueError] on a text of more digits than the limit, and
    on a text that is not a literal. *)
Definition int_of_str (s : string) : result Z :=
  let t := rstrip_by int_blank (lstrip_by int_blank s) in
  if Nat.leb (count_digits t) int_max_str_digits then
    match match t with
          | String "+"%char t' => int_digits 0 t'
          | String "-"%char t' => option_map Z.opp (int_digits 0 t')
          | _ => int_digits 0 t
          end with
    | Some z => Ok z
    | None => Raise ValueError
    end
  else Raise ValueError.

(** [sys.getrecursionlimit()] *)
Definition recursion_limit : nat := 1000.

Arguments int_max_str_digits : simpl never.
Arguments recursion_limit : simpl never.

(** [str(n)], as an f-string formats a non-negative [int]. *)
Definition str_of_nat (n : nat) : string :=
  NilEmpty.string_of_uint (Nat.to_uint n).

End Py.

Notation "x <- c1 ;; c2" := (Py.bind c1 (fun x => c2))
  (at level 61, c1 at next level, right associativity).

(* ================================================================== *)
(** * Regular expressions: a backtracking matcher *)
(* ================================================================== *)

Module Re.

(** The constructs the program's three patterns use. *)
Inductive regex : Type :=
| Eps
| Chr (p : ascii -> bool)            (* one character of a class *)
| Cat (r1 r2 : regex)
| Star (greedy : bool) (r : regex)   (* [r*] and [r*?] *)
| WordB                              (* [\b] *)
| Group (r : regex).                 (* the capturing group 1 *)

Definition Plus (r : regex) : regex := Cat r (Star true r).

Fixpoint Lit (s : string) : regex :=
  match s with
  | EmptyString => Eps
  | String c s' => Cat (Chr (Ascii.eqb c)) (Lit s')
  end.

(** Where the matcher stands: the character before the position, the text
    from the position on, and the text captured by group 1 so far. *)
Record mstate : Type := MState {
  prev : option ascii;
  rest : string;
  grp : option string
}.

Definition orelse {A : Type} (a b : option A) : option A :=
  match a with
  | Some _ => a
  | None => b
  end.

Definition isword_opt (o : option ascii) : bool :=
  match o with
  | Some c => Py.isword c
  | None => false
  end.

Definition peek (s : string) : option ascii :=
  match s with
  | String c _ => Some c
  | EmptyString => None
  end.

(** The first [n] characters of [s]. *)
Fixpoint take (n : nat) (s : string) : string :=
  match n, s with
  | S n', String c s' => String c (take n' s')
  | _, _ => EmptyString
  end.

(** The text between two positions given by what follows them. *)
Definition consumed (from to : string) : string :=
  take (String.length from - String.length to) from.

(** The loop of a star: [body] matches one iteration, which has to consume
    a character; [n] bounds the number of iterations by the length of the
    text left.  A greedy star tries one more iteration first, a lazy one
    tries what follows first. *)
Fixpoint star_iter {A : Type} (greedy : bool)
  (body : mstate -> (mstate -> option A) -> option A)
  (k : mstate -> option A) (n : nat) (st0 : mstate) {struct n} : option A :=
  let more :=
    match n with
    | O => None
    | S n' =>
        body st0 (fun st' =>
          if Nat.ltb (String.length (rest st')) (String.length (rest st0))
          then star_iter greedy body k n' st' else None)
    end in
  if greedy then orelse more (k st0) else orelse (k st0) more.

(** [mtch r st k]: match [r] at [st] and continue with [k]; alternatives
    are tried in the order a backtracking engine tries them. *)
Fixpoint mtch {A : Type} (r : regex) (st : mstate) (k : mstate -> option A)
  {struct r} : option A :=
  match r with
  | Eps => k st
  | Chr p =>
      match rest st with
      | String c s' =>
          if p c then k (MState (Some c) s' (grp st)) else None
      | EmptyString => None
      end
  | Cat r1 r2 => mtch r1 st (fun st' => mtch r2 st' k)
  | Star greedy r' =>
      star_iter greedy (mtch r') k (String.length (rest st)) st
  | WordB =>
      if xorb (isword_opt (prev st)) (isword_opt (peek (rest st)))
      then k st else None
  | Group r' =>
      mtch r' st (fun st' =>
        k (MState (prev st') (rest st') (Some (consumed (rest st) (rest st')))))
  end.

(** The character that precedes the position after reading [s]. *)
Fixpoint last_of (p : option ascii) (s : string) : option ascii :=
  match s with
  | EmptyString => p
  | String c s' => last_of (Some c) s'
  end.

(** A match object: the text from the start of the match, and the state at
    its end. *)
Record rmatch : Type := RMatch {
  m_from : string;
  m_end : mstate
}.

(** [m.group()] *)
Definition group0 (m : rmatch) : string := consumed (m_from m) (rest (m_end m)).

(** [m.group(1)] (the patterns that use it always set it) *)
Definition group1 (m : rmatch) : string :=
  match grp (m_end m) with
  | Some g => g
  | None => EmptyString
  end.

Definition match_at (r : regex) (p : option ascii) (s : string) : option mstate :=
  mtch r (MState p s None) Some.

(** Leftmost match at or after the position. *)
Fixpoint search_from (r : regex) (p : option ascii) (s : string) : option rmatch :=
  match match_at r p s with
  | Some e => Some (RMatch s e)
  | None =>
      match s with
      | EmptyString => None
      | String c s' => search_from r (Some c) s'
      end
  end.

(** [re.search(r, s)] on a [str] *)
Definition search (r : regex) (s : string) : option rmatch :=
  search_from r None s.

(** [re.search(r, v)]: anything but a [str] is a [TypeError]. *)
Definition search_value (r : regex) (v : Py.value) : Py.result (option rmatch) :=
  match v with
  | Py.PStr s => Py.Ok (search r s)
  | _ => Py.Raise Py.TypeError
  end.

(** [re.findall(r, s)] for a pattern without groups: the successive
    non-overlapping matches; after an empty match the scan moves on by one
    character. *)
Fixpoint findall_from (fuel : nat) (r : regex) (p : option ascii) (s : string)
  : list string :=
  match fuel with
  | O => []
  | S fuel' =>
      match search_from r p s with
      | None => []
      | Some m =>
          let e := m_end m in
          group0 m ::
          (if Nat.ltb (String.length (rest e)) (String.length (m_from m))
           then findall_from fuel' r (prev e) (rest e)
           else match rest e with
                | EmptyString => []
                | String c s' => findall_from fuel' r (Some c) s'
                end)
      end
  end.

Definition findall (r : regex) (s : string) : list string :=
  findall_from (S (String.length s)) r None s.

Definition any_char (_ : ascii) : bool := true.

(** What a match is, whatever the order in which the engine looks for it:
    [matches r a b] when [r] can take the matcher from [a] to [b]. *)
Inductive matches : regex -> mstate -> mstate -> Prop :=
| matches_eps (st : mstate) : matches Eps st st
| matches_chr (p : ascii -> bool) (c : ascii) (s : string) (pr : option ascii)
    (g : option string) :
    p c = true ->
    matches (Chr p) (MState pr (String c s) g) (MState (Some c) s g)
| matches_cat (r1 r2 : regex) (a b c : mstate) :
    matches r1 a b -> matches r2 b c -> matches (Cat r1 r2) a c
| matches_star_stop (greedy : bool) (r : regex) (st : mstate) :
    matches (Star greedy r) st st
| matches_star_more (greedy : bool) (r : regex) (a b c : mstate) :
    matches r a b -> matches (Star greedy r) b c -> matches (Star greedy r) a c
| matches_wordb (st : mstate) :
    xorb (isword_opt (prev st)) (isword_opt (peek (rest st))) = true ->
    matches WordB st st
| matches_group (r : regex) (a b : mstate) :
    matches r a b ->
    matches (Group r) a
      (MState (prev b) (rest b) (Some (consumed (rest a) (rest b)))).

(** Every character class of [r] lies within [q]. *)
Fixpoint classes_within (q : ascii -> bool) (r : regex) : Prop :=
  match r with
  | Eps | WordB => True
  | Chr p => forall c, p c = true -> q c = true
  | Cat r1 r2 => classes_within q r1 /\ classes_within q r2
  | Star _ r' | Group r' => classes_within q r'
  end.

End Re.

(* ================================================================== *)
(** * [json.loads] *)
(* ================================================================== *)

Module Json.

(** A decoded document.  A decoded string is a list of code points: an
    escape may denote a character beyond U+00FF.  A float keeps its lexeme. *)
Inductive value : Type :=
| JNull
| JBool (b : bool)
| JInt (z : Z)
| JFloat (lexeme : string)
| JString (s : list N)
| JArray (items : list value)
| JObject (members : list (list N * value)).

Inductive token : Type :=
| TLBracket | TRBracket | TLBrace | TRBrace | TComma | TColon
| TString (s : list N)
| TAtom (v : value)
| TBigInt        (* an integer of more digits than [int] converts *)
| TBad.          (* the text cannot be read from here on *)

Definition codes (s : string) : list N := map Py.code (list_ascii_of_string s).

Definition hexval (c : ascii) : option N :=
  if Py.in_range 48 57 c then Some (Py.code c - 48)%N
  else if Py.in_range 97 102 c then Some (Py.code c - 87)%N
  else if Py.in_range 65 70 c then Some (Py.code c - 55)%N
  else None.

Definition hex4 (a b c d : ascii) : option N :=
  match hexval a, hexval b, hexval c, hexval d with
  | Some x, Some y, Some z, Some w => Some (((x * 16 + y) * 16 + z) * 16 + w)%N
  | _, _, _, _ => None
  end.

Definition is_high (u : N) : bool := ((55296 <=? u) && (u <=? 56319))%N.
Definition is_low (u : N) : bool := ((56320 <=? u) && (u <=? 57343))%N.
Definition join_surrogates (hi lo : N) : N :=
  (65536 + ((hi - 55296) * 1024 + (lo - 56320)))%N.

(** The states of the automaton for a number: an optional minus sign, an
    integer part without a leading zero, an optional fraction and an
    optional exponent. *)
Inductive numst : Set :=
| NMinus | NZero | NInt | NDot | NFrac | NE | NESign | NExp.

(** The states in which a number may end. *)
Definition accepting (st : numst) : bool :=
  match st with
  | NZero | NInt | NFrac | NExp => true
  | _ => false
  end.

(** While a number is read, [good] holds the token of the longest number
    read so far when the text read since does not end one: the integer of
    1 while the text read is 1e or 1. *)
Inductive mode : Type :=
| MNormal
| MStr (acc : list N)                 (* inside a string; [acc] reversed *)
| MNum (st : numst) (acc : string)    (* inside a number; [acc] reversed *)
       (good : list token).

(** [s] reversed, in front of [t]. *)
Fixpoint rev_onto (s t : string) : string :=
  match s with
  | EmptyString => t
  | String c s' => rev_onto s' (String c t)
  end.

(** The token of a number that ends in an accepting state: an integer is
    converted by [int], a float keeps its lexeme. *)
Definition num_token (st : numst) (acc : string) : token :=
  let lexeme := rev_onto acc EmptyString in
  match st with
  | NZero | NInt =>
      match Py.int_of_str lexeme with
      | Py.Ok z => TAtom (JInt z)
      | Py.Raise _ => TBigInt
      end
  | _ => TAtom (JFloat lexeme)
  end.

(** The next state of the number automaton on [c]; [None] when [c] does not
    continue the number. *)
Definition num_next (st : numst) (c : ascii) : option numst :=
  let d := Py.isdigit c in
  let e := Ascii.eqb c "e" || Ascii.eqb c "E" in
  let dot := Ascii.eqb c "." in
  match st with
  | NMinus => if Ascii.eqb c "0" then Some NZero else if d then Some NInt else None
  | NZero => if dot then Some NDot else if e then Some NE else None
  | NInt => if d then Some NInt else if dot then Some NDot
            else if e then Some NE else None
  | NDot => if d then Some NFrac else None
  | NFrac => if d then Some NFrac else if e then Some NE else None
  | NE => if Ascii.eqb c "+" || Ascii.eqb c "-" then Some NESign
          else if d then Some NExp else None
  | NESign => if d then Some NExp else None
  | NExp => if d then Some NExp else None
  end.

Definition is_ws (c : ascii) : bool :=
  Ascii.eqb c " " || Ascii.eqb c "009" || Ascii.eqb c "010" || Ascii.eqb c "013".

(** The lexer: one pass over the text, up to the first place where the
    text cannot be read, which gives the token [TBad].  The decoder reads
    the text from left to right and stops at its first error, so the
    tokens before that place count. *)
Fixpoint lex (m : mode) (s : string) {struct s} : list token :=
  let normal (c : ascii) (s' : string) : list token :=
    if is_ws c then lex MNormal s'
    else if Ascii.eqb c "[" then TLBracket :: lex MNormal s'
    else if Ascii.eqb c "]" then TRBracket :: lex MNormal s'
    else if Ascii.eqb c "{" then TLBrace :: lex MNormal s'
    else if Ascii.eqb c "}" then TRBrace :: lex MNormal s'
    else if Ascii.eqb c "," then TComma :: lex MNormal s'
    else if Ascii.eqb c ":" then TColon :: lex MNormal s'
    else if Ascii.eqb c "034" then lex (MStr []) s'
    else if Ascii.eqb c "0" then lex (MNum NZero "0" []) s'
    else if Py.isdigit c then lex (MNum NInt (String c EmptyString) []) s'
    else if Ascii.eqb c "-" then
      match s' with
      | String "I" (String "n" (String "f" (String "i" (String "n"
          (String "i" (String "t" (String "y" s9))))))) =>
          TAtom (JFloat "-Infinity") :: lex MNormal s9
      | _ => lex (MNum NMinus "-" []) s'
      end
    else if Ascii.eqb c "n" then
      match s' with
      | String "u" (String "l" (String "l" s4)) => TAtom JNull :: lex MNormal s4
      | _ => [TBad]
      end
    else if Ascii.eqb c "t" then
      match s' with
      | String "r" (String "u" (String "e" s4)) =>
          TAtom (JBool true) :: lex MNormal s4
      | _ => [TBad]
      end
    else if Ascii.eqb c "f" then
      match s' with
      | String "a" (String "l" (String "s" (String "e" s5))) =>
          TAtom (JBool false) :: lex MNormal s5
      | _ => [TBad]
      end
    else if Ascii.eqb c "N" then
      match s' with
      | String "a" (String "N" s3) => TAtom (JFloat "NaN") :: lex MNormal s3
      | _ => [TBad]
      end
    else if Ascii.eqb c "I" then
      match s' with
      | String "n" (String "f" (String "i" (String "n"
          (String "i" (String "t" (String "y" s8)))))) =>
          TAtom (JFloat "Infinity") :: lex MNormal s8
      | _ => [TBad]
      end
    else [TBad] in
  match s with
  | EmptyString =>
      match m with
      | MNormal => []
      | MStr _ => [TBad]
      | MNum st acc good =>
          if accepting st then [num_token st acc] else good ++ [TBad]
      end
  | String c s' =>
      match m with
      | MNormal => normal c s'
      | MNum st acc good =>
          match num_next st c with
          | Some st' =>
              lex (MNum st' (String c acc)
                     (if accepting st && negb (accepting st')
                      then [num_token st acc] else good)) s'
          | None =>
              if accepting st then num_token st acc :: normal c s'
              else good ++ [TBad]
          end
      | MStr acc =>
          if Ascii.eqb c "034" then TString (rev acc) :: lex MNormal s'
          else if Ascii.eqb c "\" then
            match s' with
            | String e s2 =>
                if Ascii.eqb e "034" then lex (MStr (34%N :: acc)) s2
                else if Ascii.eqb e "\" then lex (MStr (92%N :: acc)) s2
                else if Ascii.eqb e "/" then lex (MStr (47%N :: acc)) s2
                else if Ascii.eqb e "b" then lex (MStr (8%N :: acc)) s2
                else if Ascii.eqb e "f" then lex (MStr (12%N :: acc)) s2
                else if Ascii.eqb e "n" then lex (MStr (10%N :: acc)) s2
                else if Ascii.eqb e "r" then lex (MStr (13%N :: acc)) s2
                else if Ascii.eqb e "t" then lex (MStr (9%N :: acc)) s2
                else if Ascii.eqb e "u" then
                  match s2 with
                  | String h1 (String h2 (String h3 (String h4 s6))) =>
                      match hex4 h1 h2 h3 h4 with
                      | None => [TBad]
                      | Some u =>
                          match s6 with
                          | String "\" (String "u" (String l1 (String l2
                              (String l3 (String l4 s12))))) =>
                              if is_high u then
                                match hex4 l1 l2 l3 l4 with
                                | None => [TBad]
                                | Some v =>
                                    if is_low v
                                    then lex (MStr (join_surrogates u v :: acc)) s12
                                    else lex (MStr (u :: acc)) s6
                                end
                              else lex (MStr (u :: acc)) s6
                          | _ => lex (MStr (u :: acc)) s6
                          end
                      end
                  | _ => [TBad]
                  end
                else [TBad]
            | EmptyString => [TBad]
            end
          else if (Py.code c <? 32)%N then [TBad]
          else lex (MStr (Py.code c :: acc)) s'
      end
  end.

(** What [dict] does with a key: overwrite in place, or add at the end. *)
Fixpoint dict_set (k : list N) (v : value) (ms : list (list N * value))
  : list (list N * value) :=
  match ms with
  | [] => [(k, v)]
  | (k', v') :: ms' =>
      if list_eq_dec N.eq_dec k k' then (k', v) :: ms'
      else (k', v') :: dict_set k v ms'
  end.

(** The containers being built, innermost first. *)
Inductive frame : Type :=
| FArray (items_rev : list value)
| FObject (members : list (list N * value))
| FMember (members : list (list N * value)) (key : list N).

Inductive pstate : Type :=
| PValue          (* a value is due *)
| PValueOrEnd     (* after the opening bracket: a value or the closing one *)
| PKeyOrEnd       (* after the opening brace: a key or the closing one *)
| PKey            (* after a comma in an object *)
| PColon          (* after a key *)
| PAfter (v : value).   (* a value is complete *)

(** The levels of the recursion limit that are taken when the scanner
    starts on the text of line 88: the module, [parse_announcements],
    [parse_announcement] and [extract_image_urls]; then [loads], the
    [decode] and [raw_decode] of its decoder, and the call of the scanner. *)
Definition frames_in_use : nat := 8.

(** The scanner takes one level for each array or object it is inside: the
    deepest nesting it decodes. *)
Definition max_depth : nat := Py.recursion_limit - frames_in_use.

Arguments max_depth : simpl never.

(** The parser: one step per token.  A value that is due may be an integer
    that [int] refuses, a [ValueError], or open a container deeper than the
    recursion limit allows, a [RecursionError]; anything else out of place
    is a decoding error. *)
Fixpoint parse (st : pstate) (stack : list frame) (ts : list token)
  {struct ts} : Py.result value :=
  match ts with
  | [] =>
      match st, stack with
      | PAfter v, [] => Py.Ok v
      | _, _ => Py.Raise Py.JSONDecodeError
      end
  | t :: ts' =>
      match st with
      | PValue | PValueOrEnd =>
          match t with
          | TAtom v => parse (PAfter v) stack ts'
          | TString s => parse (PAfter (JString s)) stack ts'
          | TBigInt => Py.Raise Py.ValueError
          | TLBracket =>
              if Nat.ltb (List.length stack) max_depth
              then parse PValueOrEnd (FArray [] :: stack) ts'
              else Py.Raise Py.RecursionError
          | TLBrace =>
              if Nat.ltb (List.length stack) max_depth
              then parse PKeyOrEnd (FObject [] :: stack) ts'
              else Py.Raise Py.RecursionError
          | TRBracket =>
              match st, stack with
              | PValueOrEnd, FArray [] :: stack' => parse (PAfter (JArray [])) stack' ts'
              | _, _ => Py.Raise Py.JSONDecodeError
              end
          | _ => Py.Raise Py.JSONDecodeError
          end
      | PKeyOrEnd | PKey =>
          match t, stack with
          | TString k, FObject ms :: stack' => parse PColon (FMember ms k :: stack') ts'
          | TRBrace, FObject ms :: stack' =>
              match st with
              | PKeyOrEnd => parse (PAfter (JObject ms)) stack' ts'
              | _ => Py.Raise Py.JSONDecodeError
              end
          | _, _ => Py.Raise Py.JSONDecodeError
          end
      | PColon =>
          match t with
          | TColon => parse PValue stack ts'
          | _ => Py.Raise Py.JSONDecodeError
          end
      | PAfter v =>
          match t, stack with
          | TComma, FArray items :: stack' => parse PValue (FArray (v :: items) :: stack') ts'
          | TRBracket, FArray items :: stack' =>
              parse (PAfter (JArray (rev (v :: items)))) stack' ts'
          | TComma, FMember ms k :: stack' =>
              parse PKey (FObject (dict_set k v ms) :: stack') ts'
          | TRBrace, FMember ms k :: stack' =>
              parse (PAfter (JObject (dict_set k v ms))) stack' ts'
          | _, _ => Py.Raise Py.JSONDecodeError
          end
      end
  end.

(** The outermost container being built is an array. *)
Fixpoint bottom_array (stack : list frame) : bool :=
  match stack with
  | [] => false
  | [FArray _] => true
  | [_] => false
  | _ :: below => bottom_array below
  end.

(** [json.loads(s)] *)
Definition loads (s : string) : Py.result value :=
  parse PValue [] (lex MNormal s).

(** The exceptions of [json.loads]. *)
Definition decoding (e : Py.exn) : Prop :=
  e = Py.JSONDecodeError \/ e = Py.ValueError \/ e = Py.RecursionError.

End Json.

(* ================================================================== *)
(** * The BeautifulSoup tree *)
(* ================================================================== *)

Module Bs4.

(** A parsed document is a forest.  [NavigableString] is ordinary text;
    [Special] is a string that [.text] leaves out (a comment, the content
    of a script or style element, a declaration) while [.string] still
    returns it.  An attribute keeps the text of its value; the tokens of a
    [class] value are derived from it. *)
Inductive node : Type :=
| NavigableString (s : string)
| Special (s : string)
| Tag (name : string) (attrs : list (string * string)) (contents : list node).

Record tag : Type := MkTag {
  name : string;
  attrs : list (string * string);
  contents : list node
}.

Definition soup : Type := list node.

(** An element together with the siblings that follow it. *)
Record located : Type := Located {
  element : tag;
  next_siblings : list node
}.

(** [tag.text] *)
Fixpoint node_text (n : node) : string :=
  match n with
  | NavigableString s => s
  | Special _ => EmptyString
  | Tag _ _ cs =>
      (fix go (l : list node) : string :=
         match l with
         | [] => EmptyString
         | c :: l' => node_text c ++ go l'
         end) cs
  end.

Definition text (t : tag) : string :=
  node_text (Tag (name t) (attrs t) (contents t)).

(** [tag.string]: the only child when it is a string, the [.string] of the
    only child when it is an element, [None] otherwise. *)
Fixpoint node_string (n : node) : option string :=
  match n with
  | NavigableString s => Some s
  | Special s => Some s
  | Tag _ _ cs =>
      match cs with
      | [c] => node_string c
      | _ => None
      end
  end.

Definition string_of (t : tag) : Py.value :=
  match contents t with
  | [c] => match node_string c with
           | Some s => Py.PStr s
           | None => Py.PNone
           end
  | _ => Py.PNone
  end.

Fixpoint lookup (k : string) (l : list (string * string)) : option string :=
  match l with
  | [] => None
  | (k', v) :: l' => if (k =? k')%string then Some v else lookup k l'
  end.

(** [tag[key]] *)
Definition getitem (t : tag) (key : string) : Py.result string :=
  match lookup key (attrs t) with
  | Some v => Py.Ok v
  | None => Py.Raise Py.KeyError
  end.

(** The whitespace-separated tokens of an attribute value. *)
Fixpoint tokens_from (cur : string) (s : string) : list string :=
  let close := match cur with
               | EmptyString => []
               | _ => [cur]
               end in
  match s with
  | EmptyString => close
  | String c s' =>
      if Py.isspace c then close ++ tokens_from EmptyString s'
      else tokens_from (cur ++ String c EmptyString) s'
  end.

Definition tokens (s : string) : list string := tokens_from EmptyString s.

Definition has_class (cls : string) (t : tag) : bool :=
  match lookup "class" (attrs t) with
  | Some v => existsb (String.eqb cls) (tokens v)
  | None => false
  end.

(** How a search compares one attribute with the wanted string: a [class]
    matches by any one token or by its tokens joined with blanks; any other
    attribute by its value; a missing attribute only matches the empty
    string. *)
Definition attr_matches (t : tag) (attr wanted : string) : bool :=
  match lookup attr (attrs t) with
  | None => (wanted =? EmptyString)%string
  | Some v =>
      if (attr =? "class")%string
      then existsb (String.eqb wanted) (tokens v)
           || (Py.join " " (tokens v) =? wanted)%string
      else (v =? wanted)%string
  end.

(** The [string=] argument of a search. *)
Inductive string_filter : Type :=
| AnyString
| Exactly (s : string)
| Matching (r : Re.regex).

Definition string_matches (t : tag) (f : string_filter) : bool :=
  match f with
  | AnyString => true
  | Exactly EmptyString => true
  | Exactly s =>
      match string_of t with
      | Py.PStr s' => (s' =? s)%string
      | _ => false
      end
  | Matching r =>
      match string_of t with
      | Py.PStr s' => match Re.search r s' with Some _ => true | None => false end
      | _ => false
      end
  end.

(** The test a search with a tag name, attribute values and a [string=]
    argument applies to an element. *)
Definition strainer (nm : string) (wanted : list (string * string))
  (f : string_filter) (t : tag) : bool :=
  (name t =? nm)%string
  && forallb (fun kv => attr_matches t (fst kv) (snd kv)) wanted
  && string_matches t f.

(** First element in document order that passes the test. *)
Fixpoint find_node (p : tag -> bool) (n : node) (sibs : list node)
  : option located :=
  match n with
  | Tag nm ats cs =>
      if p (MkTag nm ats cs) then Some (Located (MkTag nm ats cs) sibs)
      else
        (fix go (l : list node) : option located :=
           match l with
           | [] => None
           | c :: l' =>
               match find_node p c l' with
               | Some r => Some r
               | None => go l'
               end
           end) cs
  | _ => None
  end.

Fixpoint find_forest (p : tag -> bool) (l : list node) : option located :=
  match l with
  | [] => None
  | c :: l' =>
      match find_node p c l' with
      | Some r => Some r
      | None => find_forest p l'
      end
  end.

(** [soup.find(name, attrs, string=...)] *)
Definition find (nm : string) (wanted : list (string * string))
  (f : string_filter) (doc : soup) : option located :=
  find_forest (strainer nm wanted f) doc.

(** [tag.find_next_sibling(name, attrs)]: the following siblings only, not
    their descendants. *)
Fixpoint find_next_sibling_in (p : tag -> bool) (sibs : list node)
  : option located :=
  match sibs with
  | [] => None
  | Tag nm ats cs :: sibs' =>
      if p (MkTag nm ats cs) then Some (Located (MkTag nm ats cs) sibs')
      else find_next_sibling_in p sibs'
  | _ :: sibs' => find_next_sibling_in p sibs'
  end.

Definition find_next_sibling (at_ : located) (nm : string)
  (wanted : list (string * string)) : option located :=
  find_next_sibling_in (strainer nm wanted AnyString) (next_siblings at_).

(** [soup.select('div.C1 a.C2[A]')]: in document order, the [a] elements of
    class [C2] that carry the attribute [A] and lie inside a [div] of class
    [C1]. *)
Fixpoint select_node (c1 c2 a : string) (inside : bool) (n : node) : list tag :=
  match n with
  | Tag nm ats cs =>
      let t := MkTag nm ats cs in
      let here :=
        inside && (nm =? "a")%string && has_class c2 t
        && match lookup a ats with Some _ => true | None => false end in
      let inside' := inside || ((nm =? "div")%string && has_class c1 t) in
      (if here then [t] else []) ++ flat_map (select_node c1 c2 a inside') cs
  | _ => []
  end.

Definition select_div_a (c1 c2 a : string) (doc : soup) : list tag :=
  flat_map (select_node c1 c2 a false) doc.

(** Induction on a node, with the property available for the children. *)
Section NodeInduction.

Variable P : node -> Prop.
Hypothesis Hstring : forall s, P (NavigableString s).
Hypothesis Hspecial : forall s, P (Special s).
Hypothesis Htag : forall nm ats cs, Forall P cs -> P (Tag nm ats cs).

Fixpoint node_children_ind (n : node) : P n :=
  match n with
  | NavigableString s => Hstring s
  | Special s => Hspecial s
  | Tag nm ats cs =>
      Htag nm ats cs
        ((fix go (l : list node) : Forall P l :=
            match l with
            | [] => Forall_nil P
            | c :: l' => Forall_cons c (node_children_ind c) (go l')
            end) cs)
  end.

End NodeInduction.

(** An [a] element of class [c2] that carries the attribute [a]. *)
Definition selectable (c2 a : string) (t : tag) : Prop :=
  name t = "a" /\ has_class c2 t = true /\ exists v, lookup a (attrs t) = Some v.

End Bs4.

(* ================================================================== *)
(** * The program: src/main.py *)
(* ================================================================== *)

Module Main.

Import Py.

(** [class Announcement(TypedDict)] *)
Record Announcement : Type := MkAnnouncement {
  link : string;
  ref : option string;
  rent_period : option string;
  type_ : option string;
  title : option string;
  address : option string;
  region : option string;
  description : option string;
  images : Json.value;
  price : option string;
  bedrooms : option Z;
  bathrooms : option Z;
  floor_area : option Z;
  parking_spaces : value;
  additional_features : value;
  realtor : option string;
  phone : option string;
  latitude : option string;
  longitude : option string
}.

(** ** The patterns *)

Definition ch (c : ascii) : Re.regex := Re.Chr (Ascii.eqb c).
Definition digit : Re.regex := Re.Chr isdigit.
Definition blanks : Re.regex := Re.Star true (Re.Chr isspace).

(** [r'\d+'] *)
Definition digits_pattern : Re.regex := Re.Plus digit.

(** One group of the floor area pattern: a comma and a run of digits. *)
Definition group_pattern : Re.regex := Re.Cat (ch ",") (Re.Plus digit).

(** [r'\b\d+(?:,\d+)*\b'] *)
Definition floor_area_pattern : Re.regex :=
  Re.Cat Re.WordB
    (Re.Cat (Re.Plus digit)
       (Re.Cat (Re.Star true group_pattern) Re.WordB)).

(** The array literal: an opening bracket, as few characters as possible
    (any character, under [re.DOTALL]) and a closing bracket. *)
Definition array_literal : Re.regex :=
  Re.Cat (ch "[") (Re.Cat (Re.Star false (Re.Chr Re.any_char)) (ch "]")).

(** The assignment to [window.MosaicPhotoUrls], ending in a semicolon;
    [lit] is the pattern of the array literal, grouped or not. *)
Definition assignment (lit : Re.regex) : Re.regex :=
  Re.Cat (Re.Lit "window.MosaicPhotoUrls")
    (Re.Cat blanks (Re.Cat (ch "=") (Re.Cat blanks (Re.Cat lit (ch ";"))))).

(** The pattern of line 83, without a group. *)
Definition pattern : Re.regex := assignment array_literal.

(** The pattern of line 86, the literal being group 1. *)
Definition pattern_group : Re.regex := assignment (Re.Group array_literal).

(** ** The field extractors *)

(** [parse_region], lines 74-79 *)
Definition parse_region (full_address : option string) : result string :=
  match full_address with
  | Some s =>
      if truthy (PStr s) then
        let address_parts := split "," s in
        if Nat.leb 2 (List.length address_parts) then
          a <- getitem address_parts (-2)%Z ;;
          b <- getitem address_parts (-1)%Z ;;
          Ok (join ", " [strip a; strip b])
        else Ok EmptyString
      else Ok EmptyString
  | None => Ok EmptyString
  end.

(** [extract_image_urls], lines 82-89 *)
Definition extract_image_urls (soup : Bs4.soup) : result Json.value :=
  match Bs4.find "script" [] (Bs4.Matching pattern) soup with
  | Some script_tag =>
      image_urls_str <-
        Re.search_value pattern_group (Bs4.string_of (Bs4.element script_tag)) ;;
      match image_urls_str with
      | Some m => Json.loads (Re.group1 m)
      | None => Ok (Json.JArray [])
      end
  | None => Ok (Json.JArray [])
  end.

(** [extract_number_from_tag], lines 92-98 *)
Definition extract_number_from_tag (tag : option Bs4.located)
  : result (option Z) :=
  match tag with
  | Some t =>
      let text := strip (Bs4.text (Bs4.element t)) in
      let numbers := Re.findall digits_pattern text in
      match numbers with
      | _ :: _ =>
          first <- getitem numbers 0%Z ;;
          n <- int_of_str first ;;
          Ok (Some n)
      | [] => Ok None
      end
  | None => Ok None
  end.

(** [get_text_or_default] with its default [None], lines 101-102 *)
Definition get_text_or_default (tag : option Bs4.located) : option string :=
  match tag with
  | Some t => Some (strip (Bs4.text (Bs4.element t)))
  | None => None
  end.

(** [extract_value_by_title], lines 105-115 *)
Definition extract_value_by_title (soup : Bs4.soup) (title : string)
  : result value :=
  match Bs4.find "div" [("class", "carac-title")] (Bs4.Exactly title) soup with
  | Some title_tag =>
      match Bs4.find_next_sibling title_tag "div" [("class", "carac-value")] with
      | Some value_tag =>
          let value_text := strip (Bs4.text (Bs4.element value_tag)) in
          match int_of_str value_text with
          | Ok n => Ok (PInt n)
          | Raise ValueError => Ok (PStr value_text)
          | Raise e => Raise e
          end
      | None => Ok PNone
      end
  | None => Ok PNone
  end.

(** [normalize_floor_area], lines 118-124 *)
Definition normalize_floor_area (floor_area : value) : result (option Z) :=
  if truthy floor_area then
    value_match <- Re.search_value floor_area_pattern floor_area ;;
    match value_match with
    | Some m =>
        n <- int_of_str (remove_char "," (Re.group0 m)) ;;
        Ok (Some n)
    | None => Ok None
    end
  else Ok None.

(** The floor area of line 64: the characteristic, normalised. *)
Definition floor_area_field (soup : Bs4.soup) : result (option Z) :=
  raw <- extract_value_by_title soup "Floor Area" ;;
  normalize_floor_area raw.

(** [extract_rent_period_and_type], lines 127-141 *)
Definition extract_rent_period_and_type (soup : Bs4.soup)
  : option string * option string :=
  match Bs4.find "div" [("class", "price-container")] Bs4.AnyString soup with
  | Some price_container =>
      let price_text := strip (Bs4.text (Bs4.element price_container)) in
      if contains "month" (lower price_text) then (Some "month", Some "rent")
      else if contains "week" (lower price_text) then (Some "week", Some "rent")
      else (None, None)
  | None => (None, None)
  end.

(** The body of [parse_announcement] after the page has been fetched and
    parsed, lines 49-71.  The keyword arguments are evaluated in the order
    they are written, so the first one that raises decides the exception. *)
Definition extract (announcement_url : string) (soup : Bs4.soup)
  : result Announcement :=
  let price_tag := Bs4.find "meta" [("itemprop", "price")] Bs4.AnyString soup in
  _additional_features <- extract_value_by_title soup "Additional Features" ;;
  let f_ref := get_text_or_default
                 (Bs4.find "span" [("id", "ListingDisplayId")] Bs4.AnyString soup) in
  let f_rent_period := fst (extract_rent_period_and_type soup) in
  let f_type := snd (extract_rent_period_and_type soup) in
  let f_title := get_text_or_default
                   (Bs4.find "span" [("data-id", "PageTitle")] Bs4.AnyString soup) in
  let f_address := get_text_or_default
                     (Bs4.find "h2" [("class", "pt-1")] Bs4.AnyString soup) in
  f_region <- parse_region
                (get_text_or_default
                   (Bs4.find "h2" [("class", "pt-1")] Bs4.AnyString soup)) ;;
  let f_description := get_text_or_default
                         (Bs4.find "div" [("itemprop", "description")] Bs4.AnyString soup) in
  f_images <- extract_image_urls soup ;;
  f_price <- match price_tag with
             | Some t => c <- Bs4.getitem (Bs4.element t) "content" ;; Ok (Some c)
             | None => Ok None
             end ;;
  f_bedrooms <- extract_number_from_tag
                  (Bs4.find "div" [("class", "col-lg-3 col-sm-6 cac")] Bs4.AnyString soup) ;;
  f_bathrooms <- extract_number_from_tag
                   (Bs4.find "div" [("class", "col-lg-3 col-sm-6 sdb")] Bs4.AnyString soup) ;;
  f_floor_area <- floor_area_field soup ;;
  f_parking_spaces <- extract_value_by_title soup "Parking Spaces" ;;
  f_additional_features <- extract_value_by_title soup "Additional Features" ;;
  let f_realtor := get_text_or_default
                     (Bs4.find "h1" [("class", "broker-info__broker-title")] Bs4.AnyString soup) in
  let f_phone := get_text_or_default
                   (Bs4.find "a" [("itemprop", "telephone")] Bs4.AnyString soup) in
  let f_latitude := get_text_or_default
                      (Bs4.find "span" [("id", "PropertyLat")] Bs4.AnyString soup) in
  let f_longitude := get_text_or_default
                       (Bs4.find "span" [("id", "PropertyLng")] Bs4.AnyString soup) in
  Ok (MkAnnouncement announcement_url f_ref f_rent_period f_type f_title
        f_address (Some f_region) f_description f_images f_price f_bedrooms
        f_bathrooms f_floor_area f_parking_spaces f_additional_features
        f_realtor f_phone f_latitude f_longitude).

(** ** The traversal: state, effects and the two loops *)

(** A line written by [print]; the text of an exception is not modelled. *)
Inductive line : Type :=
| Line (s : string)
| ErrorLine (e : exn).

(** The local variables of [parse_announcements] and what the run has done
    to the outside: the URLs requested, the lines printed, the seconds
    slept. *)
Record state : Type := MkState {
  announcements : list Announcement;
  page_count : nat;
  parsed_announcements : nat;
  requests : list string;
  stdout : list line;
  slept : nat
}.

(** The site: what the k-th request of the run (counting from 0) gets for
    its URL, either the parsed page or the exception that [session.get] or
    [raise_for_status] raises. *)
Definition world : Type := nat -> string -> result Bs4.soup.

(** Computations that change the state and may raise. *)
Definition M (A : Type) : Type := state -> state * result A.

Definition ret {A : Type} (a : A) : M A := fun st => (st, Ok a).

Definition bindM {A B : Type} (c : M A) (f : A -> M B) : M B :=
  fun st =>
    match c st with
    | (st', Ok a) => f a st'
    | (st', Raise e) => (st', Raise e)
    end.

Notation "x <~ c1 ;; c2" := (bindM c1 (fun x => c2))
  (at level 61, c1 at next level, right associativity).

Definition lift {A : Type} (r : result A) : M A := fun st => (st, r).

Definition modify (f : state -> state) : M unit := fun st => (f st, Ok tt).

Definition print (l : state -> line) : M unit :=
  fun st =>
    (MkState (announcements st) (page_count st) (parsed_announcements st)
       (requests st) (stdout st ++ [l st]) (slept st), Ok tt).

Definition sleep (seconds : nat) : M unit :=
  modify (fun st =>
    MkState (announcements st) (page_count st) (parsed_announcements st)
      (requests st) (stdout st) (slept st + seconds)).

Definition append_announcement (a : Announcement) : M unit :=
  modify (fun st =>
    MkState (announcements st ++ [a]) (page_count st) (parsed_announcements st)
      (requests st) (stdout st) (slept st)).

Definition incr_parsed : M unit :=
  modify (fun st =>
    MkState (announcements st) (page_count st) (S (parsed_announcements st))
      (requests st) (stdout st) (slept st)).

Definition incr_page_count : M unit :=
  modify (fun st =>
    MkState (announcements st) (S (page_count st)) (parsed_announcements st)
      (requests st) (stdout st) (slept st)).

Definition str_of_int (z : Z) : string := NilEmpty.string_of_int (Z.to_int z).

(** [fetch_page], lines 40-43, followed by the parse of the text. *)
Definition fetch_page (w : world) (url : string) : M Bs4.soup :=
  fun st =>
    (MkState (announcements st) (page_count st) (parsed_announcements st)
       (requests st ++ [url]) (stdout st) (slept st),
     w (List.length (requests st)) url).

(** [parse_announcement], lines 46-71 *)
Definition parse_announcement (w : world) (announcement_url : string)
  : M Announcement :=
  soup <~ fetch_page w announcement_url ;;
  lift (extract announcement_url soup).

(** URL prefix for relative links, line 145 *)
Definition prefix : string := "https://realtylink.org".

(** The [for link in links] loop, lines 165-173. *)
Fixpoint for_links (w : world) (limit : Z) (links : list Bs4.tag) : M unit :=
  match links with
  | [] => ret tt
  | link :: links' =>
      fun st =>
        if (limit <=? Z.of_nat (List.length (announcements st)))%Z
        then (st, Ok tt)
        else
          (href <~ lift (Bs4.getitem link "href") ;;
           announcement <~ parse_announcement w (prefix ++ href) ;;
           _ <~ append_announcement announcement ;;
           _ <~ incr_parsed ;;
           _ <~ print (fun s =>
                  Line (str_of_nat (parsed_announcements s) ++ "/"
                        ++ str_of_int limit ++ " parsed")) ;;
           for_links w limit links') st
  end.

(** The selection of line 163. *)
Definition select_links (soup : Bs4.soup) : list Bs4.tag :=
  Bs4.select_div_a "property-thumbnail-feature"
    "property-thumbnail-summary-link" "href" soup.

(** The body of the [try], lines 159-176. *)
Definition try_body (w : world) (limit : Z) (page_url : string) : M unit :=
  soup <~ fetch_page w page_url ;;
  let links := select_links soup in
  _ <~ for_links w limit links ;;
  sleep 1.

(** The URL of line 154. *)
Definition page_url (url : string) (page_count : nat) : string :=
  url ++ "&page=" ++ str_of_nat page_count.

(** One pass through the body of the [while], lines 153-180: [true] when the
    loop goes on, [false] after the [break]. *)
Definition iteration (w : world) (url : string) (limit : Z) : M bool :=
  _ <~ incr_page_count ;;
  fun st =>
    let page := page_url url (page_count st) in
    (_ <~ print (fun s => Line ("Start parsing page " ++ str_of_nat (page_count s))) ;;
     fun st1 =>
       match try_body w limit page st1 with
       | (st2, Ok _) => (st2, Ok true)
       | (st2, Raise RequestException) =>
           (_ <~ print (fun _ => ErrorLine RequestException) ;; ret false) st2
       | (st2, Raise e) => (st2, Raise e)
       end) st.

(** The [while] loop, lines 152-180.  [None]: the loop is still running
    when the fuel, a bound on the number of passes, is used up. *)
Fixpoint while_loop (fuel : nat) (w : world) (url : string) (limit : Z)
  (st : state) : state * option (result unit) :=
  match fuel with
  | O => (st, None)
  | S fuel' =>
      if (Z.of_nat (List.length (announcements st)) <? limit)%Z then
        match iteration w url limit st with
        | (st', Ok true) => while_loop fuel' w url limit st'
        | (st', Ok false) => (st', Some (Ok tt))
        | (st', Raise e) => (st', Some (Raise e))
        end
      else (st, Some (Ok tt))
  end.

Definition initial : state := MkState [] 0 0 [] [] 0.

(** [parse_announcements], lines 144-182: the final state and, unless the
    fuel ran out, the list returned or the exception that escapes. *)
Definition parse_announcements (fuel : nat) (w : world) (url : string)
  (limit : Z) : state * option (result (list Announcement)) :=
  match while_loop fuel w url limit initial with
  | (st, Some (Ok _)) => (st, Some (Ok (announcements st)))
  | (st, Some (Raise e)) => (st, Some (Raise e))
  | (st, None) => (st, None)
  end.

(** ** Points of a run *)

(** The state in which the body of the [try] starts, one pass after [st]. *)
Definition entered (st : state) : state :=
  MkState (announcements st) (S (page_count st)) (parsed_announcements st)
    (requests st)
    (stdout st ++ [Line ("Start parsing page " ++ str_of_nat (S (page_count st)))])
    (slept st).

(** The state after a request for [u]. *)
Definition requested (u : string) (st : state) : state :=
  MkState (announcements st) (page_count st) (parsed_announcements st)
    (requests st ++ [u]) (stdout st) (slept st).

(** [request_fails w url limit st at_ u]: in the pass that starts in [st],
    the request for [u], issued in the state [at_], raises a
    [RequestException].  It is the request for the index page, or the
    request for the page of a link after the links before it have been
    scanned without reaching the target. *)
Inductive request_fails (w : world) (url : string) (limit : Z) (st : state)
  : state -> string -> Prop :=
| index_fails :
    w (List.length (requests st)) (page_url url (S (page_count st)))
    = Raise RequestException ->
    request_fails w url limit st (entered st) (page_url url (S (page_count st)))
| detail_fails (soup : Bs4.soup) (scanned : list Bs4.tag) (link : Bs4.tag)
    (later : list Bs4.tag) (href : string) (st1 : state) :
    w (List.length (requests st)) (page_url url (S (page_count st))) = Ok soup ->
    select_links soup = (scanned ++ link :: later)%list ->
    for_links w limit scanned
      (requested (page_url url (S (page_count st))) (entered st)) = (st1, Ok tt) ->
    (Z.of_nat (List.length (announcements st1)) < limit)%Z ->
    Bs4.getitem link "href" = Ok href ->
    w (List.length (requests st1)) (prefix ++ href) = Raise RequestException ->
    request_fails w url limit st st1 (prefix ++ href).

(** ** The price field, and what a record and a run keep true *)

(** The price of a page, line 61. *)
Definition price_field (soup : Bs4.soup) : result (option string) :=
  match Bs4.find "meta" [("itemprop", "price")] Bs4.AnyString soup with
  | Some t => c <- Bs4.getitem (Bs4.element t) "content" ;; Ok (Some c)
  | None => Ok None
  end.

(** The bedrooms and the bathrooms of a page, lines 62 and 63. *)
Definition bedrooms_field (soup : Bs4.soup) : result (option Z) :=
  extract_number_from_tag
    (Bs4.find "div" [("class", "col-lg-3 col-sm-6 cac")] Bs4.AnyString soup).

Definition bathrooms_field (soup : Bs4.soup) : result (option Z) :=
  extract_number_from_tag
    (Bs4.find "div" [("class", "col-lg-3 col-sm-6 sdb")] Bs4.AnyString soup).

(** The fields that can fail, in the order in which line 51 evaluates
    them, each reduced to its outcome. *)
Definition outcome {A : Type} (r : result A) : result unit :=
  match r with
  | Ok _ => Ok tt
  | Raise e => Raise e
  end.

Definition failing_fields (soup : Bs4.soup) : list (result unit) :=
  [outcome (extract_image_urls soup); outcome (price_field soup);
   outcome (bedrooms_field soup); outcome (bathrooms_field soup);
   outcome (floor_area_field soup)].

(** The first exception of a list of outcomes. *)
Fixpoint first_raise (l : list (result unit)) : option exn :=
  match l with
  | [] => None
  | Ok _ :: l' => first_raise l'
  | Raise e :: _ => Some e
  end.

(** The text fields of a record. *)
Definition text_fields (r : Announcement) : list (option string) :=
  [ref r; title r; address r; description r; realtor r; phone r;
   latitude r; longitude r].

(** What holds of a record produced for [url]. *)
Definition record_sound (url : string) (r : Announcement) : Prop :=
  link r = url
  /\ In (rent_period r, type_ r)
        [(Some "month", Some "rent"); (Some "week", Some "rent"); (None, None)]
  /\ (forall s, In (Some s) (text_fields r) -> strip s = s)
  /\ (exists s, region r = Some s)
  /\ (exists l, images r = Json.JArray l)
  /\ (forall n, In (Some n) [bedrooms r; bathrooms r; floor_area r] -> (0 <= n)%Z)
  /\ (forall text,
        In (PStr text) [parking_spaces r; additional_features r] ->
        strip text = text /\ int_of_str text = Raise ValueError).

(** What the collection, the counter of parsed records and the requests
    satisfy at every point of a run with target [limit]. *)
Definition collected (limit : Z) (st : state) : Prop :=
  parsed_announcements st = List.length (announcements st)
  /\ (Z.of_nat (List.length (announcements st)) <= Z.max 0 limit)%Z
  /\ Forall (fun r => In (link r) (requests st)
                      /\ exists href, link r = prefix ++ href)
       (announcements st).

(** Between two passes: one second slept and one request per page, one
    request per record. *)
Definition settled (st : state) : Prop :=
  slept st = page_count st
  /\ List.length (requests st)
     = page_count st + List.length (announcements st).

(** After a pass that was cut short: the pass did not sleep, and at most
    one request gave no record. *)
Definition cut_short (st : state) : Prop :=
  S (slept st) = page_count st
  /\ page_count st + List.length (announcements st)
     <= List.length (requests st)
     <= S (page_count st + List.length (announcements st)).

(** A link with an [href]. *)
Definition has_href (l : Bs4.tag) : Prop :=
  exists href, Bs4.getitem l "href" = Ok href.

(** The line printed after the [i]-th record. *)
Definition progress (limit : Z) (i : nat) : line :=
  Line (str_of_nat i ++ "/" ++ str_of_int limit ++ " parsed").

(** The record [a] was extracted from the page of the link [l]. *)
Definition record_of (w : world) (l : Bs4.tag) (a : Announcement) : Prop :=
  exists href k soup,
    Bs4.getitem l "href" = Ok href
    /\ w k (prefix ++ href) = Ok soup
    /\ extract (prefix ++ href) soup = Ok a.

(** Every index page has a link, and the page of each of its links, at the
    moment the scan requests it, gives a record: the link number [j] of an
    index page requested as request [k] is requested as request
    [k + 1 + j]. *)
Definition rich (w : world) (url : string) : Prop :=
  forall k n, exists soup,
    w k (page_url url n) = Ok soup
    /\ select_links soup <> []
    /\ forall j link href,
         nth_error (select_links soup) j = Some link ->
         Bs4.getitem link "href" = Ok href ->
         exists page,
           w (k + 1 + j) (prefix ++ href) = Ok page
           /\ is_ok (extract (prefix ++ href) page) = true.

(** What a scan of [links] that ends normally has done between [st] and
    [st']. *)
Definition scanned (w : world) (limit : Z) (links : list Bs4.tag)
  (st st' : state) : Prop :=
  exists added,
    announcements st' = (announcements st ++ added)%list
    /\ requests st' = (requests st ++ map link added)%list
    /\ stdout st'
       = (stdout st
          ++ map (progress limit)
               (seq (S (parsed_announcements st)) (List.length added)))%list
    /\ Forall2 (record_of w)
         (firstn (Z.to_nat (limit - Z.of_nat (List.length (announcements st))))
            links)
         added.

(** One line per page and one per record. *)
Definition lines_settled (st : state) : Prop :=
  List.length (stdout st) = page_count st + List.length (announcements st).

(** The same and, last, the line of the request error. *)
Definition lines_after_break (st : state) : Prop :=
  List.length (stdout st) = S (page_count st + List.length (announcements st))
  /\ last (stdout st) (Line EmptyString) = ErrorLine RequestException.

End Main.

(* ================================================================== *)
(** * What the specification says, in its own words *)
(* ================================================================== *)

Module Spec.

Fixpoint all_chars (p : ascii -> bool) (s : string) : bool :=
  match s with
  | EmptyString => true
  | String c s' => p c && all_chars p s'
  end.

Definition not_comma (c : ascii) : bool := negb (Ascii.eqb c ",").

Fixpoint take_while (p : ascii -> bool) (s : string) : string :=
  match s with
  | String c s' => if p c then String c (take_while p s') else EmptyString
  | EmptyString => EmptyString
  end.

Fixpoint drop_while (p : ascii -> bool) (s : string) : string :=
  match s with
  | String c s' => if p c then drop_while p s' else s
  | EmptyString => EmptyString
  end.

(** The number a string of decimal digits denotes. *)
Fixpoint decimal_from (acc : Z) (s : string) : Z :=
  match s with
  | EmptyString => acc
  | String c s' => decimal_from (acc * 10 + Py.digit_val c)%Z s'
  end.

Definition decimal (s : string) : Z := decimal_from 0 s.

(** The first run of digits of a text. *)
Fixpoint first_digit_run (s : string) : option string :=
  match s with
  | EmptyString => None
  | String c s' =>
      if Py.isdigit c then Some (String c (take_while Py.isdigit s'))
      else first_digit_run s'
  end.

(** Numeric extraction: the first run of digits, as an integer. *)
Definition numeric (text : string) : option Z :=
  option_map decimal (first_digit_run text).

(** A digit run that may contain grouping commas, read from just after one
    of its digits: digits, and commas that a digit follows. *)
Fixpoint grouped_tail (s : string) : string :=
  match s with
  | EmptyString => EmptyString
  | String c s' =>
      if Py.isdigit c then String c (grouped_tail s')
      else if Ascii.eqb c "," then
        match s' with
        | String d _ => if Py.isdigit d then String c (grouped_tail s') else EmptyString
        | EmptyString => EmptyString
        end
      else EmptyString
  end.

(** What follows such a run. *)
Fixpoint after_grouped (s : string) : string :=
  match s with
  | EmptyString => EmptyString
  | String c s' =>
      if Py.isdigit c then after_grouped s'
      else if Ascii.eqb c "," then
        match s' with
        | String d _ => if Py.isdigit d then after_grouped s' else s
        | EmptyString => s
        end
      else s
  end.

(** The first digit run that may contain grouping commas. *)
Fixpoint first_grouped_run (s : string) : option string :=
  match s with
  | EmptyString => None
  | String c s' =>
      if Py.isdigit c then Some (String c (grouped_tail s'))
      else first_grouped_run s'
  end.

(** Normalized numeric extraction: the first digit run that may contain
    grouping commas, the commas stripped, as an integer. *)
Definition normalized_numeric (text : string) : option Z :=
  option_map (fun run => decimal (Py.remove_char "," run)) (first_grouped_run text).

(** A digit or a comma. *)
Definition digit_or_comma (c : ascii) : bool := Py.isdigit c || Ascii.eqb c ",".

(** The first digit run that may contain grouping commas is delimited: no
    letter, digit or underscore stands just before its first digit or just
    after its last one.  [p] is the character before the text. *)
Fixpoint first_run_delimited_from (p : option ascii) (s : string) : bool :=
  match s with
  | EmptyString => true
  | String c s' =>
      if Py.isdigit c
      then negb (Re.isword_opt p)
           && negb (Re.isword_opt (Re.peek (after_grouped s')))
      else first_run_delimited_from (Some c) s'
  end.

Definition first_run_delimited (s : string) : bool :=
  first_run_delimited_from None s.

(** That run has no more digits than [int] converts. *)
Definition first_run_convertible (s : string) : bool :=
  match first_grouped_run s with
  | Some run => Nat.leb (Py.count_digits run) Py.int_max_str_digits
  | None => true
  end.

Definition starts_digit (s : string) : bool :=
  match s with
  | String c _ => Py.isdigit c
  | EmptyString => false
  end.

(** [s] without its prefix [w]. *)
Fixpoint drop_prefix (w s : string) : option string :=
  match w, s with
  | EmptyString, _ => Some s
  | String a w', String b s' => if Ascii.eqb a b then drop_prefix w' s' else None
  | String _ _, EmptyString => None
  end.

(** The variable the photo array is assigned to. *)
Definition variable : string := "window.MosaicPhotoUrls".

(** The text of an assignment to the variable of the array literal made of
    an opening bracket, [body] and a closing bracket, with the blanks [ws1]
    and [ws2] around the equals sign, closed by a semicolon and followed by
    [post]. *)
Definition assignment_text (ws1 ws2 body post : string) : string :=
  variable ++ ws1 ++ String "=" (ws2 ++ String "[" (body ++ String "]" (String ";" post))).

(** [s] begins as an assignment of an array to the variable does: the
    variable, blanks, an equals sign, blanks and an opening bracket. *)
Definition starts_assignment (s : string) : bool :=
  match drop_prefix variable s with
  | Some t =>
      match drop_while Py.isspace t with
      | String "="%char t' =>
          match drop_while Py.isspace t' with
          | String "["%char _ => true
          | _ => false
          end
      | _ => false
      end
  | None => false
  end.

(** The text [pre ++ tail] begins so at a position inside [pre]. *)
Fixpoint assigned_before (pre tail : string) : bool :=
  match pre with
  | EmptyString => false
  | String _ pre' => starts_assignment (pre ++ tail) || assigned_before pre' tail
  end.

(** A character that is not a blank. *)
Definition unspaced (c : ascii) : bool := negb (Py.isspace c).

(** [needle], in lower case, occurs in [hay] whatever the case of [hay]. *)
Fixpoint prefix_ci (needle hay : string) : bool :=
  match needle, hay with
  | EmptyString, _ => true
  | String a n', String b h' => Ascii.eqb a (Py.lower_char b) && prefix_ci n' h'
  | String _ _, EmptyString => false
  end.

Fixpoint contains_ci (needle hay : string) : bool :=
  prefix_ci needle hay
  || match hay with
     | EmptyString => false
     | String _ hay' => contains_ci needle hay'
     end.

(** Rent classification of a price text: (rent_period, type). *)
Definition rent_classification (text : string) : option string * option string :=
  if contains_ci "month" text then (Some "month", Some "rent")
  else if contains_ci "week" text then (Some "week", Some "rent")
  else (None, None).

(** Region derivation as the specification words it: the last two trimmed
    parts of an address with at least two comma-separated parts, the empty
    string for a present address with fewer, and no value for an absent
    address. *)
Definition region (address : option string) : option string :=
  match address with
  | None => None
  | Some s =>
      match rev (Py.split "," s) with
      | last :: before :: _ => Some (Py.strip before ++ ", " ++ Py.strip last)
      | _ => Some EmptyString
      end
  end.

(** The value a call returns, [None] being Python's [None]. *)
Definition returned_str (r : Py.result string) : option (option string) :=
  match r with
  | Py.Ok s => Some (Some s)
  | Py.Raise _ => None
  end.

End Spec.

(* ================================================================== *)
(** * Sample pages *)
(* ================================================================== *)

Module Examples.

Import Bs4.

Definition quote : string := String "034" EmptyString.

(** One entry of the characteristic list: a label and its value. *)
Definition carac (label val : string) : list node :=
  [Tag "div" [("class", "carac-title")] [NavigableString label];
   NavigableString " ";
   Tag "div" [("class", "carac-value")] [Tag "span" [] [NavigableString val]]].

(** A listing page with the given Floor Area value and inline script. *)
Definition listing (floor_area script : string) : soup :=
  [Tag "html" []
     [Tag "body" []
        [Tag "span" [("id", "ListingDisplayId")] [NavigableString " 28016746 "];
         Tag "h2" [("class", "pt-1")] [NavigableString "123 Main St, Springfield, IL"];
         Tag "div" [("class", "price-container")] [NavigableString "2,000$/month"];
         Tag "meta" [("itemprop", "price"); ("content", "2000")] [];
         Tag "div" [("class", "col-lg-3 col-sm-6 cac")] [NavigableString " 3 chambres "];
         Tag "div" [("class", "carac-container")]
           (carac "Floor Area" floor_area ++ carac "Parking Spaces" "2");
         Tag "script" [] [Special script]]]].

Definition no_photos : string := "window.MosaicPhotoUrls = [];".

(** The inside of an array literal of two photo URLs. *)
Definition two_photos : string :=
  quote ++ "https://media.example/1.jpg" ++ quote ++ ", "
  ++ quote ++ "https://media.example/2.jpg" ++ quote.

(** A script that assigns the two photo URLs. *)
Definition photos_script : string :=
  "var zoom = 1; " ++ Spec.assignment_text " " " " two_photos " init();".

(** A photo URL in which a semicolon follows a closing bracket. *)
Definition bracket_url : string := "https://media.example/p?sizes=[1];k=2".

(** A script that assigns an array of that one URL. *)
Definition bracket_script : string :=
  Spec.assignment_text " " " " (quote ++ bracket_url ++ quote) EmptyString.

(** A page whose price element has no [content] attribute. *)
Definition price_without_content : soup :=
  [Tag "meta" [("itemprop", "price")] []].

(** An assignment whose array literal is not JSON. *)
Definition broken_photos : string := "window.MosaicPhotoUrls = [abc];".

(** A summary link, as a node and as the element a selection returns. *)
Definition summary_attrs (href : string) : list (string * string) :=
  [("class", "property-thumbnail-summary-link"); ("href", href)].

Definition summary_link (href : string) : tag := MkTag "a" (summary_attrs href) [].

(** An index page with one summary link per href. *)
Definition index_page (hrefs : list string) : soup :=
  [Tag "div" [("class", "property-thumbnail-feature")]
     (map (fun h => Tag "a" (summary_attrs h) []) hrefs)].

(** The record of the page [listing "850 sqft" no_photos] fetched at [url]. *)
Definition record (url : string) : Main.Announcement :=
  Main.MkAnnouncement url (Some "28016746") (Some "month") (Some "rent") None
    (Some "123 Main St, Springfield, IL") (Some "Springfield, IL") None
    (Json.JArray []) (Some "2000") (Some 3%Z) None (Some 850%Z) (Py.PInt 2)
    Py.PNone None None None None.

Definition base : string := "https://realtylink.org/en/properties~for-rent?view=Thumbnail&uc=1".

(** A site that is exhausted: every page is empty. *)
Definition exhausted : Main.world := fun _ _ => Py.Ok [].

(** A site whose first index page has five links and that fails on the
    second index page, the seventh request. *)
Definition five_then_down : Main.world :=
  fun k _ =>
    if Nat.eqb k 0 then Py.Ok (index_page ["/en/a"; "/en/b"; "/en/c"; "/en/d"; "/en/e"])
    else if Nat.eqb k 6 then Py.Raise Py.RequestException
    else Py.Ok (listing "850 sqft" no_photos).

(** A site with one listing, whose page is [doc]. *)
Definition one_listing (doc : soup) : Main.world :=
  fun k _ => if Nat.eqb k 0 then Py.Ok (index_page ["/en/a"]) else Py.Ok doc.

(** A site whose first index page has three links. *)
Definition three_links : Main.world :=
  fun k _ =>
    if Nat.eqb k 0 then Py.Ok (index_page ["/en/a"; "/en/b"; "/en/c"])
    else Py.Ok (listing "850 sqft" no_photos).

(** A page that is at once an index page with two summary links and a
    listing. *)
Definition portal : soup :=
  (index_page ["/en/a"; "/en/b"]
   ++ listing "850 sqft" no_photos)%list.

(** A site that answers every request with that page. *)
Definition endless : Main.world := fun _ _ => Py.Ok portal.

(** A run of [n] digits. *)
Fixpoint nines (n : nat) : string :=
  match n with
  | O => EmptyString
  | S n' => String "9" (nines n')
  end.

(** [n] times the character [c], then [s]. *)
Fixpoint repeated (c : ascii) (n : nat) (s : string) : string :=
  match n with
  | O => s
  | S n' => String c (repeated c n' s)
  end.

(** A script in which a comment that mentions an assignment comes before
    the assignment of the two photo URLs. *)
Definition commented_script : string :=
  "/* window.MosaicPhotoUrls = [] */ " ++ Spec.assignment_text " " " " two_photos EmptyString.

(** A script that assigns the two photo URLs and ends without a
    semicolon. *)
Definition unterminated_script : string :=
  "window.MosaicPhotoUrls = [" ++ two_photos ++ "]".

(** A listing page that gives nothing but the bedrooms. *)
Definition bedrooms_page (text : string) : soup :=
  [Tag "div" [("class", "col-lg-3 col-sm-6 cac")] [NavigableString text]].

End Examples.

(* ================================================================== *)
(** * The library models on sample inputs *)
(* ================================================================== *)

(** Each value below is the one CPython 3.11 gives on the same input. *)

Example int_samples :
  map Py.int_of_str
    ["12"; " 12 "; "+5"; "-5"; "1_000"; "007"; "-0";
     "_1"; "1__0"; "7_"; "+"; "1 2"; "1.5"; "0x10"; "- 5"; EmptyString]
  = [Py.Ok 12%Z; Py.Ok 12%Z; Py.Ok 5%Z; Py.Ok (-5)%Z; Py.Ok 1000%Z; Py.Ok 7%Z; Py.Ok 0%Z;
     Py.Raise Py.ValueError; Py.Raise Py.ValueError; Py.Raise Py.ValueError;
     Py.Raise Py.ValueError; Py.Raise Py.ValueError; Py.Raise Py.ValueError;
     Py.Raise Py.ValueError; Py.Raise Py.ValueError; Py.Raise Py.ValueError].
Proof. vm_compute. reflexivity. Qed.

Example str_samples :
  Py.split "," "a,b" = ["a"; "b"]
  /\ Py.split "," EmptyString = [EmptyString]
  /\ Py.split "," "," = [EmptyString; EmptyString]
  /\ Py.strip "  a b  " = "a b"
  /\ Py.lower "2,000$ /Month" = "2,000$ /month"
  /\ Py.contains "month" "2,000$ /month" = true
  /\ Py.str_of_nat 0 = "0"
  /\ Py.str_of_nat 120 = "120".
Proof. vm_compute. repeat split; reflexivity. Qed.

Example floor_area_pattern_samples :
  map (fun s => option_map Re.group0 (Re.search Main.floor_area_pattern s))
    ["1,234 sq ft"; "850sqft"; "Unit5 has 1,200 sqft"; "1,234x"; "a1 2";
     "850sqft,12"; "1,,2"; "12,"; "_12 3"; "1,234,x"; EmptyString]
  = [Some "1,234"; None; Some "1,200"; Some "1"; Some "2";
     Some "12"; Some "1"; Some "12"; Some "3"; Some "1,234"; None].
Proof. vm_compute. reflexivity. Qed.

Example digits_pattern_samples :
  map (Re.findall Main.digits_pattern) ["3 chambres"; "abc"; "a12b34"; "  "]
  = [["3"]; []; ["12"; "34"]; []].
Proof. vm_compute. reflexivity. Qed.

Example pattern_samples :
  map (fun s => option_map Re.group1 (Re.search Main.pattern_group s))
    ["window.MosaicPhotoUrls = [];"; "x; window.MosaicPhotoUrls=[abc];x";
     "window.MosaicPhotoUrls = [1] ;"; "window.MosaicPhotoUrls = [[1];[2]];"]
  = [Some "[]"; Some "[abc]"; None; Some "[[1]"].
Proof. vm_compute. reflexivity. Qed.

Example json_samples :
  map Json.loads
    ["[]"; " [ ] "; "[1,2]"; "[1.5e3]"; "[-Infinity]"; "[true,false,null]";
     "[[],{}]"; "[-0]";
     "[1,]"; "[01]"; "[-]"; "[1.]"; "[.5]"; "[+1]"; "[1e]"; "[tru]"; "[1]x";
     "[abc]"; "[1"; "]"; EmptyString]
  = [Py.Ok (Json.JArray []); Py.Ok (Json.JArray []);
     Py.Ok (Json.JArray [Json.JInt 1; Json.JInt 2]);
     Py.Ok (Json.JArray [Json.JFloat "1.5e3"]);
     Py.Ok (Json.JArray [Json.JFloat "-Infinity"]);
     Py.Ok (Json.JArray [Json.JBool true; Json.JBool false; Json.JNull]);
     Py.Ok (Json.JArray [Json.JArray []; Json.JObject []]);
     Py.Ok (Json.JArray [Json.JInt 0]);
     Py.Raise Py.JSONDecodeError; Py.Raise Py.JSONDecodeError;
     Py.Raise Py.JSONDecodeError; Py.Raise Py.JSONDecodeError;
     Py.Raise Py.JSONDecodeError; Py.Raise Py.JSONDecodeError;
     Py.Raise Py.JSONDecodeError; Py.Raise Py.JSONDecodeError;
     Py.Raise Py.JSONDecodeError; Py.Raise Py.JSONDecodeError;
     Py.Raise Py.JSONDecodeError; Py.Raise Py.JSONDecodeError;
     Py.Raise Py.JSONDecodeError].
Proof. vm_compute. reflexivity. Qed.

Example json_string_samples :
  Json.loads ("[" ++ Examples.quote ++ "a\/b\u0041\ud83d\ude00" ++ Examples.quote ++ "]")
  = Py.Ok (Json.JArray [Json.JString [97; 47; 98; 65; 128512]%N])
  /\ Json.loads ("[" ++ Examples.quote ++ "a" ++ String "009" "b" ++ Examples.quote ++ "]")
     = Py.Raise Py.JSONDecodeError
  /\ Json.loads ("[" ++ Examples.quote ++ "\x" ++ Examples.quote ++ "]")
     = Py.Raise Py.JSONDecodeError
  /\ Json.loads ("{" ++ Examples.quote ++ "k" ++ Examples.quote ++ ":1,"
                 ++ Examples.quote ++ "k" ++ Examples.quote ++ ":2}")
     = Py.Ok (Json.JObject [([107%N], Json.JInt 2)]).
Proof. vm_compute. repeat split; reflexivity. Qed.

(** The limits: 4300 digits for [int], also inside [json.loads], where an
    integer that is too long counts only where a value is due and before
    any later error; and 992 levels of nesting for [json.loads] where the
    program calls it. *)
Example int_limit_samples :
  map (fun s => Main.outcome (Py.int_of_str s))
    [" " ++ Examples.nines 4300 ++ " "; Examples.nines 4301;
     Examples.repeated "0" 4301 EmptyString; "-" ++ Examples.nines 4301]
  = [Py.Ok tt; Py.Raise Py.ValueError; Py.Raise Py.ValueError;
     Py.Raise Py.ValueError].
Proof. vm_compute. reflexivity. Qed.

Example json_limit_samples :
  map (fun s => Main.outcome (Json.loads s))
    ["[" ++ Examples.nines 4300 ++ "]";
     "[" ++ Examples.nines 4301 ++ "]";
     "[-" ++ Examples.nines 4301 ++ "]";
     "[" ++ Examples.nines 4301 ++ ".]";
     "[" ++ Examples.nines 4301 ++ ".5]";
     "[" ++ Examples.nines 4301 ++ " @";
     "[@, " ++ Examples.nines 4301 ++ "]";
     "[1 " ++ Examples.nines 4301 ++ "]";
     "{" ++ Examples.nines 4301 ++ "}";
     "[0" ++ Examples.nines 4301 ++ "]";
     Examples.repeated "[" 992 (Examples.repeated "]" 992 EmptyString);
     Examples.repeated "[" 993 (Examples.repeated "]" 993 EmptyString);
     Examples.repeated "[" 993 "@";
     "[@" ++ Examples.repeated "[" 993 EmptyString;
     "[] " ++ Examples.repeated "[" 993 EmptyString]
  = [Py.Ok tt; Py.Raise Py.ValueError; Py.Raise Py.ValueError;
     Py.Raise Py.ValueError; Py.Ok tt; Py.Raise Py.ValueError;
     Py.Raise Py.JSONDecodeError; Py.Raise Py.JSONDecodeError;
     Py.Raise Py.JSONDecodeError; Py.Raise Py.JSONDecodeError;
     Py.Ok tt; Py.Raise Py.RecursionError; Py.Raise Py.RecursionError;
     Py.Raise Py.JSONDecodeError; Py.Raise Py.JSONDecodeError].
Proof. vm_compute. reflexivity. Qed.

Example listing_record :
  Main.extract "https://realtylink.org/en/a"
    (Examples.listing "850 sqft" Examples.no_photos)
  = Py.Ok (Examples.record "https://realtylink.org/en/a").
Proof. vm_compute. reflexivity. Qed.

(* ================================================================== *)
(** * Facts about strings and lists *)
(* ================================================================== *)

Section StringFacts.

Lemma str_app_nil_r (s : string) : s ++ EmptyString = s.
Proof. induction s as [|c s IH]; simpl; [reflexivity | now rewrite IH]. Qed.

Lemma str_app_assoc (a b c : string) : (a ++ b) ++ c = a ++ (b ++ c).
Proof. induction a as [|x a IH]; simpl; [reflexivity | now rewrite IH]. Qed.

Lemma str_app_cons_assoc (a : string) (c : ascii) (b d : string) :
  a ++ String c (b ++ d) = (a ++ String c b) ++ d.
Proof. now rewrite str_app_assoc. Qed.

Lemma str_length_app (a b : string) :
  String.length (a ++ b) = String.length a + String.length b.
Proof. induction a as [|x a IH]; simpl; [reflexivity | now rewrite IH]. Qed.

Lemma split_not_nil (sep : ascii) (s : string) : Py.split sep s <> [].
Proof.
  destruct s as [|c s]; simpl; [discriminate|].
  destruct (Ascii.eqb c sep); [discriminate|].
  destruct (Py.split sep s); discriminate.
Qed.

Lemma split_no_comma (s : string) :
  Spec.all_chars Spec.not_comma s = true -> Py.split "," s = [s].
Proof.
  induction s as [|c s IH]; simpl; intros H; [reflexivity|].
  apply andb_true_iff in H as [Hc Hs].
  unfold Spec.not_comma in Hc. apply negb_true_iff in Hc. rewrite Hc.
  now rewrite (IH Hs).
Qed.

Lemma split_app_comma (p b : string) :
  Spec.all_chars Spec.not_comma b = true ->
  Py.split "," (p ++ String "," b) = (Py.split "," p ++ [b])%list.
Proof.
  intros Hb. induction p as [|c p IH].
  - simpl. now rewrite (split_no_comma b Hb).
  - cbn [append Py.split]. rewrite IH.
    destruct (Ascii.eqb c ","); [reflexivity|].
    pose proof (split_not_nil "," p) as Hn.
    destruct (Py.split "," p) as [|q qs]; [contradiction|reflexivity].
Qed.

End StringFacts.

Section ListFacts.

Context {A : Type}.

Lemma getitem_last (l : list A) (a b : A) :
  Py.getitem (l ++ [a; b])%list (-1) = Py.Ok b.
Proof.
  unfold Py.getitem. rewrite List.length_app. cbn [List.length].
  replace (-1 <? 0)%Z with true by reflexivity.
  replace (Z.of_nat (List.length l + 2) + -1 <? 0)%Z with false by (symmetry; apply Z.ltb_ge; lia).
  replace (Z.to_nat (Z.of_nat (List.length l + 2) + -1)) with (List.length l + 1) by lia.
  rewrite nth_error_app2 by lia.
  replace (List.length l + 1 - List.length l) with 1 by lia. reflexivity.
Qed.

Lemma getitem_before_last (l : list A) (a b : A) :
  Py.getitem (l ++ [a; b])%list (-2) = Py.Ok a.
Proof.
  unfold Py.getitem. rewrite List.length_app. cbn [List.length].
  replace (-2 <? 0)%Z with true by reflexivity.
  replace (Z.of_nat (List.length l + 2) + -2 <? 0)%Z with false by (symmetry; apply Z.ltb_ge; lia).
  replace (Z.to_nat (Z.of_nat (List.length l + 2) + -2)) with (List.length l + 0) by lia.
  rewrite nth_error_app2 by lia.
  replace (List.length l + 0 - List.length l) with 0 by lia. reflexivity.
Qed.

(** A list of at least two elements ends in two elements. *)
Lemma two_last (l : list A) :
  2 <= List.length l -> exists l' a b, l = (l' ++ [a; b])%list.
Proof.
  intros H. destruct (rev l) as [|b [|a r]] eqn:E.
  - apply (f_equal (@List.length A)) in E. rewrite length_rev in E. simpl in E. lia.
  - apply (f_equal (@List.length A)) in E. rewrite length_rev in E. simpl in E. lia.
  - exists (rev r), a, b. rewrite <- (rev_involutive l), E. simpl.
    rewrite <- List.app_assoc. reflexivity.
Qed.

End ListFacts.

(* ================================================================== *)
(** * Region derivation *)
(* ================================================================== *)

Section Region.

Import Py Main.

Lemma parse_region_parts (s : string) (l : list string) (a b : string) :
  split "," s = (l ++ [a; b])%list ->
  parse_region (Some s) = Ok (strip a ++ ", " ++ strip b).
Proof.
  intros E. unfold parse_region.
  assert (Hs : truthy (PStr s) = true).
  { destruct s; [|reflexivity]. simpl in E. destruct l as [|? [|? ?]]; discriminate. }
  rewrite Hs, E.
  replace (Nat.leb 2 (List.length (l ++ [a; b])%list)) with true
    by (symmetry; apply Nat.leb_le; rewrite List.length_app; simpl; lia).
  rewrite getitem_before_last, getitem_last. reflexivity.
Qed.

Lemma parse_region_total (address : option string) :
  exists s, parse_region address = Ok s.
Proof.
  destruct address as [s|]; [|now exists EmptyString].
  unfold parse_region.
  destruct (truthy (PStr s)); [|now exists EmptyString].
  destruct (Nat.leb 2 (List.length (split "," s))) eqn:E; [|now exists EmptyString].
  apply Nat.leb_le in E. destruct (two_last _ E) as (l & a & b & El).
  rewrite El, getitem_before_last, getitem_last. simpl. eauto.
Qed.

Lemma parse_region_single (s : string) :
  Spec.all_chars Spec.not_comma s = true -> parse_region (Some s) = Ok EmptyString.
Proof.
  intros H. unfold parse_region. rewrite (split_no_comma s H). simpl.
  now destruct (negb (s =? "")).
Qed.

End Region.

Section RegionClaims.

Import Py Main.

(** C3, as amended.  Region derivation: an address with at least two
    comma-separated parts gives its last two parts, trimmed and joined with
    a comma and a blank (the address 123 Main St, Springfield, IL gives
    Springfield, IL); a present address without a comma gives the empty
    string; an absent address gives the empty string as well. *)
Theorem C3_region_derivation :
  (forall q a b,
      Spec.all_chars Spec.not_comma a = true ->
      Spec.all_chars Spec.not_comma b = true ->
      parse_region (Some (q ++ String "," (a ++ String "," b)))
      = Ok (strip a ++ ", " ++ strip b))
  /\ (forall a b,
      Spec.all_chars Spec.not_comma a = true ->
      Spec.all_chars Spec.not_comma b = true ->
      parse_region (Some (a ++ String "," b)) = Ok (strip a ++ ", " ++ strip b))
  /\ (forall s,
      Spec.all_chars Spec.not_comma s = true ->
      parse_region (Some s) = Ok EmptyString)
  /\ parse_region None = Ok EmptyString
  /\ parse_region (Some "123 Main St, Springfield, IL") = Ok "Springfield, IL"
  /\ parse_region (Some "123 Main St") = Ok EmptyString.
Proof.
  split; [|split; [|split; [|repeat split]]].
  - intros q a b Ha Hb.
    apply (parse_region_parts _ (split "," q)).
    rewrite str_app_cons_assoc, (split_app_comma _ b Hb), (split_app_comma q a Ha).
    now rewrite <- List.app_assoc.
  - intros a b Ha Hb.
    apply (parse_region_parts _ []).
    now rewrite (split_app_comma a b Hb), (split_no_comma a Ha).
  - exact parse_region_single.
Qed.

Lemma C3_region_derivation_witness :
  parse_region (Some ("1 Elm St, Apt 2" ++ String "," (" Laval " ++ String "," " QC")))
  = Ok "Laval, QC"
  /\ parse_region (Some ("Laval" ++ String "," " QC")) = Ok "Laval, QC"
  /\ parse_region (Some "Laval") = Ok EmptyString.
Proof.
  split; [|split].
  - exact (proj1 C3_region_derivation "1 Elm St, Apt 2" " Laval " " QC" eq_refl eq_refl).
  - exact (proj1 (proj2 C3_region_derivation) "Laval" " QC" eq_refl eq_refl).
  - exact (proj1 (proj2 (proj2 C3_region_derivation)) "Laval" eq_refl).
Defined.

(** C3 as the specification states it fails on an absent address: the
    specification asks for no value, the program returns the empty string. *)
Lemma C3_absent_address_counterexample :
  Spec.returned_str (parse_region None) <> Some (Spec.region None).
Proof. vm_compute. discriminate. Qed.

(** Unfolds one bound computation of a successful [extract]. *)
Ltac ok_bind H :=
  match type of H with
  | Py.bind ?c _ = Ok _ =>
      let E := fresh "E" in
      destruct c eqn:E; cbn [Py.bind] in H; [|discriminate H]
  end.

(** C10.  The region derivation returns a string for every input, the
    absent address included; so the region of every record is a string, and
    it is the empty string when the address is absent or has no comma. *)
Theorem C10_region_always_string :
  (forall full_address, exists s, parse_region full_address = Ok s)
  /\ (forall url soup r,
        extract url soup = Ok r ->
        exists s,
          region r = Some s
          /\ parse_region (address r) = Ok s
          /\ (address r = None -> s = EmptyString)
          /\ (forall a, address r = Some a ->
                Spec.all_chars Spec.not_comma a = true -> s = EmptyString)).
Proof.
  split; [exact parse_region_total|].
  intros url soup r H. unfold extract in H.
  repeat ok_bind H.
  injection H as <-. cbn [region address].
  match goal with E : parse_region _ = Ok ?s |- _ => exists s; rename E into Er end.
  split; [reflexivity|]. split; [exact Er|]. split.
  - intros Ha. rewrite Ha in Er. now injection Er.
  - intros t Ha Hc. rewrite Ha, (parse_region_single t Hc) in Er. now injection Er.
Qed.

Lemma C10_region_always_string_witness :
  exists r, extract "https://realtylink.org/x" [] = Ok r
            /\ exists s, region r = Some s
                 /\ parse_region (address r) = Ok s
                 /\ (address r = None -> s = EmptyString)
                 /\ (forall a, address r = Some a ->
                       Spec.all_chars Spec.not_comma a = true -> s = EmptyString).
Proof.
  eexists. split; [reflexivity|].
  exact (proj2 C10_region_always_string "https://realtylink.org/x" [] _ eq_refl).
Defined.

End RegionClaims.

(* ================================================================== *)
(** * The exceptions extraction can raise *)
(* ================================================================== *)

Section ExtractionErrors.

Import Py Main.

Lemma int_of_str_raises (s : string) (e : exn) :
  int_of_str s = Raise e -> e = ValueError.
Proof.
  unfold int_of_str.
  destruct (Nat.leb _ _); [|intros H; now injection H].
  destruct (match rstrip_by int_blank _ with EmptyString => _ | String _ _ => _ end);
    [discriminate | intros H; now injection H].
Qed.

Lemma parse_raises (ts : list Json.token) :
  forall st stack e, Json.parse st stack ts = Raise e -> Json.decoding e.
Proof.
  unfold Json.decoding.
  induction ts as [|t ts IH]; intros st stack e H; cbn [Json.parse] in H.
  - destruct st; try (injection H as <-; now left).
    destruct stack; [discriminate H | injection H as <-; now left].
  - destruct st; destruct t;
      repeat match type of H with
             | (if ?b then _ else _) = _ => destruct b
             | match ?x with _ => _ end = _ => destruct x
             end;
      first [ injection H as <-; tauto | eapply IH; eassumption ].
Qed.

Lemma loads_raises (s : string) (e : exn) :
  Json.loads s = Raise e -> Json.decoding e.
Proof. apply parse_raises. Qed.

Lemma getitem_raises (t : Bs4.tag) (key : string) (e : exn) :
  Bs4.getitem t key = Raise e -> e = KeyError.
Proof.
  unfold Bs4.getitem. destruct (Bs4.lookup _ _); [discriminate | intros H; now injection H].
Qed.

(** The characteristic lookup never raises. *)
Lemma extract_value_by_title_total (soup : Bs4.soup) (title : string) :
  exists v, extract_value_by_title soup title = Ok v.
Proof.
  unfold extract_value_by_title.
  destruct (Bs4.find _ _ _ soup) as [title_tag|]; [|now eexists].
  destruct (Bs4.find_next_sibling _ _ _) as [value_tag|]; [|now eexists].
  destruct (int_of_str _) as [n|e] eqn:E; [now eexists|].
  apply int_of_str_raises in E. subst e. now eexists.
Qed.

Lemma extract_image_urls_raises (soup : Bs4.soup) (e : exn) :
  extract_image_urls soup = Raise e -> e = TypeError \/ Json.decoding e.
Proof.
  unfold extract_image_urls.
  destruct (Bs4.find _ _ _ soup) as [script_tag|]; [|discriminate].
  destruct (Bs4.string_of _) as [|z|s]; cbn [Re.search_value bind].
  - intros H. left. now injection H.
  - intros H. left. now injection H.
  - destruct (Re.search _ _); [|discriminate].
    intros H. right. now apply loads_raises in H.
Qed.

Lemma extract_number_from_tag_raises (tag : option Bs4.located) (e : exn) :
  extract_number_from_tag tag = Raise e -> e = ValueError.
Proof.
  unfold extract_number_from_tag. destruct tag as [t|]; [|discriminate].
  destruct (Re.findall _ _) as [|x l]; [discriminate|].
  change (getitem (x :: l) 0%Z) with (Ok x). cbn [bind].
  destruct (int_of_str x) as [n|e0] eqn:E; [discriminate|].
  cbn [bind]. intros H. injection H as <-. now apply int_of_str_raises in E.
Qed.

Lemma normalize_floor_area_raises (v : value) (e : exn) :
  normalize_floor_area v = Raise e -> e = TypeError \/ e = ValueError.
Proof.
  unfold normalize_floor_area. destruct (truthy v); [|discriminate].
  destruct v as [|z|s]; cbn [Re.search_value bind].
  - intros H. left. now injection H.
  - intros H. left. now injection H.
  - destruct (Re.search _ s); [|discriminate].
    destruct (int_of_str _) as [n|e0] eqn:E; [discriminate|].
    cbn [bind]. intros H. injection H as <-. right. now apply int_of_str_raises in E.
Qed.

Lemma price_raises (price_tag : option Bs4.located) (e : exn) :
  match price_tag with
  | Some t => c <- Bs4.getitem (Bs4.element t) "content" ;; Ok (Some c)
  | None => Ok None
  end = Raise e -> e = KeyError.
Proof.
  destruct price_tag as [t|]; [|discriminate].
  destruct (Bs4.getitem _ _) as [c|e0] eqn:E; [discriminate|].
  cbn [bind]. intros H. inversion H; subst. now apply getitem_raises in E.
Qed.

(** Splits on the computation bound first in a failing sequence. *)
Ltac failing_bind :=
  match goal with
  | |- Py.bind ?c _ = Py.Raise _ -> _ =>
      let E := fresh "E" in
      let H := fresh "H" in
      destruct c eqn:E; cbn [Py.bind];
      [|intros H; inversion H; subst; clear H]
  end.

(** What [extract] can raise: never a request error. *)
Lemma extract_raises (url : string) (soup : Bs4.soup) (e : exn) :
  extract url soup = Raise e -> e <> RequestException.
Proof.
  unfold extract, floor_area_field. cbv zeta.
  destruct (extract_value_by_title_total soup "Additional Features") as [v1 ->].
  destruct (extract_value_by_title_total soup "Floor Area") as [v2 ->].
  destruct (extract_value_by_title_total soup "Parking Spaces") as [v3 ->].
  destruct (parse_region_total
              (get_text_or_default
                 (Bs4.find "h2" [("class", "pt-1")] Bs4.AnyString soup))) as [rg ->].
  cbn [bind].
  failing_bind.
  2:{ apply extract_image_urls_raises in E as [-> | [-> | [-> | ->]]]; discriminate. }
  failing_bind.
  2:{ apply price_raises in E0. subst. discriminate. }
  failing_bind.
  2:{ apply extract_number_from_tag_raises in E1. subst. discriminate. }
  failing_bind.
  2:{ apply extract_number_from_tag_raises in E2. subst. discriminate. }
  failing_bind.
  2:{ apply normalize_floor_area_raises in E3 as [-> | ->]; discriminate. }
  intros H. discriminate H.
Qed.

End ExtractionErrors.

(* ================================================================== *)
(** * The traversal *)
(* ================================================================== *)

Section Traversal.

Import Py Main.

Variable w : world.
Variable url : string.
Variable limit : Z.

Lemma iteration_unfold (st : state) :
  iteration w url limit st =
  match w (List.length (requests st)) (page_url url (S (page_count st))) with
  | Ok soup =>
      match for_links w limit (select_links soup)
              (requested (page_url url (S (page_count st))) (entered st)) with
      | (st2, Ok _) =>
          (MkState (announcements st2) (page_count st2) (parsed_announcements st2)
             (requests st2) (stdout st2) (slept st2 + 1), Ok true)
      | (st2, Raise RequestException) =>
          (MkState (announcements st2) (page_count st2) (parsed_announcements st2)
             (requests st2) (stdout st2 ++ [ErrorLine RequestException]) (slept st2),
           Ok false)
      | (st2, Raise e) => (st2, Raise e)
      end
  | Raise RequestException =>
      (MkState (announcements st) (S (page_count st)) (parsed_announcements st)
         (requests st ++ [page_url url (S (page_count st))])
         (stdout (entered st) ++ [ErrorLine RequestException]) (slept st),
       Ok false)
  | Raise e => (requested (page_url url (S (page_count st))) (entered st), Raise e)
  end.
Proof.
  unfold iteration, try_body, bindM, incr_page_count, modify, print, fetch_page,
    sleep, ret, entered, requested.
  cbn -[page_url String.append str_of_nat for_links].
  destruct (w (List.length (requests st)) (page_url url (S (page_count st)))) as [soup|e].
  - destruct (for_links w limit (select_links soup) _) as [st2 [[]|e]]; [reflexivity|].
    destruct e; reflexivity.
  - destruct e; reflexivity.
Qed.

(** The loop never lets a request error out. *)
Lemma iteration_catches (st st' : state) (e : exn) :
  iteration w url limit st = (st', Raise e) -> e <> RequestException.
Proof.
  rewrite iteration_unfold.
  destruct (w _ _) as [soup|e0].
  - destruct (for_links _ _ _ _) as [st2 [[]|e1]]; [discriminate|].
    destruct e1; intros H; inversion H; discriminate.
  - destruct e0; intros H; inversion H; discriminate.
Qed.

Lemma while_loop_catches (fuel : nat) (st st' : state) (e : exn) :
  while_loop fuel w url limit st = (st', Some (Raise e)) -> e <> RequestException.
Proof.
  revert st. induction fuel as [|fuel IH]; intros st; cbn [while_loop]; [discriminate|].
  destruct (Z.of_nat _ <? limit)%Z; [|discriminate].
  destruct (iteration w url limit st) as [st1 [[]|e1]] eqn:E.
  - apply IH.
  - discriminate.
  - intros H. inversion H; subst. eapply iteration_catches; eassumption.
Qed.

(** Passes add up. *)
Lemma while_loop_add (n m : nat) (st st1 : state) :
  while_loop n w url limit st = (st1, None) ->
  while_loop (n + m) w url limit st = while_loop m w url limit st1.
Proof.
  revert st. induction n as [|n IH]; intros st; cbn [while_loop Nat.add].
  - intros H. now inversion H.
  - destruct (Z.of_nat _ <? limit)%Z; [|discriminate].
    destruct (iteration w url limit st) as [st2 [[]|e1]]; try discriminate.
    apply IH.
Qed.

(** At the target, the scan of the links stops at once. *)
Lemma for_links_at_target (links : list Bs4.tag) (st : state) :
  (limit <= Z.of_nat (List.length (announcements st)))%Z ->
  for_links w limit links st = (st, Ok tt).
Proof.
  intros H. destruct links as [|l links]; [reflexivity|].
  cbn [for_links]. apply Z.leb_le in H. now rewrite H.
Qed.

(** One link, below the target. *)
Lemma for_links_cons (link : Bs4.tag) (links : list Bs4.tag) (st : state) :
  (Z.of_nat (List.length (announcements st)) < limit)%Z ->
  for_links w limit (link :: links) st =
  match Bs4.getitem link "href" with
  | Raise e => (st, Raise e)
  | Ok href =>
      match w (List.length (requests st)) (prefix ++ href) with
      | Raise e => (requested (prefix ++ href) st, Raise e)
      | Ok soup =>
          match extract (prefix ++ href) soup with
          | Raise e => (requested (prefix ++ href) st, Raise e)
          | Ok a =>
              for_links w limit links
                (MkState (announcements st ++ [a]) (page_count st)
                   (S (parsed_announcements st)) (requests st ++ [prefix ++ href])
                   (stdout st ++
                      [Line (str_of_nat (S (parsed_announcements st)) ++ "/"
                             ++ str_of_int limit ++ " parsed")])
                   (slept st))
          end
      end
  end.
Proof.
  intros H. cbn [for_links].
  replace (limit <=? Z.of_nat (List.length (announcements st)))%Z with false
    by (symmetry; apply Z.leb_gt; exact H).
  unfold bindM, lift, parse_announcement, fetch_page, append_announcement,
    incr_parsed, modify, print, requested, bindM.
  destruct (Bs4.getitem link "href") as [href|e]; [|reflexivity].
  cbn -[String.append prefix str_of_nat str_of_int for_links extract].
  destruct (w (List.length (requests st)) (prefix ++ href)) as [soup|e]; [|reflexivity].
  destruct (extract (prefix ++ href) soup) as [a|e]; reflexivity.
Qed.

(** The collection only grows. *)
Lemma for_links_grows (links : list Bs4.tag) (st st' : state) (r : result unit) :
  for_links w limit links st = (st', r) ->
  List.length (announcements st) <= List.length (announcements st').
Proof.
  revert st. induction links as [|l links IH]; intros st.
  - cbn. intros H. inversion H. lia.
  - destruct (Z.ltb_spec (Z.of_nat (List.length (announcements st))) limit) as [Hlt|Hge].
    + rewrite (for_links_cons _ _ _ Hlt).
      destruct (Bs4.getitem l "href") as [href|e]; [|intros H; inversion H; cbn; lia].
      destruct (w _ _) as [soup|e]; [|intros H; inversion H; cbn; lia].
      destruct (extract _ _) as [a|e]; [|intros H; inversion H; cbn; lia].
      intros H. apply IH in H. cbn in H. rewrite List.length_app in H. lia.
    + rewrite (for_links_at_target _ _ Hge). intros H. inversion H. lia.
Qed.

(** Scanning a first part of the links without reaching the target, then
    the rest. *)
Lemma for_links_app (scanned rest_ : list Bs4.tag) (st st1 : state) :
  for_links w limit scanned st = (st1, Ok tt) ->
  (Z.of_nat (List.length (announcements st1)) < limit)%Z ->
  for_links w limit (scanned ++ rest_) st = for_links w limit rest_ st1.
Proof.
  revert st. induction scanned as [|l scanned IH]; intros st H Hlt.
  - cbn in H. inversion H. reflexivity.
  - assert (Hst : (Z.of_nat (List.length (announcements st)) < limit)%Z).
    { apply for_links_grows in H. lia. }
    cbn [List.app]. rewrite (for_links_cons _ _ _ Hst). rewrite (for_links_cons _ _ _ Hst) in H.
    destruct (Bs4.getitem l "href") as [href|e]; [|discriminate H].
    destruct (w _ _) as [soup|e]; [|discriminate H].
    destruct (extract _ _) as [a|e]; [|discriminate H].
    now apply IH.
Qed.

(** A request error that comes out of the scan of the links was raised by
    a request. *)
Lemma for_links_request_error (links : list Bs4.tag) :
  forall st st2,
    for_links w limit links st = (st2, Raise RequestException) ->
    exists k u,
      nth_error (requests st2) k = Some u /\ w k u = Raise RequestException.
Proof.
  induction links as [|l links IH]; intros st st2 H; [discriminate H|].
  destruct (Z.ltb_spec (Z.of_nat (List.length (announcements st))) limit) as [Hlt|Hge].
  - rewrite (for_links_cons _ _ _ Hlt) in H.
    destruct (Bs4.getitem l "href") as [href|e] eqn:Eh.
    + destruct (w (List.length (requests st)) (prefix ++ href)) as [soup|e] eqn:Ew.
      * destruct (extract (prefix ++ href) soup) as [a|e] eqn:Ee.
        -- exact (IH _ _ H).
        -- inversion H; subst. now apply extract_raises in Ee.
      * inversion H; subst. exists (List.length (requests st)), (prefix ++ href).
        split; [|exact Ew]. cbn [requested requests].
        rewrite nth_error_app2 by lia. now rewrite Nat.sub_diag.
    + inversion H; subst. apply getitem_raises in Eh. discriminate Eh.
  - rewrite (for_links_at_target _ _ Hge) in H. discriminate H.
Qed.

(** The loop breaks only after a request has raised a request error. *)
Lemma iteration_break (st st' : state) :
  iteration w url limit st = (st', Ok false) ->
  exists k u,
    nth_error (requests st') k = Some u /\ w k u = Raise RequestException.
Proof.
  rewrite iteration_unfold.
  destruct (w (List.length (requests st)) (page_url url (S (page_count st))))
    as [soup|e] eqn:Ew.
  - destruct (for_links w limit (select_links soup) _) as [st2 [[]|e]] eqn:Ef;
      [discriminate|].
    destruct e; intros H; inversion H; subst; cbn [requests].
    exact (for_links_request_error _ _ _ Ef).
  - destruct e; intros H; inversion H; subst; cbn [requests].
    exists (List.length (requests st)), (page_url url (S (page_count st))).
    split; [|exact Ew]. rewrite nth_error_app2 by lia. now rewrite Nat.sub_diag.
Qed.

(** The loop ends normally only at the target or after a request error. *)
Lemma while_loop_ends (fuel : nat) :
  forall st st',
    while_loop fuel w url limit st = (st', Some (Ok tt)) ->
    (limit <= Z.of_nat (List.length (announcements st')))%Z
    \/ exists k u,
         nth_error (requests st') k = Some u /\ w k u = Raise RequestException.
Proof.
  induction fuel as [|fuel IH]; intros st st'; cbn [while_loop]; [discriminate|].
  destruct (Z.ltb_spec (Z.of_nat (List.length (announcements st))) limit) as [Hlt|Hge].
  - destruct (iteration w url limit st) as [st1 [[]|e]] eqn:E.
    + apply IH.
    + intros H. inversion H; subst. right. exact (iteration_break _ _ E).
    + discriminate.
  - intros H. inversion H; subst. now left.
Qed.

End Traversal.

Section TraversalClaims.

Import Py Main.

Lemma empty_pages_loop (w : world) (url : string) (limit : Z) :
  (0 < limit)%Z ->
  (forall k, exists soup,
      w k (page_url url (S k)) = Ok soup /\ select_links soup = []) ->
  forall fuel st,
    announcements st = [] ->
    List.length (requests st) = page_count st ->
    exists st',
      while_loop fuel w url limit st = (st', None)
      /\ announcements st' = []
      /\ page_count st' = page_count st + fuel
      /\ requests st' =
         (requests st ++ map (page_url url) (seq (S (page_count st)) fuel))%list.
Proof.
  intros Hlimit Hpages fuel.
  induction fuel as [|fuel IH]; intros st Hanns Hreq.
  - exists st. cbn. rewrite List.app_nil_r. repeat split; auto.
  - cbn [while_loop]. rewrite Hanns. cbn [List.length].
    replace (Z.of_nat 0 <? limit)%Z with true by (symmetry; apply Z.ltb_lt; lia).
    rewrite iteration_unfold, Hreq.
    destruct (Hpages (page_count st)) as (soup & Hw & Hsel).
    rewrite Hw, Hsel. cbn [for_links ret].
    match goal with |- context [while_loop fuel w url limit ?s] => set (st1 := s) end.
    destruct (IH st1) as (st' & Hrun & Ha & Hp & Hr).
    + exact Hanns.
    + cbn. rewrite List.length_app, Hreq. cbn. lia.
    + exists st'. rewrite Hrun. split; [reflexivity|]. split; [exact Ha|].
      split; [rewrite Hp; cbn; lia|].
      rewrite Hr. cbn [st1 requests requested entered page_count seq map].
      now rewrite <- List.app_assoc.
Qed.

(** C2.  The loop ends normally only when the collection has reached the
    target or a request has raised a request error.  So when every index
    page has no links and no request fails, the loop never ends: whatever
    the number of passes, it is still running, the collection is still
    empty, below the target, and one more index page has been requested in
    each pass. *)
Theorem C2_empty_pages_never_terminate :
  forall (w : world) (url : string) (limit : Z),
    (forall fuel st records,
        parse_announcements fuel w url limit = (st, Some (Ok records)) ->
        (limit <= Z.of_nat (List.length records))%Z
        \/ exists k u,
             nth_error (requests st) k = Some u /\ w k u = Raise RequestException)
    /\ ((0 < limit)%Z ->
        (forall k, exists soup,
            w k (page_url url (S k)) = Ok soup /\ select_links soup = []) ->
        forall fuel,
          snd (parse_announcements fuel w url limit) = None
          /\ announcements (fst (parse_announcements fuel w url limit)) = []
          /\ (Z.of_nat (List.length
                (announcements (fst (parse_announcements fuel w url limit)))) < limit)%Z
          /\ requests (fst (parse_announcements fuel w url limit))
             = map (page_url url) (seq 1 fuel)).
Proof.
  intros w url limit. split.
  - intros fuel st records. unfold parse_announcements.
    destruct (while_loop fuel w url limit initial) as [st' [[[]|e]|]] eqn:E;
      intros H; inversion H; subst.
    exact (while_loop_ends _ _ _ _ _ _ E).
  - intros Hlimit Hpages fuel.
    destruct (empty_pages_loop w url limit Hlimit Hpages fuel initial eq_refl eq_refl)
      as (st' & Hrun & Ha & _ & Hr).
    unfold parse_announcements. rewrite Hrun. cbn [fst snd].
    rewrite Ha. repeat split; [exact Hlimit | exact Hr].
Qed.

(** C4.  A request error ends the run, and the run returns the records
    collected before the failing request: when, after any number of
    complete passes, the request for an index page or for the page of a
    link raises [RequestException], the controller returns the collection
    as it stood when the request was issued, and requests nothing more.  No
    [RequestException] ever leaves the controller. *)
Theorem C4_request_error_returns_collected :
  forall (w : world) (url : string) (limit : Z),
    (forall n st at_ u,
        while_loop n w url limit initial = (st, None) ->
        (Z.of_nat (List.length (announcements st)) < limit)%Z ->
        request_fails w url limit st at_ u ->
        forall fuel,
          snd (parse_announcements (n + S fuel) w url limit)
          = Some (Ok (announcements at_))
          /\ requests (fst (parse_announcements (n + S fuel) w url limit))
             = (requests at_ ++ [u])%list)
    /\ (forall fuel,
          snd (parse_announcements fuel w url limit) <> Some (Raise RequestException)).
Proof.
  intros w url limit. split.
  - intros n st at_ u Hrun Hlt Hfail fuel.
    unfold parse_announcements. rewrite (while_loop_add _ _ _ _ _ _ _ Hrun).
    cbn [while_loop].
    replace (Z.of_nat (List.length (announcements st)) <? limit)%Z with true
      by (symmetry; apply Z.ltb_lt; exact Hlt).
    rewrite iteration_unfold.
    destruct Hfail as [Hw | soup scanned link later href st1 Hw Hsel Hscan Hlt1 Hhref Hw1].
    + rewrite Hw. cbn. split; reflexivity.
    + rewrite Hw, Hsel, (for_links_app _ _ _ _ _ _ Hscan Hlt1),
        (for_links_cons _ _ _ _ _ Hlt1), Hhref, Hw1.
      cbn. split; reflexivity.
  - intros fuel. unfold parse_announcements.
    destruct (while_loop fuel w url limit initial) as [st [[[]|e]|]] eqn:E;
      cbn [snd]; try discriminate.
    intros H. injection H as ->.
    now apply while_loop_catches in E.
Qed.

(** C5.  With three links on the first index page and a target of two, no
    run requests anything but the index page and the pages of the first two
    links: the third link is not scanned and no second index page is
    requested.  When those two pages are fetched and extracted, the
    controller requests exactly these three pages and returns the two
    records.  In general the scan of the links of a page stops as soon as
    the collection has reached the target. *)
Theorem C5_stops_at_target :
  forall (w : world) (url : string) (index : Bs4.soup) (l1 l2 l3 : Bs4.tag)
         (h1 h2 : string),
    w 0 (page_url url 1) = Ok index ->
    select_links index = [l1; l2; l3] ->
    Bs4.getitem l1 "href" = Ok h1 ->
    Bs4.getitem l2 "href" = Ok h2 ->
    (forall fuel, exists n,
        requests (fst (parse_announcements fuel w url 2))
        = firstn n [page_url url 1; prefix ++ h1; prefix ++ h2])
    /\ (forall d1 d2 r1 r2,
          w 1 (prefix ++ h1) = Ok d1 ->
          extract (prefix ++ h1) d1 = Ok r1 ->
          w 2 (prefix ++ h2) = Ok d2 ->
          extract (prefix ++ h2) d2 = Ok r2 ->
          forall fuel,
            snd (parse_announcements (2 + fuel) w url 2) = Some (Ok [r1; r2])
            /\ requests (fst (parse_announcements (2 + fuel) w url 2))
               = [page_url url 1; prefix ++ h1; prefix ++ h2])
    /\ (forall limit links st,
          (limit <= Z.of_nat (List.length (announcements st)))%Z ->
          for_links w limit links st = (st, Ok tt)).
Proof.
  intros w url index l1 l2 l3 h1 h2 Hw0 Hsel Hh1 Hh2.
  split; [|split; [|intros limit links st; apply for_links_at_target]].
  - intros [|fuel]; [now exists 0|].
    unfold parse_announcements.
    cbn [while_loop initial announcements List.length].
    replace (Z.of_nat 0 <? 2)%Z with true by reflexivity.
    rewrite iteration_unfold.
    cbn [initial requests page_count List.length]. rewrite Hw0, Hsel.
    rewrite for_links_cons by (cbn; lia).
    rewrite Hh1. cbn [requested entered initial requests List.app List.length].
    destruct (w 1 (prefix ++ h1)) as [d1|e];
      [|destruct e; now exists 2].
    destruct (extract (prefix ++ h1) d1) as [r1|e];
      [|destruct e; now exists 2].
    rewrite for_links_cons by (cbn; lia).
    rewrite Hh2. cbn [requests List.app List.length].
    destruct (w 2 (prefix ++ h2)) as [d2|e];
      [|destruct e; now exists 3].
    destruct (extract (prefix ++ h2) d2) as [r2|e];
      [|destruct e; now exists 3].
    rewrite for_links_at_target by (cbn; lia).
    destruct fuel; now exists 3.
  - intros d1 d2 r1 r2 Hw1 He1 Hw2 He2 fuel. unfold parse_announcements.
    cbn [Nat.add while_loop initial announcements List.length].
    replace (Z.of_nat 0 <? 2)%Z with true by reflexivity.
    rewrite iteration_unfold.
    cbn [initial requests page_count List.length]. rewrite Hw0, Hsel.
    rewrite for_links_cons by (cbn; lia).
    rewrite Hh1. cbn [requested entered initial requests List.app List.length].
    rewrite Hw1, He1.
    rewrite for_links_cons by (cbn; lia).
    rewrite Hh2. cbn [requests List.app List.length].
    rewrite Hw2, He2.
    rewrite for_links_at_target by (cbn; lia).
    cbn. split; reflexivity.
Qed.

End TraversalClaims.

Lemma C2_empty_pages_never_terminate_witness :
  snd (Main.parse_announcements 7 Examples.exhausted Examples.base 60) = None
  /\ Main.announcements
       (fst (Main.parse_announcements 7 Examples.exhausted Examples.base 60)) = []
  /\ (Z.of_nat (List.length
        (Main.announcements
           (fst (Main.parse_announcements 7 Examples.exhausted Examples.base 60))))
      < 60)%Z
  /\ Main.requests (fst (Main.parse_announcements 7 Examples.exhausted Examples.base 60))
     = map (Main.page_url Examples.base) (seq 1 7).
Proof.
  apply (proj2 (C2_empty_pages_never_terminate Examples.exhausted Examples.base 60)).
  - reflexivity.
  - intros k. exists []. split; reflexivity.
Defined.

Lemma C4_request_error_returns_collected_witness :
  exists records,
    snd (Main.parse_announcements 2 Examples.five_then_down Examples.base 60)
    = Some (Py.Ok records)
    /\ List.length records = 5
    /\ List.length
         (Main.requests
            (fst (Main.parse_announcements 2 Examples.five_then_down Examples.base 60)))
       = 7.
Proof.
  pose (st := fst (Main.while_loop 1 Examples.five_then_down Examples.base 60 Main.initial)).
  assert (Hrun : Main.while_loop 1 Examples.five_then_down Examples.base 60 Main.initial
                 = (st, None)) by (vm_compute; reflexivity).
  assert (Hlt : (Z.of_nat (List.length (Main.announcements st)) < 60)%Z)
    by (vm_compute; reflexivity).
  assert (Hw : Examples.five_then_down (List.length (Main.requests st))
                 (Main.page_url Examples.base (S (Main.page_count st)))
               = Py.Raise Py.RequestException) by (vm_compute; reflexivity).
  destruct (proj1 (C4_request_error_returns_collected
                     Examples.five_then_down Examples.base 60)
              1 st _ _ Hrun Hlt (Main.index_fails _ _ _ st Hw) 0) as [Hr Hq].
  exists (Main.announcements (Main.entered st)).
  split; [exact Hr|]. split; [vm_compute; reflexivity|].
  change (1 + 1) with 2 in Hq. rewrite Hq. vm_compute; reflexivity.
Defined.

Lemma C5_stops_at_target_witness :
  snd (Main.parse_announcements 2 Examples.three_links Examples.base 2)
  = Some (Py.Ok [Examples.record "https://realtylink.org/en/a";
                 Examples.record "https://realtylink.org/en/b"])
  /\ Main.requests (fst (Main.parse_announcements 2 Examples.three_links Examples.base 2))
     = [Main.page_url Examples.base 1;
        "https://realtylink.org/en/a"; "https://realtylink.org/en/b"].
Proof.
  apply (proj1 (proj2 (C5_stops_at_target Examples.three_links Examples.base
                  (Examples.index_page ["/en/a"; "/en/b"; "/en/c"])
                  (Examples.summary_link "/en/a") (Examples.summary_link "/en/b")
                  (Examples.summary_link "/en/c") "/en/a" "/en/b"
                  ltac:(vm_compute; reflexivity) ltac:(vm_compute; reflexivity)
                  ltac:(vm_compute; reflexivity) ltac:(vm_compute; reflexivity)))
           (Examples.listing "850 sqft" Examples.no_photos)
           (Examples.listing "850 sqft" Examples.no_photos)
           (Examples.record "https://realtylink.org/en/a")
           (Examples.record "https://realtylink.org/en/b")
           ltac:(vm_compute; reflexivity) ltac:(vm_compute; reflexivity)
           ltac:(vm_compute; reflexivity) ltac:(vm_compute; reflexivity) 0).
Defined.

(* ================================================================== *)
(** * Extraction that raises *)
(* ================================================================== *)

(** C1, at the defect.  Extraction does raise.  On a listing whose Floor
    Area value is the text 850, the characteristic lookup coerces it to the
    integer 850, and the normalisation, which searches its argument with a
    regular expression, raises [TypeError]; no record is produced and the
    exception leaves the controller.  On a listing whose photo array is not
    JSON, the images extraction raises [JSONDecodeError].  On a page whose
    price element lacks its content attribute, the record raises
    [KeyError]. *)
Theorem C1_extraction_raises :
  Main.extract_value_by_title (Examples.listing "850" Examples.no_photos) "Floor Area"
  = Py.Ok (Py.PInt 850)
  /\ Main.normalize_floor_area (Py.PInt 850) = Py.Raise Py.TypeError
  /\ Main.extract "https://realtylink.org/en/a" (Examples.listing "850" Examples.no_photos)
     = Py.Raise Py.TypeError
  /\ snd (Main.parse_announcements 2
            (Examples.one_listing (Examples.listing "850" Examples.no_photos))
            Examples.base 60)
     = Some (Py.Raise Py.TypeError)
  /\ Main.extract_image_urls (Examples.listing "850 sqft" Examples.broken_photos)
     = Py.Raise Py.JSONDecodeError
  /\ Main.extract "https://realtylink.org/en/a"
       (Examples.listing "850 sqft" Examples.broken_photos)
     = Py.Raise Py.JSONDecodeError
  /\ Main.extract "https://realtylink.org/en/a" Examples.price_without_content
     = Py.Raise Py.KeyError.
Proof. repeat split; vm_compute; reflexivity. Qed.

(* ================================================================== *)
(** * Rent classification *)
(* ================================================================== *)

Section Rent.

Import Py Main.

Lemma space_lower_fixed (b : ascii) : isspace b = true -> lower_char b = b.
Proof.
  destruct b as [[] [] [] [] [] [] [] []]; vm_compute; intros H;
    try reflexivity; discriminate H.
Qed.

Lemma unspaced_differs (a b : ascii) :
  Spec.unspaced a = true -> isspace b = true -> Ascii.eqb a (lower_char b) = false.
Proof.
  intros Ha Hb. rewrite (space_lower_fixed b Hb).
  apply Ascii.eqb_neq. intros ->. unfold Spec.unspaced in Ha. now rewrite Hb in Ha.
Qed.

Lemma prefix_lower (n s : string) :
  String.prefix n (lower s) = Spec.prefix_ci n s.
Proof.
  revert s. induction n as [|a n IH]; intros s; destruct s as [|b s]; try reflexivity.
  cbn [lower String.prefix Spec.prefix_ci]. rewrite IH.
  destruct (ascii_dec a (lower_char b)) as [->|Hne].
  - now rewrite Ascii.eqb_refl.
  - apply Ascii.eqb_neq in Hne. now rewrite Hne.
Qed.

Lemma contains_lower (n s : string) :
  contains n (lower s) = Spec.contains_ci n s.
Proof.
  induction s as [|b s IH].
  - change (contains n (lower EmptyString))
      with (String.prefix n (lower EmptyString) || false).
    now rewrite prefix_lower.
  - change (contains n (lower (String b s)))
      with (String.prefix n (lower (String b s)) || contains n (lower s)).
    now rewrite prefix_lower, IH.
Qed.

Lemma contains_ci_lstrip (n s : string) :
  Spec.all_chars Spec.unspaced n = true ->
  Spec.contains_ci n (lstrip_by isspace s) = Spec.contains_ci n s.
Proof.
  intros Hn. induction s as [|b s IH]; [reflexivity|].
  cbn [lstrip_by]. destruct (isspace b) eqn:Hb; [|reflexivity].
  rewrite IH. cbn [Spec.contains_ci].
  destruct n as [|a n]; [now destruct s|].
  cbn [Spec.prefix_ci]. cbn in Hn. apply andb_true_iff in Hn as [Ha _].
  now rewrite (unspaced_differs a b Ha Hb).
Qed.

Lemma prefix_ci_rstrip (n s : string) :
  Spec.all_chars Spec.unspaced n = true ->
  Spec.prefix_ci n (rstrip_by isspace s) = Spec.prefix_ci n s.
Proof.
  revert n. induction s as [|b s IH]; intros n Hn; [reflexivity|].
  destruct n as [|a n]; [reflexivity|].
  cbn in Hn. apply andb_true_iff in Hn as [Ha Hn].
  cbn [rstrip_by Spec.prefix_ci]. rewrite <- (IH n Hn).
  destruct (rstrip_by isspace s) as [|c r].
  - destruct (isspace b) eqn:Hb; [|reflexivity].
    cbn. now rewrite (unspaced_differs a b Ha Hb).
  - reflexivity.
Qed.

Lemma contains_ci_rstrip (n s : string) :
  Spec.all_chars Spec.unspaced n = true ->
  Spec.contains_ci n (rstrip_by isspace s) = Spec.contains_ci n s.
Proof.
  intros Hn. induction s as [|b s IH]; [reflexivity|].
  cbn [Spec.contains_ci]. rewrite <- IH, <- (prefix_ci_rstrip n (String b s) Hn).
  cbn [rstrip_by].
  destruct (rstrip_by isspace s) as [|c r].
  - destruct (isspace b); cbn [Spec.contains_ci]; [|reflexivity].
    now destruct (Spec.prefix_ci n EmptyString).
  - reflexivity.
Qed.

Lemma contains_lower_strip (n s : string) :
  Spec.all_chars Spec.unspaced n = true ->
  contains n (lower (strip s)) = Spec.contains_ci n s.
Proof.
  intros Hn. unfold strip.
  now rewrite contains_lower, (contains_ci_rstrip _ _ Hn), (contains_ci_lstrip _ _ Hn).
Qed.

(** C6.  Rent classification reads the text of the price region without
    regard to case: month and rent when it contains month; otherwise week
    and rent when it contains week; otherwise nothing; nothing as well when
    there is no price region. *)
Theorem C6_rent_classification :
  (forall soup,
      extract_rent_period_and_type soup =
      match Bs4.find "div" [("class", "price-container")] Bs4.AnyString soup with
      | Some price_container =>
          Spec.rent_classification (Bs4.text (Bs4.element price_container))
      | None => (None, None)
      end)
  /\ Spec.rent_classification "2,000$/month" = (Some "month", Some "rent")
  /\ Spec.rent_classification "900$ per WEEK, 3,600$ per Month" = (Some "month", Some "rent")
  /\ Spec.rent_classification " 450$ / Week " = (Some "week", Some "rent")
  /\ Spec.rent_classification "2,000$" = (None, None)
  /\ extract_rent_period_and_type (Examples.listing "850 sqft" Examples.no_photos)
     = (Some "month", Some "rent")
  /\ extract_rent_period_and_type [] = (None, None).
Proof.
  split; [|repeat split; vm_compute; reflexivity].
  intros soup. unfold extract_rent_period_and_type, Spec.rent_classification.
  destruct (Bs4.find _ _ _ soup) as [pc|]; [|reflexivity].
  rewrite !contains_lower_strip by reflexivity. reflexivity.
Qed.

End Rent.

(* ================================================================== *)
(** * The matcher on the program's patterns *)
(* ================================================================== *)

Section Matcher.

Import Re.

Context {A : Type}.

Lemma mtch_star (greedy : bool) (r : regex) (st : mstate) (k : mstate -> option A) :
  mtch (Star greedy r) st k = star_iter greedy (mtch r) k (String.length (rest st)) st.
Proof. reflexivity. Qed.

Lemma mtch_cat (r1 r2 : regex) (st : mstate) (k : mstate -> option A) :
  mtch (Cat r1 r2) st k = mtch r1 st (fun st' => mtch r2 st' k).
Proof. reflexivity. Qed.

Lemma mtch_chr (p : ascii -> bool) (st : mstate) (k : mstate -> option A) :
  mtch (Chr p) st k =
  match rest st with
  | String c s' => if p c then k (MState (Some c) s' (grp st)) else None
  | EmptyString => None
  end.
Proof. reflexivity. Qed.

(** A greedy star over a character class reads the longest run of the
    class, when what follows the star succeeds there. *)
Lemma star_class_greedy (q : ascii -> bool) (k : mstate -> option A) (x : A)
  (s : string) :
  forall (n : nat) (p : option ascii) (g : option string),
    String.length s <= n ->
    k (MState (last_of p (Spec.take_while q s)) (Spec.drop_while q s) g) = Some x ->
    star_iter true (mtch (Chr q)) k n (MState p s g) = Some x.
Proof.
  induction s as [|c s IH]; intros n p g Hn Hk.
  - cbn in Hk. destruct n; cbn; now rewrite Hk.
  - destruct n as [|n]; [cbn in Hn; lia|].
    cbn [star_iter]. rewrite mtch_chr. cbn [rest grp].
    cbn [Spec.take_while Spec.drop_while] in Hk.
    destruct (q c) eqn:Hq.
    + cbn [rest String.length].
      replace (Nat.ltb (String.length s) (S (String.length s))) with true
        by (symmetry; apply Nat.ltb_lt; lia).
      rewrite (IH n (Some c) g); [reflexivity | cbn in Hn; lia | exact Hk].
    + cbn [orelse]. exact Hk.
Qed.

End Matcher.

Section Runs.

Import Re.

Lemma take_length_app (a b : string) : take (String.length a) (a ++ b) = a.
Proof. induction a as [|c a IH]; cbn; [now destruct b | now rewrite IH]. Qed.

Lemma consumed_app (a b : string) : consumed (a ++ b) b = a.
Proof.
  unfold consumed. rewrite str_length_app.
  replace (String.length a + String.length b - String.length b)
    with (String.length a) by lia.
  apply take_length_app.
Qed.

Lemma take_drop_while (q : ascii -> bool) (s : string) :
  Spec.take_while q s ++ Spec.drop_while q s = s.
Proof.
  induction s as [|c s IH]; [reflexivity|].
  cbn. destruct (q c); cbn; [now rewrite IH | reflexivity].
Qed.

Lemma consumed_run (q : ascii -> bool) (c : ascii) (s : string) :
  consumed (String c s) (Spec.drop_while q s) = String c (Spec.take_while q s).
Proof.
  rewrite <- (take_drop_while q s) at 1.
  exact (consumed_app (String c (Spec.take_while q s)) (Spec.drop_while q s)).
Qed.

Lemma all_take_while (q : ascii -> bool) (s : string) :
  Spec.all_chars q (Spec.take_while q s) = true.
Proof.
  induction s as [|c s IH]; [reflexivity|].
  cbn. destruct (q c) eqn:E; [|reflexivity]. cbn. now rewrite E.
Qed.

(** ** The pattern of a digit run *)

Lemma match_digits (p : option ascii) (s : string) :
  match_at Main.digits_pattern p s =
  match s with
  | String c s' =>
      if Py.isdigit c
      then Some (MState (last_of (Some c) (Spec.take_while Py.isdigit s'))
                   (Spec.drop_while Py.isdigit s') None)
      else None
  | EmptyString => None
  end.
Proof.
  unfold match_at, Main.digits_pattern, Plus, Main.digit.
  rewrite mtch_cat, mtch_chr. cbn [rest grp].
  destruct s as [|c s']; [reflexivity|].
  destruct (Py.isdigit c); [|reflexivity].
  rewrite mtch_star. cbn [rest].
  now apply star_class_greedy.
Qed.

Lemma search_digits (p : option ascii) (s : string) :
  option_map group0 (search_from Main.digits_pattern p s) = Spec.first_digit_run s.
Proof.
  revert p. induction s as [|c s IH]; intros p.
  - reflexivity.
  - cbn [search_from Spec.first_digit_run]. rewrite match_digits.
    destruct (Py.isdigit c); [|apply IH].
    cbn [option_map]. unfold group0. cbn [m_from m_end rest]. now rewrite consumed_run.
Qed.

(** The first element of [findall] is the text of the first match. *)
Lemma findall_head (r : regex) (s : string) :
  hd_error (findall r s) = option_map group0 (search r s).
Proof.
  unfold findall, search. cbn [findall_from].
  now destruct (search_from r None s).
Qed.

End Runs.

Section Integers.

Import Py.

Lemma digit_not_blank (c : ascii) : isdigit c = true -> int_blank c = false.
Proof.
  destruct c as [[] [] [] [] [] [] [] []]; vm_compute; intros H;
    try reflexivity; discriminate H.
Qed.

Lemma digit_not_space (c : ascii) : isdigit c = true -> isspace c = false.
Proof.
  destruct c as [[] [] [] [] [] [] [] []]; vm_compute; intros H;
    try reflexivity; discriminate H.
Qed.

Lemma digit_is_word (c : ascii) : isdigit c = true -> isword c = true.
Proof. intros H. unfold isword. now rewrite H. Qed.

Lemma rstrip_by_all (p q : ascii -> bool) (s : string) :
  (forall c, q c = true -> p c = false) ->
  Spec.all_chars q s = true -> rstrip_by p s = s.
Proof.
  intros Hpq. induction s as [|c s IH]; [reflexivity|].
  cbn. intros H. apply andb_true_iff in H as [Hc Hs].
  rewrite (IH Hs). destruct s; [now rewrite (Hpq c Hc) | reflexivity].
Qed.

Lemma int_digits_all (ds : string) :
  forall (c : ascii) (acc : Z),
    Spec.all_chars isdigit (String c ds) = true ->
    int_digits acc (String c ds) = Some (Spec.decimal_from acc (String c ds)).
Proof.
  induction ds as [|d ds IH]; intros c acc H.
  - cbn in H. apply andb_true_iff in H as [Hc _].
    cbn. now rewrite Hc.
  - change (Spec.all_chars isdigit (String c (String d ds)))
      with (isdigit c && Spec.all_chars isdigit (String d ds)) in H.
    apply andb_true_iff in H as [Hc Hd].
    change (Spec.decimal_from acc (String c (String d ds)))
      with (Spec.decimal_from (acc * 10 + digit_val c)%Z (String d ds)).
    rewrite <- (IH d _ Hd).
    cbn [int_digits]. rewrite Hc.
    assert (Hd' : isdigit d = true) by (cbn in Hd; now apply andb_true_iff in Hd).
    destruct d as [[] [] [] [] [] [] [] []]; try reflexivity; discriminate Hd'.
Qed.

Lemma count_digits_all (s : string) :
  Spec.all_chars isdigit s = true -> count_digits s = String.length s.
Proof.
  induction s as [|c s IH]; [reflexivity|].
  cbn. intros H. apply andb_true_iff in H as [Hc Hs]. now rewrite Hc, (IH Hs).
Qed.

(** [int] on a run of digits is the number the digits denote, when the run
    is not longer than the limit; on a longer run it raises. *)
Lemma int_of_str_digits (c : ascii) (ds : string) :
  Spec.all_chars isdigit (String c ds) = true ->
  int_of_str (String c ds)
  = if Nat.leb (String.length (String c ds)) int_max_str_digits
    then Ok (Spec.decimal (String c ds)) else Raise ValueError.
Proof.
  intros H. unfold int_of_str.
  assert (Hc : isdigit c = true) by (cbn in H; now apply andb_true_iff in H).
  cbn [lstrip_by]. rewrite (digit_not_blank c Hc).
  rewrite (rstrip_by_all int_blank isdigit _ digit_not_blank H).
  rewrite (count_digits_all _ H).
  destruct (Nat.leb _ _); [|reflexivity].
  pose proof (int_digits_all ds c 0 H) as Hi. unfold Spec.decimal.
  destruct c as [[] [] [] [] [] [] [] []]; try discriminate Hc; now rewrite Hi.
Qed.

Lemma first_digit_run_digits (s r : string) :
  Spec.first_digit_run s = Some r ->
  exists c ds, r = String c ds /\ Spec.all_chars isdigit r = true.
Proof.
  induction s as [|c s IH]; [discriminate|].
  cbn. destruct (isdigit c) eqn:Hc; [|exact IH].
  intros H. injection H as <-. exists c, (Spec.take_while isdigit s).
  split; [reflexivity|]. cbn. now rewrite Hc, all_take_while.
Qed.

Lemma take_while_digits_rstrip (s : string) :
  Spec.take_while isdigit (rstrip_by isspace s) = Spec.take_while isdigit s.
Proof.
  induction s as [|c s IH]; [reflexivity|].
  cbn [rstrip_by].
  destruct (rstrip_by isspace s) as [|d t] eqn:E.
  - destruct (isspace c) eqn:Hs.
    + cbn. destruct (isdigit c) eqn:Hd; [|reflexivity].
      now rewrite (digit_not_space c Hd) in Hs.
    + cbn. now rewrite <- IH.
  - change (Spec.take_while isdigit (String c (String d t)))
      with (if isdigit c then String c (Spec.take_while isdigit (String d t))
            else EmptyString).
    now rewrite IH.
Qed.

Lemma first_digit_run_rstrip (s : string) :
  Spec.first_digit_run (rstrip_by isspace s) = Spec.first_digit_run s.
Proof.
  induction s as [|c s IH]; [reflexivity|].
  pose proof (take_while_digits_rstrip s) as Ht.
  cbn [rstrip_by].
  destruct (rstrip_by isspace s) as [|d t] eqn:E.
  - destruct (isspace c) eqn:Hs.
    + cbn. destruct (isdigit c) eqn:Hd.
      * now rewrite (digit_not_space c Hd) in Hs.
      * now rewrite <- IH.
    + cbn. rewrite <- IH, <- Ht. reflexivity.
  - change (Spec.first_digit_run (String c (String d t)))
      with (if isdigit c then Some (String c (Spec.take_while isdigit (String d t)))
            else Spec.first_digit_run (String d t)).
    now rewrite IH, Ht.
Qed.

Lemma first_digit_run_lstrip (s : string) :
  Spec.first_digit_run (lstrip_by isspace s) = Spec.first_digit_run s.
Proof.
  induction s as [|c s IH]; [reflexivity|].
  cbn [lstrip_by]. destruct (isspace c) eqn:Hs; [|reflexivity].
  rewrite IH. cbn. destruct (isdigit c) eqn:Hd; [|reflexivity].
  now rewrite (digit_not_space c Hd) in Hs.
Qed.

Lemma first_digit_run_strip (s : string) :
  Spec.first_digit_run (strip s) = Spec.first_digit_run s.
Proof.
  unfold strip. now rewrite first_digit_run_rstrip, first_digit_run_lstrip.
Qed.

End Integers.

Section NumberClaims.

Import Py Main.

(** Numeric extraction on every element: the first run of digits of the
    text, as an integer, when [int] converts it. *)
Lemma extract_number_from_tag_run (tag : option Bs4.located) :
  extract_number_from_tag tag =
  match tag with
  | Some t =>
      match Spec.first_digit_run (Bs4.text (Bs4.element t)) with
      | Some run =>
          if Nat.leb (String.length run) int_max_str_digits
          then Ok (Some (Spec.decimal run))
          else Raise ValueError
      | None => Ok None
      end
  | None => Ok None
  end.
Proof.
  destruct tag as [t|]; [|reflexivity].
  unfold extract_number_from_tag.
  pose proof (findall_head digits_pattern (strip (Bs4.text (Bs4.element t)))) as Hh.
  unfold Re.search in Hh.
  rewrite search_digits, first_digit_run_strip in Hh.
  destruct (Re.findall digits_pattern (strip (Bs4.text (Bs4.element t)))) as [|x l].
  - cbn [hd_error] in Hh. now rewrite <- Hh.
  - cbn [hd_error] in Hh. rewrite <- Hh.
    destruct (first_digit_run_digits _ _ (eq_sym Hh)) as (c & ds & -> & Hd).
    change (getitem (String c ds :: l) 0%Z) with (Ok (String c ds)).
    cbn [bind]. rewrite (int_of_str_digits c ds Hd).
    now destruct (Nat.leb _ _).
Qed.

(** C9, at the defect.  Numeric extraction returns the first run of digits
    of the text of the element as an integer (3 on the text 3 chambres),
    and nothing when the text has no digit or the element is absent, as
    long as the run has at most 4300 digits.  On a longer run [int] raises
    a [ValueError] that nothing catches: on an element whose text is a run
    of 4301 digits, where the claim gives the number the run denotes, the
    extraction raises and the exception leaves the controller. *)
Theorem C9_numeric_extraction :
  (forall tag,
      extract_number_from_tag tag =
      match tag with
      | Some t =>
          match Spec.first_digit_run (Bs4.text (Bs4.element t)) with
          | Some run =>
              if Nat.leb (String.length run) int_max_str_digits
              then Ok (Some (Spec.decimal run))
              else Raise ValueError
          | None => Ok None
          end
      | None => Ok None
      end)
  /\ Spec.numeric "3 chambres" = Some 3%Z
  /\ Spec.numeric "chambres" = None
  /\ extract_number_from_tag
       (Some (Bs4.Located (Bs4.MkTag "div" [] [Bs4.NavigableString "3 chambres"]) []))
     = Ok (Some 3%Z)
  /\ Spec.first_digit_run (Examples.nines 4301 ++ " chambres")
     = Some (Examples.nines 4301)
  /\ extract_number_from_tag
       (Some (Bs4.Located
                (Bs4.MkTag "div" []
                   [Bs4.NavigableString (Examples.nines 4301 ++ " chambres")]) []))
     = Raise ValueError
  /\ snd (parse_announcements 2
            (Examples.one_listing
               (Examples.bedrooms_page (Examples.nines 4301 ++ " chambres")))
            Examples.base 60)
     = Some (Raise ValueError).
Proof.
  split; [exact extract_number_from_tag_run|].
  do 5 (split; [vm_compute; reflexivity|]).
  vm_compute; reflexivity.
Qed.

End NumberClaims.

(* ================================================================== *)
(** * The floor area *)
(* ================================================================== *)

Section GroupedRuns.

Import Py Re.

Lemma last_of_app (p : option ascii) (a b : string) :
  last_of p (a ++ b) = last_of (last_of p a) b.
Proof. revert p. induction a as [|c a IH]; intros p; cbn; [reflexivity | apply IH]. Qed.

Lemma drop_while_length (q : ascii -> bool) (s : string) :
  String.length (Spec.drop_while q s) <= String.length s.
Proof.
  induction s as [|c s IH]; cbn; [lia|]. destruct (q c); cbn; lia.
Qed.

Lemma drop_while_head (q : ascii -> bool) (s : string) :
  match Spec.drop_while q s with
  | String c _ => q c = false
  | EmptyString => True
  end.
Proof.
  induction s as [|c s IH]; cbn; [exact I|].
  destruct (q c) eqn:E; [exact IH | exact E].
Qed.

Lemma grouped_tail_digits (s : string) :
  Spec.grouped_tail s
  = Spec.take_while isdigit s ++ Spec.grouped_tail (Spec.drop_while isdigit s).
Proof.
  induction s as [|c s IH]; [reflexivity|].
  cbn [Spec.take_while Spec.drop_while].
  destruct (isdigit c) eqn:E; [|reflexivity].
  cbn [Spec.grouped_tail append]. now rewrite E, IH.
Qed.

Lemma after_grouped_digits (s : string) :
  Spec.after_grouped s = Spec.after_grouped (Spec.drop_while isdigit s).
Proof.
  induction s as [|c s IH]; [reflexivity|].
  cbn [Spec.drop_while].
  destruct (isdigit c) eqn:E; [|reflexivity].
  cbn [Spec.after_grouped]. now rewrite E.
Qed.

Lemma grouped_tail_after (s : string) :
  Spec.grouped_tail s ++ Spec.after_grouped s = s.
Proof.
  induction s as [|c s IH]; [reflexivity|].
  cbn [Spec.grouped_tail Spec.after_grouped].
  destruct (isdigit c); [cbn; now rewrite IH|].
  destruct (Ascii.eqb c ","); [|reflexivity].
  destruct s as [|d s]; [reflexivity|].
  destruct (isdigit d); [cbn [append]; now rewrite IH | reflexivity].
Qed.

Context {A : Type}.

(** The star over the groups reads the whole grouped run, when what
    follows the star succeeds at its end. *)
Lemma star_groups_greedy (k : mstate -> option A) (x : A) :
  forall (n : nat) (s : string) (p : option ascii) (g : option string),
    String.length s <= n ->
    match s with String c _ => isdigit c = false | EmptyString => True end ->
    k (MState (last_of p (Spec.grouped_tail s)) (Spec.after_grouped s) g) = Some x ->
    star_iter true (mtch Main.group_pattern) k n (MState p s g) = Some x.
Proof.
  induction n as [|n IH]; intros s p g Hn Hhead Hk.
  - destruct s; [|cbn in Hn; lia]. cbn in *. now rewrite Hk.
  - cbn [star_iter]. unfold Main.group_pattern at 1, Plus, Main.ch, Main.digit.
    rewrite !mtch_cat, mtch_chr. cbn [rest grp].
    destruct s as [|c s]; [cbn in *; now rewrite Hk|].
    cbn [Spec.grouped_tail Spec.after_grouped] in Hk. rewrite Hhead in Hk.
    rewrite (Ascii.eqb_sym "," c).
    destruct (Ascii.eqb c ",") eqn:Ec; [|cbn [orelse]; exact Hk].
    rewrite mtch_cat, mtch_chr. cbn [rest grp].
    destruct s as [|d s]; [cbn [orelse]; exact Hk|].
    destruct (isdigit d) eqn:Ed; [|cbn [orelse]; exact Hk].
    rewrite mtch_star. cbn [rest].
    rewrite (star_class_greedy isdigit _ x); [reflexivity | lia |].
    cbn [rest String.length].
    pose proof (drop_while_length isdigit s) as Hl.
    replace (Nat.ltb (String.length (Spec.drop_while isdigit s))
               (S (S (String.length s)))) with true
      by (symmetry; apply Nat.ltb_lt; lia).
    apply IH.
    + cbn in Hn. lia.
    + apply drop_while_head.
    + cbn [Spec.grouped_tail Spec.after_grouped] in Hk. rewrite Ed in Hk.
      cbn [last_of] in Hk.
      rewrite grouped_tail_digits, last_of_app, after_grouped_digits in Hk.
      exact Hk.
Qed.

End GroupedRuns.

Section FloorArea.

Import Py Re.

(** A grouped run ends in a digit. *)
Lemma last_of_grouped (s : string) :
  forall p,
    isword_opt p || Spec.starts_digit s = true ->
    isword_opt (last_of p (Spec.grouped_tail s)) = true.
Proof.
  induction s as [|d s IH]; intros p H.
  - cbn in *. now rewrite orb_false_r in H.
  - cbn [Spec.grouped_tail]. cbn [Spec.starts_digit] in H.
    destruct (isdigit d) eqn:Ed.
    + cbn [last_of]. apply IH. cbn. now rewrite (digit_is_word d Ed).
    + rewrite orb_false_r in H.
      destruct (Ascii.eqb d ","); [|exact H].
      destruct s as [|e s]; [exact H|].
      destruct (isdigit e) eqn:Ee; [|exact H].
      cbn [last_of]. apply IH. cbn [Spec.starts_digit]. rewrite Ee. apply orb_true_r.
Qed.

(** At a digit that no word character precedes, when no word character
    follows the grouped run, the pattern matches the grouped run. *)
Lemma match_floor_area_at (p : option ascii) (c : ascii) (s : string) :
  isdigit c = true ->
  isword_opt p = false ->
  isword_opt (peek (Spec.after_grouped s)) = false ->
  match_at Main.floor_area_pattern p (String c s)
  = Some (MState (last_of (Some c) (Spec.grouped_tail s)) (Spec.after_grouped s) None).
Proof.
  intros Hc Hp Hd.
  unfold match_at, Main.floor_area_pattern, Plus, Main.digit.
  cbn [mtch prev rest peek isword_opt grp].
  rewrite Hp, (digit_is_word c Hc), Hc. cbn [xorb].
  apply star_class_greedy; [lia|].
  fold Main.group_pattern. cbn [rest].
  apply star_groups_greedy; [lia | apply drop_while_head |].
  rewrite <- after_grouped_digits, <- last_of_app, <- grouped_tail_digits.
  cbn [mtch prev rest].
  rewrite (last_of_grouped s (Some c))
    by (cbn; now rewrite (digit_is_word c Hc)).
  rewrite Hd. reflexivity.
Qed.

Lemma match_floor_area_nondigit (p : option ascii) (s : string) :
  Spec.starts_digit s = false -> match_at Main.floor_area_pattern p s = None.
Proof.
  intros H. unfold match_at, Main.floor_area_pattern, Plus, Main.digit.
  cbn [mtch prev rest grp].
  destruct (xorb _ _); [|reflexivity].
  destruct s as [|c s]; [reflexivity|]. cbn in H. now rewrite H.
Qed.

(** When the first grouped run is delimited, the search finds it. *)
Lemma search_floor_area (s : string) :
  forall p,
    Spec.first_run_delimited_from p s = true ->
    option_map group0 (search_from Main.floor_area_pattern p s)
    = Spec.first_grouped_run s.
Proof.
  induction s as [|c s IH]; intros p Hd.
  - cbn [search_from]. now rewrite match_floor_area_nondigit.
  - cbn [search_from Spec.first_grouped_run].
    cbn [Spec.first_run_delimited_from] in Hd.
    destruct (isdigit c) eqn:Ec.
    + apply andb_true_iff in Hd as [Hp Ha].
      apply negb_true_iff in Hp. apply negb_true_iff in Ha.
      rewrite (match_floor_area_at p c s Ec Hp Ha).
      cbn [option_map]. unfold group0. cbn [m_from m_end rest].
      f_equal. rewrite <- (grouped_tail_after s) at 1.
      exact (consumed_app (String c (Spec.grouped_tail s)) (Spec.after_grouped s)).
    + rewrite match_floor_area_nondigit by exact Ec.
      now apply IH.
Qed.

Lemma grouped_tail_commas (s : string) :
  Spec.all_chars isdigit (remove_char "," (Spec.grouped_tail s)) = true.
Proof.
  induction s as [|c s IH]; [reflexivity|].
  cbn [Spec.grouped_tail].
  destruct (isdigit c) eqn:Ec.
  - cbn [remove_char].
    destruct (Ascii.eqb c ","); [exact IH|]. cbn. now rewrite Ec.
  - destruct (Ascii.eqb c ",") eqn:E; [|reflexivity].
    destruct s as [|d s]; [reflexivity|].
    destruct (isdigit d); [|reflexivity].
    cbn [remove_char]. now rewrite E.
Qed.

Lemma first_grouped_run_shape (s r : string) :
  Spec.first_grouped_run s = Some r ->
  exists c s', r = String c (Spec.grouped_tail s') /\ isdigit c = true.
Proof.
  induction s as [|c s IH]; [discriminate|].
  cbn. destruct (isdigit c) eqn:Ec; [|exact IH].
  intros H. injection H as <-. now exists c, s.
Qed.

Lemma digit_not_comma (c : ascii) : isdigit c = true -> Ascii.eqb c "," = false.
Proof.
  intros H. apply Ascii.eqb_neq. intros ->. discriminate H.
Qed.

(** Commas are not digits: removing them keeps the count of digits. *)
Lemma count_digits_remove_commas (s : string) :
  count_digits (remove_char "," s) = count_digits s.
Proof.
  induction s as [|c s IH]; [reflexivity|].
  cbn [remove_char]. destruct (Ascii.eqb c ",") eqn:E.
  - apply Ascii.eqb_eq in E. subst c. exact IH.
  - cbn [count_digits]. now rewrite IH.
Qed.

(** [int] on a text that the floor area pattern can match, its commas
    removed. *)
Lemma int_of_str_grouped (c : ascii) (t : string) :
  isdigit c = true ->
  Spec.all_chars isdigit (remove_char "," t) = true ->
  int_of_str (remove_char "," (String c t))
  = if Nat.leb (count_digits (String c t)) int_max_str_digits
    then Ok (Spec.decimal (remove_char "," (String c t)))
    else Raise ValueError.
Proof.
  intros Hc Ht. cbn [remove_char]. rewrite (digit_not_comma c Hc).
  assert (Hd : Spec.all_chars isdigit (String c (remove_char "," t)) = true)
    by (cbn; now rewrite Hc, Ht).
  rewrite (int_of_str_digits _ _ Hd), <- (count_digits_all _ Hd).
  replace (count_digits (String c (remove_char "," t)))
    with (count_digits (String c t)); [reflexivity|].
  cbn [count_digits]. now rewrite count_digits_remove_commas.
Qed.

(** On a text whose first grouped run is delimited, the normalisation is
    the normalized numeric extraction of the specification, as far as
    [int] converts the run. *)
Lemma normalize_floor_area_delimited (text : string) :
  Spec.first_run_delimited text = true ->
  Main.normalize_floor_area (PStr text)
  = if Spec.first_run_convertible text
    then Ok (Spec.normalized_numeric text)
    else Raise ValueError.
Proof.
  intros Hd. unfold Main.normalize_floor_area, Spec.normalized_numeric,
    Spec.first_run_convertible.
  destruct text as [|a text]; [reflexivity|].
  cbn [truthy String.eqb negb Re.search_value bind].
  pose proof (search_floor_area (String a text) None Hd) as Hs.
  unfold search.
  destruct (search_from Main.floor_area_pattern None (String a text)) as [m|];
    cbn [option_map] in Hs; rewrite <- Hs; [|reflexivity].
  destruct (first_grouped_run_shape _ _ (eq_sym Hs)) as (c & s' & Hr & Hc).
  rewrite Hr. cbn [option_map].
  rewrite (int_of_str_grouped c _ Hc (grouped_tail_commas s')).
  now destruct (Nat.leb _ _).
Qed.

End FloorArea.

Section FloorAreaClaims.

Import Py Main.

(** C8, as amended.  The floor area is the characteristic labelled Floor
    Area, normalised.  The lookup takes the value element that follows the
    label element, and returns its trimmed text as an integer when [int]
    accepts it and as text otherwise; without the label, or without a value
    element after it, the floor area is absent.  On a value returned as
    text whose first digit run that may contain grouping commas is
    delimited (no letter, digit or underscore just before or just after it)
    and has at most 4300 digits, the floor area is that run, the commas
    stripped, as an integer: 1234 on the value 1,234 sq ft. *)
Theorem C8_floor_area :
  (forall soup,
      match Bs4.find "div" [("class", "carac-title")] (Bs4.Exactly "Floor Area") soup with
      | None => floor_area_field soup = Ok None
      | Some title_tag =>
          match Bs4.find_next_sibling title_tag "div" [("class", "carac-value")] with
          | None => floor_area_field soup = Ok None
          | Some value_tag =>
              let value_text := strip (Bs4.text (Bs4.element value_tag)) in
              match int_of_str value_text with
              | Ok n => extract_value_by_title soup "Floor Area" = Ok (PInt n)
              | Raise _ =>
                  extract_value_by_title soup "Floor Area" = Ok (PStr value_text)
                  /\ (Spec.first_run_delimited value_text = true ->
                      Spec.first_run_convertible value_text = true ->
                      floor_area_field soup = Ok (Spec.normalized_numeric value_text))
              end
          end
      end)
  /\ Spec.normalized_numeric "1,234 sq ft" = Some 1234%Z
  /\ floor_area_field (Examples.listing "1,234 sq ft" Examples.no_photos)
     = Ok (Some 1234%Z).
Proof.
  split; [|split; vm_compute; reflexivity].
  intros soup. unfold floor_area_field, extract_value_by_title.
  destruct (Bs4.find "div" _ _ soup) as [title_tag|]; [|reflexivity].
  destruct (Bs4.find_next_sibling title_tag _ _) as [value_tag|]; [|reflexivity].
  cbv zeta.
  destruct (int_of_str (strip (Bs4.text (Bs4.element value_tag)))) as [n|e] eqn:E;
    [reflexivity|].
  pose proof (int_of_str_raises _ _ E) as ->.
  split; [reflexivity|].
  intros Hd Hc. cbn [bind].
  now rewrite (normalize_floor_area_delimited _ Hd), Hc.
Qed.

Lemma C8_floor_area_witness :
  floor_area_field (Examples.listing "1,200 sqft (lot 5a)" Examples.no_photos)
  = Ok (Spec.normalized_numeric "1,200 sqft (lot 5a)").
Proof.
  pose proof (proj1 C8_floor_area
                (Examples.listing "1,200 sqft (lot 5a)" Examples.no_photos)) as H.
  assert (Hf : Bs4.find "div" [("class", "carac-title")] (Bs4.Exactly "Floor Area")
                 (Examples.listing "1,200 sqft (lot 5a)" Examples.no_photos)
               = Some (Bs4.Located
                         (Bs4.MkTag "div" [("class", "carac-title")]
                            [Bs4.NavigableString "Floor Area"])
                         (tl (Examples.carac "Floor Area" "1,200 sqft (lot 5a)")
                          ++ Examples.carac "Parking Spaces" "2")))
    by (vm_compute; reflexivity).
  rewrite Hf in H.
  assert (Hn : Bs4.find_next_sibling
                 (Bs4.Located
                    (Bs4.MkTag "div" [("class", "carac-title")]
                       [Bs4.NavigableString "Floor Area"])
                    (tl (Examples.carac "Floor Area" "1,200 sqft (lot 5a)")
                     ++ Examples.carac "Parking Spaces" "2"))
                 "div" [("class", "carac-value")]
               = Some (Bs4.Located
                         (Bs4.MkTag "div" [("class", "carac-value")]
                            [Bs4.Tag "span" []
                               [Bs4.NavigableString "1,200 sqft (lot 5a)"]])
                         (Examples.carac "Parking Spaces" "2")))
    by (vm_compute; reflexivity).
  rewrite Hn in H. cbv zeta in H.
  assert (Ht : strip (Bs4.text
                 (Bs4.element
                    (Bs4.Located
                       (Bs4.MkTag "div" [("class", "carac-value")]
                          [Bs4.Tag "span" []
                             [Bs4.NavigableString "1,200 sqft (lot 5a)"]])
                       (Examples.carac "Parking Spaces" "2"))))
               = "1,200 sqft (lot 5a)") by (vm_compute; reflexivity).
  rewrite Ht in H.
  assert (Hi : int_of_str "1,200 sqft (lot 5a)" = Raise ValueError)
    by (vm_compute; reflexivity).
  rewrite Hi in H.
  apply (proj2 H); vm_compute; reflexivity.
Defined.

(** C8 as the specification states it fails where the first digit run is
    glued to a letter: on the value 850sqft the first digit run is 850, and
    the program finds no floor area.  It also fails on a run of 4301
    digits, which [int] does not convert: the program raises. *)
Lemma C8_glued_digits_counterexample :
  floor_area_field (Examples.listing "850sqft" Examples.no_photos)
  <> Ok (Spec.normalized_numeric "850sqft")
  /\ Spec.first_grouped_run (Examples.nines 4301 ++ " sqft")
     = Some (Examples.nines 4301)
  /\ floor_area_field
       (Examples.listing (Examples.nines 4301 ++ " sqft") Examples.no_photos)
     = Raise ValueError.
Proof.
  split; [vm_compute; discriminate|].
  split; vm_compute; reflexivity.
Qed.

End FloorAreaClaims.

(* ================================================================== *)
(** * What the matcher finds is a match *)
(* ================================================================== *)

Section Soundness.

Import Re.

Context {A : Type}.

Lemma orelse_some (a b : option A) (x : A) :
  orelse a b = Some x -> a = Some x \/ b = Some x.
Proof. destruct a; cbn; intros H; [left | right]; exact H. Qed.

Lemma star_iter_sound (greedy : bool) (r : regex)
  (Hr : forall st (k : mstate -> option A) x,
      mtch r st k = Some x -> exists st', matches r st st' /\ k st' = Some x)
  (k : mstate -> option A) (x : A) (n : nat) :
  forall st,
    star_iter greedy (mtch r) k n st = Some x ->
    exists st', matches (Star greedy r) st st' /\ k st' = Some x.
Proof.
  induction n as [|n IH]; intros st H; cbn [star_iter] in H.
  - assert (Hk : k st = Some x).
    { destruct greedy; apply orelse_some in H as [H|H];
        first [exact H | discriminate H]. }
    exists st. split; [constructor | exact Hk].
  - assert (Hcases :
      mtch r st (fun st' =>
        if Nat.ltb (String.length (rest st')) (String.length (rest st))
        then star_iter greedy (mtch r) k n st' else None) = Some x
      \/ k st = Some x).
    { destruct greedy; apply orelse_some in H; tauto. }
    destruct Hcases as [Hmore | Hk].
    + apply Hr in Hmore as (st1 & Hm & Hrest).
      destruct (Nat.ltb _ _); [|discriminate Hrest].
      apply IH in Hrest as (st2 & Hs & Hk).
      exists st2. split; [econstructor; eassumption | exact Hk].
    + exists st. split; [constructor | exact Hk].
Qed.

End Soundness.

Section SoundnessAll.

Import Re.

(** The matcher is sound: when it succeeds, the pattern matches up to the
    state it hands to what follows. *)
Lemma mtch_sound (r : regex) :
  forall (A : Type) (st : mstate) (k : mstate -> option A) (x : A),
    mtch r st k = Some x -> exists st', matches r st st' /\ k st' = Some x.
Proof.
  induction r as [|p|r1 IH1 r2 IH2|greedy r IH| |r IH]; intros A st k x H.
  - exists st. split; [constructor | exact H].
  - cbn [mtch] in H. destruct st as [pr s g]. cbn [rest grp] in H.
    destruct s as [|c s]; [discriminate H|].
    destruct (p c) eqn:E; [|discriminate H].
    eexists. split; [constructor; exact E | exact H].
  - cbn [mtch] in H. apply IH1 in H as (b & Hb & H).
    apply IH2 in H as (c & Hc & H).
    exists c. split; [econstructor; eassumption | exact H].
  - cbn [mtch] in H. eapply star_iter_sound; [|exact H].
    intros st0 k0 x0. apply IH.
  - cbn [mtch] in H. destruct (xorb _ _) eqn:E; [|discriminate H].
    exists st. split; [constructor; exact E | exact H].
  - cbn [mtch] in H. apply IH in H as (b & Hb & H).
    eexists. split; [constructor; exact Hb | exact H].
Qed.

Lemma match_at_sound (r : regex) (p : option ascii) (s : string) (e : mstate) :
  match_at r p s = Some e -> matches r (MState p s None) e.
Proof.
  intros H. apply mtch_sound in H as (e' & Hm & He). now injection He as <-.
Qed.

(** A search result is a match at its starting text. *)
Lemma search_from_sound (r : regex) (s : string) :
  forall p m,
    search_from r p s = Some m ->
    exists p', matches r (MState p' (m_from m) None) (m_end m).
Proof.
  induction s as [|c s IH]; intros p m H; cbn [search_from] in H.
  - destruct (match_at r p EmptyString) as [e|] eqn:E; [|discriminate H].
    injection H as <-. exists p. now apply match_at_sound.
  - destruct (match_at r p (String c s)) as [e|] eqn:E.
    + injection H as <-. exists p. now apply match_at_sound.
    + exact (IH _ _ H).
Qed.

(** A match reads a stretch of the text, all of it within the classes of
    the pattern. *)
Lemma matches_within (q : ascii -> bool) (r : regex) (a b : mstate) :
  matches r a b ->
  classes_within q r ->
  exists t, rest a = t ++ rest b /\ Spec.all_chars q t = true.
Proof.
  induction 1 as [st|p c s pr g Hp|r1 r2 a b c _ IH1 _ IH2|greedy r st
                  |greedy r a b c _ IH1 _ IH2|st _|r a b _ IH]; intros Hq.
  - now exists EmptyString.
  - exists (String c EmptyString). split; [reflexivity|].
    cbn. cbn in Hq. now rewrite (Hq c Hp).
  - destruct Hq as [Hq1 Hq2].
    destruct (IH1 Hq1) as (t1 & E1 & A1). destruct (IH2 Hq2) as (t2 & E2 & A2).
    exists (t1 ++ t2). split.
    + now rewrite E1, E2, str_app_assoc.
    + clear - A1 A2. induction t1 as [|x t1 IH]; [exact A2|].
      cbn in *. apply andb_true_iff in A1 as [Hx A1]. now rewrite Hx, IH.
  - now exists EmptyString.
  - destruct (IH1 Hq) as (t1 & E1 & A1). destruct (IH2 Hq) as (t2 & E2 & A2).
    exists (t1 ++ t2). split.
    + now rewrite E1, E2, str_app_assoc.
    + clear - A1 A2. induction t1 as [|x t1 IH]; [exact A2|].
      cbn in *. apply andb_true_iff in A1 as [Hx A1]. now rewrite Hx, IH.
  - now exists EmptyString.
  - cbn [rest]. exact (IH Hq).
Qed.

End SoundnessAll.

(* ================================================================== *)
(** * The photo array *)
(* ================================================================== *)

Section Assignment.

Import Py Re.

Context {A : Type}.

Lemma mtch_lit (w : string) :
  forall (p : option ascii) (s : string) (g : option string) (k : mstate -> option A),
    mtch (Lit w) (MState p s g) k =
    match Spec.drop_prefix w s with
    | Some s' => k (MState (last_of p w) s' g)
    | None => None
    end.
Proof.
  induction w as [|a w IH]; intros p s g k; [reflexivity|].
  cbn [Lit]. rewrite mtch_cat, mtch_chr. cbn [rest grp Spec.drop_prefix last_of].
  destruct s as [|b s]; [reflexivity|].
  destruct (Ascii.eqb a b) eqn:E; [|reflexivity].
  apply Ascii.eqb_eq in E. subst b. apply IH.
Qed.

Lemma drop_prefix_app (w s : string) : Spec.drop_prefix w (w ++ s) = Some s.
Proof.
  induction w as [|a w IH]; [reflexivity|].
  cbn. now rewrite Ascii.eqb_refl.
Qed.

Lemma take_while_app (q : ascii -> bool) (a b : string) :
  Spec.all_chars q a = true ->
  match b with String c _ => q c = false | EmptyString => True end ->
  Spec.take_while q (a ++ b) = a /\ Spec.drop_while q (a ++ b) = b.
Proof.
  intros Ha Hb. induction a as [|c a IH].
  - cbn. destruct b as [|c b]; [now split|]. cbn. now rewrite Hb.
  - cbn in Ha. apply andb_true_iff in Ha as [Hc Ha].
    destruct (IH Ha) as [H1 H2]. cbn. now rewrite Hc, H1, H2.
Qed.

(** A lazy star over any character, followed by a closing bracket and then
    something that needs a semicolon, stops at the first closing bracket
    that a semicolon follows. *)
Lemma star_lazy_until (k' : mstate -> option A) (x : A) (post : string) :
  (forall st, peek (rest st) <> Some ";"%char -> k' st = None) ->
  forall (body : string) (n : nat) (p : option ascii) (g : option string),
    String.length (body ++ String "]" (String ";" post)) <= n ->
    contains "];" (body ++ "]") = false ->
    mtch (Main.ch "]") (MState (last_of p body) (String "]" (String ";" post)) g) k'
    = Some x ->
    star_iter false (mtch (Chr any_char)) (fun st => mtch (Main.ch "]") st k') n
      (MState p (body ++ String "]" (String ";" post)) g) = Some x.
Proof.
  intros Hk'. induction body as [|c body IH]; intros n p g Hn Hc Hend.
  - cbn [append last_of] in *. destruct n; cbn [star_iter]; now rewrite Hend.
  - destruct n as [|n]; [cbn in Hn; lia|].
    change (String c body ++ "]") with (String c (body ++ "]")) in Hc.
    cbn [contains] in Hc. apply orb_false_iff in Hc as [Hpre Hc].
    change (String c body ++ String "]" (String ";" post))
      with (String c (body ++ String "]" (String ";" post))) in *.
    cbn [star_iter].
    assert (Hfail : mtch (Main.ch "]")
                      (MState p (String c (body ++ String "]" (String ";" post))) g) k'
                    = None).
    { unfold Main.ch. rewrite mtch_chr. cbn [rest grp].
      destruct (Ascii.eqb "]" c) eqn:E; [|reflexivity].
      apply Ascii.eqb_eq in E. subst c. apply Hk'. cbn [rest].
      destruct body as [|d body]; [cbn; discriminate|].
      cbn [append peek]. intros H. injection H as ->.
      change (String "]" (String ";" body ++ "]"))
        with (String "]" (String ";" (body ++ "]"))) in Hpre.
      cbn [String.prefix] in Hpre.
      destruct (ascii_dec "]" "]") as [_|N]; [|now contradiction N].
      destruct (ascii_dec ";" ";") as [_|N]; [|now contradiction N].
      destruct (body ++ "]"); discriminate Hpre. }
    rewrite Hfail. cbn [orelse]. rewrite mtch_chr. cbn [rest grp any_char String.length].
    replace (Nat.ltb _ (S _)) with true by (symmetry; apply Nat.ltb_lt; lia).
    apply IH; [cbn in Hn; lia | exact Hc | exact Hend].
Qed.

End Assignment.

Section PhotoArray.

Import Py Re.

(** What a literal text matches. *)
Lemma matches_lit (w : string) :
  forall a b, matches (Lit w) a b -> Spec.drop_prefix w (rest a) = Some (rest b).
Proof.
  induction w as [|x w IH]; intros a b H; cbn [Lit] in H.
  - inversion H; subst. now destruct (rest b).
  - inversion H as [| |? ? ? m ? Hx Hw| | | |]; subst. clear H.
    inversion Hx as [|? c s pr g Hc| | | | |]; subst. clear Hx.
    cbn [rest Spec.drop_prefix]. rewrite Hc. apply (IH _ _ Hw).
Qed.

(** What a star over a class matches. *)
Lemma matches_class_star (greedy : bool) (q : ascii -> bool) (a b : mstate) :
  matches (Star greedy (Chr q)) a b ->
  exists t, rest a = t ++ rest b /\ Spec.all_chars q t = true.
Proof.
  intros H. apply (matches_within q) in H; [exact H|].
  cbn. auto.
Qed.

Lemma matches_ch (x : ascii) (a b : mstate) :
  matches (Main.ch x) a b -> rest a = String x (rest b).
Proof.
  unfold Main.ch. intros H.
  inversion H as [|? c s pr g Hc| | | | |]; subst.
  apply Ascii.eqb_eq in Hc. now subst c.
Qed.

Lemma drop_blanks (ws : string) (c : ascii) (s : string) :
  Spec.all_chars isspace ws = true -> isspace c = false ->
  Spec.drop_while isspace (ws ++ String c s) = String c s.
Proof.
  intros Hws Hc. now apply (take_while_app isspace ws (String c s)).
Qed.

(** Where the assignment pattern matches, the text begins as an assignment
    of an array does. *)
Lemma match_starts_assignment (p : option ascii) (s : string) (e : mstate) :
  match_at Main.pattern_group p s = Some e -> Spec.starts_assignment s = true.
Proof.
  intros H. apply match_at_sound in H.
  unfold Main.pattern_group, Main.assignment, Main.blanks in H.
  inversion H as [| |? ? ? st1 ? Hvar H1| | | |]; subst. clear H.
  inversion H1 as [| |? ? ? st2 ? Hws1 H2| | | |]; subst. clear H1.
  inversion H2 as [| |? ? ? st3 ? Heq H3| | | |]; subst. clear H2.
  inversion H3 as [| |? ? ? st4 ? Hws2 H4| | | |]; subst. clear H3.
  inversion H4 as [| |? ? ? st5 ? Hlit _| | | |]; subst. clear H4.
  inversion Hlit as [| | | | | |? ? st6 Harr]; subst. clear Hlit.
  unfold Main.array_literal in Harr.
  inversion Harr as [| |? ? ? st7 ? Hopen _| | | |]; subst. clear Harr.
  apply (matches_lit Spec.variable) in Hvar. cbn [rest] in Hvar.
  apply matches_class_star in Hws1 as (ws1 & E1 & A1).
  apply matches_ch in Heq.
  apply matches_class_star in Hws2 as (ws2 & E2 & A2).
  apply matches_ch in Hopen.
  unfold Spec.starts_assignment. rewrite Hvar, E1, Heq.
  rewrite (drop_blanks ws1 "=" _ A1 eq_refl), E2, Hopen.
  now rewrite (drop_blanks ws2 "[" _ A2 eq_refl).
Qed.

(** The search passes over a stretch in which no array is assigned to the
    variable. *)
Lemma search_skips (tail : string) (pre : string) :
  forall p,
    Spec.assigned_before pre tail = false ->
    search_from Main.pattern_group p (pre ++ tail)
    = search_from Main.pattern_group (last_of p pre) tail.
Proof.
  induction pre as [|c pre IH]; intros p H; [reflexivity|].
  cbn [Spec.assigned_before] in H. apply orb_false_iff in H as [Hc Hpre].
  change (String c pre ++ tail) with (String c (pre ++ tail)) in *.
  cbn [search_from last_of].
  destruct (match_at Main.pattern_group p (String c (pre ++ tail))) as [e|] eqn:E.
  - apply match_starts_assignment in E. congruence.
  - now apply IH.
Qed.

Lemma match_assignment (p : option ascii) (ws1 ws2 body post : string) :
  Spec.all_chars isspace ws1 = true ->
  Spec.all_chars isspace ws2 = true ->
  contains "];" (body ++ "]") = false ->
  exists e,
    match_at Main.pattern_group p (Spec.assignment_text ws1 ws2 body post) = Some e
    /\ grp e = Some (String "[" (body ++ "]")).
Proof.
  intros H1 H2 Hb. eexists.
  unfold match_at, Main.pattern_group, Main.assignment, Spec.assignment_text, Spec.variable.
  rewrite mtch_cat, mtch_lit, drop_prefix_app.
  destruct (take_while_app isspace ws1
              (String "=" (ws2 ++ String "[" (body ++ String "]" (String ";" post))))
              H1 eq_refl) as [T1 D1].
  destruct (take_while_app isspace ws2
              (String "[" (body ++ String "]" (String ";" post))) H2 eq_refl) as [T2 D2].
  unfold Main.blanks.
  rewrite mtch_cat, mtch_star. cbn [rest].
  split.
  - apply star_class_greedy; [lia|]. rewrite T1, D1.
    rewrite mtch_cat. unfold Main.ch at 1. rewrite mtch_chr. cbn [rest grp Ascii.eqb].
    replace (Ascii.eqb "=" "=") with true by reflexivity.
    rewrite mtch_cat, mtch_star. cbn [rest].
    apply star_class_greedy; [lia|]. rewrite T2, D2.
    rewrite mtch_cat. cbn [mtch]. cbn [rest grp prev].
    replace (Ascii.eqb "[" "[") with true by reflexivity.
    cbn [rest String.length].
    apply star_lazy_until.
    + intros st Hst. unfold Main.ch. cbn [mtch rest grp prev].
      destruct (rest st) as [|c r]; [reflexivity|].
      destruct (Ascii.eqb ";" c) eqn:E; [|reflexivity].
      apply Ascii.eqb_eq in E. subst c. now contradiction Hst.
    + apply Nat.le_refl.
    + exact Hb.
    + cbn [mtch rest grp prev]. replace (Ascii.eqb "]" "]") with true by reflexivity.
      cbn [rest]. replace (Ascii.eqb ";" ";") with true by reflexivity.
      reflexivity.
  - cbn [grp prev rest]. f_equal.
    replace (String "[" (body ++ String "]" (String ";" post)))
      with (String "[" (body ++ "]") ++ String ";" post)
      by (cbn [append]; f_equal; now rewrite str_app_assoc).
    apply consumed_app.
Qed.

Lemma search_from_match (r : regex) (p : option ascii) (s : string) (e : mstate) :
  match_at r p s = Some e -> search_from r p s = Some (RMatch s e).
Proof. intros H. destruct s; cbn [search_from]; now rewrite H. Qed.

(** The search finds the first assignment of an array and captures its
    array literal. *)
Lemma search_assignment (pre ws1 ws2 body post : string) :
  Spec.assigned_before pre (Spec.assignment_text ws1 ws2 body post) = false ->
  Spec.all_chars isspace ws1 = true ->
  Spec.all_chars isspace ws2 = true ->
  contains "];" (body ++ "]") = false ->
  exists m,
    search Main.pattern_group (pre ++ Spec.assignment_text ws1 ws2 body post) = Some m
    /\ group1 m = String "[" (body ++ "]").
Proof.
  intros Hpre H1 H2 Hb.
  destruct (match_assignment (last_of None pre) ws1 ws2 body post H1 H2 Hb)
    as (e & He & Hg).
  exists (RMatch (Spec.assignment_text ws1 ws2 body post) e).
  split; [|unfold group1; cbn [m_end]; now rewrite Hg].
  unfold search. rewrite (search_skips _ _ None Hpre).
  now apply search_from_match.
Qed.

End PhotoArray.

Section ImageClaims.

Import Py Main.

(** C7, as amended.  Images extraction: when the first script whose text
    matches the pattern assigns a well-formed JSON array of N URL strings to
    the variable, with nothing before that assignment in the script that
    assigns an opening bracket to the variable, with the closing bracket of
    the array directly followed by a semicolon and no closing bracket
    followed by a semicolon inside the array, extraction returns exactly
    those N strings in order; when no script matches the pattern it returns
    the empty list. *)
Theorem C7_images :
  (forall soup script_tag pre ws1 ws2 body post urls,
      Bs4.find "script" [] (Bs4.Matching pattern) soup = Some script_tag ->
      Bs4.string_of (Bs4.element script_tag)
      = PStr (pre ++ Spec.assignment_text ws1 ws2 body post) ->
      Spec.assigned_before pre (Spec.assignment_text ws1 ws2 body post) = false ->
      Spec.all_chars isspace ws1 = true ->
      Spec.all_chars isspace ws2 = true ->
      contains "];" (body ++ "]") = false ->
      Json.loads (String "[" (body ++ "]")) = Ok (Json.JArray (map Json.JString urls)) ->
      extract_image_urls soup = Ok (Json.JArray (map Json.JString urls)))
  /\ (forall soup,
        Bs4.find "script" [] (Bs4.Matching pattern) soup = None ->
        extract_image_urls soup = Ok (Json.JArray [])).
Proof.
  split.
  - intros soup script_tag pre ws1 ws2 body post urls Hfind Hstr Hpre H1 H2 Hb Hjson.
    unfold extract_image_urls. rewrite Hfind, Hstr.
    destruct (search_assignment pre ws1 ws2 body post Hpre H1 H2 Hb) as (m & Hm & Hg).
    cbn [Re.search_value bind]. now rewrite Hm, Hg.
  - intros soup Hfind. unfold extract_image_urls. now rewrite Hfind.
Qed.

Lemma C7_images_witness :
  extract_image_urls
    (Examples.listing "850 sqft"
       ("if (window.MosaicPhotoUrls) {} " ++ Examples.photos_script))
  = Ok (Json.JArray
          (map Json.JString
             [Json.codes "https://media.example/1.jpg";
              Json.codes "https://media.example/2.jpg"]))
  /\ extract_image_urls [] = Ok (Json.JArray []).
Proof.
  split.
  - apply (proj1 C7_images
             (Examples.listing "850 sqft"
                ("if (window.MosaicPhotoUrls) {} " ++ Examples.photos_script))
             (Bs4.Located
                (Bs4.MkTag "script" []
                   [Bs4.Special
                      ("if (window.MosaicPhotoUrls) {} " ++ Examples.photos_script)]) [])
             "if (window.MosaicPhotoUrls) {} var zoom = 1; " " " " "
             Examples.two_photos " init();").
    all: vm_compute; reflexivity.
  - apply (proj2 C7_images []). reflexivity.
Defined.

(** C7 as the specification states it fails in three ways.  On a URL in
    which a semicolon follows a closing bracket, the script assigns a
    well-formed array of that one URL and extraction raises instead of
    returning it.  On a script in which a comment that assigns an opening
    bracket to the variable comes before the assignment of two URLs,
    extraction raises as well.  On a script that assigns the two URLs and
    ends without a semicolon, extraction returns the empty list. *)
Lemma C7_bracket_semicolon_counterexample :
  Bs4.find "script" [] (Bs4.Matching pattern)
    (Examples.listing "850 sqft" Examples.bracket_script)
  = Some (Bs4.Located (Bs4.MkTag "script" [] [Bs4.Special Examples.bracket_script]) [])
  /\ Json.loads (String "[" ((Examples.quote ++ Examples.bracket_url ++ Examples.quote) ++ "]"))
     = Ok (Json.JArray [Json.JString (Json.codes Examples.bracket_url)])
  /\ extract_image_urls (Examples.listing "850 sqft" Examples.bracket_script)
     = Raise JSONDecodeError
  /\ extract_image_urls (Examples.listing "850 sqft" Examples.bracket_script)
     <> Ok (Json.JArray [Json.JString (Json.codes Examples.bracket_url)])
  /\ extract_image_urls (Examples.listing "850 sqft" Examples.commented_script)
     = Raise JSONDecodeError
  /\ extract_image_urls (Examples.listing "850 sqft" Examples.unterminated_script)
     = Ok (Json.JArray []).
Proof.
  split; [vm_compute; reflexivity|].
  split; [vm_compute; reflexivity|].
  split; [vm_compute; reflexivity|].
  split; [vm_compute; discriminate|].
  split; vm_compute; reflexivity.
Qed.

End ImageClaims.

(* ================================================================== *)
(** * The floor area on every value *)
(* ================================================================== *)

Section FloorAreaTotal.

Import Py Re.

Lemma floor_area_classes :
  classes_within Spec.digit_or_comma
    (Cat (Star true Main.digit) (Cat (Star true Main.group_pattern) WordB)).
Proof.
  unfold Spec.digit_or_comma, Main.digit, Main.group_pattern, Main.ch, Plus.
  cbn [classes_within]. repeat split; intros c H;
    first [now rewrite H
          | apply Ascii.eqb_eq in H; subst c; reflexivity].
Qed.

(** What the floor area pattern matches: a digit, then digits and commas. *)
Lemma floor_area_match_shape (a e : mstate) :
  matches Main.floor_area_pattern a e ->
  exists c t,
    rest a = String c t ++ rest e
    /\ isdigit c = true
    /\ Spec.all_chars Spec.digit_or_comma t = true.
Proof.
  unfold Main.floor_area_pattern, Plus, Main.digit. intros H.
  inversion H as [| |? ? ? st1 ? Hw Hrest| | | |]; subst. clear H.
  inversion Hw; subst. clear Hw.
  inversion Hrest as [| |? ? ? st2 ? Hplus Htail| | | |]; subst. clear Hrest.
  inversion Hplus as [| |? ? ? st3 ? Hd Hstar| | | |]; subst. clear Hplus.
  inversion Hd as [|? c s pr g Hc| | | | |]; subst. clear Hd.
  assert (Hall : matches (Cat (Star true (Chr isdigit))
                            (Cat (Star true Main.group_pattern) WordB))
                   (MState (Some c) s g) e) by (econstructor; eassumption).
  destruct (matches_within _ _ _ _ Hall floor_area_classes) as (t & Et & At).
  cbn [rest] in Et. exists c, t. cbn [rest]. split; [now rewrite Et|]. now split.
Qed.

Lemma remove_commas_digits (t : string) :
  Spec.all_chars Spec.digit_or_comma t = true ->
  Spec.all_chars isdigit (remove_char "," t) = true.
Proof.
  induction t as [|c t IH]; [reflexivity|].
  cbn. intros H. apply andb_true_iff in H as [Hc Ht].
  destruct (Ascii.eqb c ",") eqn:E; [exact (IH Ht)|].
  cbn. unfold Spec.digit_or_comma in Hc. rewrite E, orb_false_r in Hc.
  now rewrite Hc, IH.
Qed.

Lemma digit_val_nonneg (c : ascii) : isdigit c = true -> (0 <= digit_val c)%Z.
Proof.
  unfold isdigit, in_range, digit_val. intros H.
  apply andb_true_iff in H as [H _]. apply N.leb_le in H. lia.
Qed.

Lemma decimal_from_nonneg (s : string) :
  forall acc, (0 <= acc)%Z -> Spec.all_chars isdigit s = true ->
              (0 <= Spec.decimal_from acc s)%Z.
Proof.
  induction s as [|c s IH]; intros acc Hacc H; [exact Hacc|].
  cbn in *. apply andb_true_iff in H as [Hc Hs].
  apply IH; [|exact Hs]. pose proof (digit_val_nonneg c Hc). lia.
Qed.

(** The text the floor area pattern finds reads as a number that is not
    negative; [int] converts it unless it has too many digits. *)
Lemma floor_area_search_number (s : string) (m : rmatch) :
  search Main.floor_area_pattern s = Some m ->
  int_of_str (remove_char "," (group0 m))
  = (if Nat.leb (count_digits (group0 m)) int_max_str_digits
     then Ok (Spec.decimal (remove_char "," (group0 m)))
     else Raise ValueError)
  /\ (0 <= Spec.decimal (remove_char "," (group0 m)))%Z.
Proof.
  intros H. apply search_from_sound in H as (p' & Hm).
  apply floor_area_match_shape in Hm as (c & t & Es & Hc & Ht).
  cbn [rest] in Es. unfold group0. rewrite Es, consumed_app.
  split.
  - apply (int_of_str_grouped c t Hc). now apply remove_commas_digits.
  - cbn [remove_char]. rewrite (digit_not_comma c Hc).
    apply decimal_from_nonneg; [lia|].
    cbn. now rewrite Hc, remove_commas_digits.
Qed.

End FloorAreaTotal.

Section FloorAreaBehaviour.

Import Py Main.

(** The normalisation of a text: the number the pattern finds, unless the
    text found has more digits than [int] converts. *)
Lemma normalize_floor_area_text (s : string) :
  normalize_floor_area (PStr s)
  = match Re.search floor_area_pattern s with
    | Some m =>
        if Nat.leb (count_digits (Re.group0 m)) int_max_str_digits
        then Ok (Some (Spec.decimal (remove_char "," (Re.group0 m))))
        else Raise ValueError
    | None => Ok None
    end.
Proof.
  unfold normalize_floor_area.
  destruct s as [|a s]; [reflexivity|].
  cbn [truthy String.eqb negb Re.search_value bind].
  destruct (Re.search floor_area_pattern (String a s)) as [m|] eqn:E; [|reflexivity].
  destruct (floor_area_search_number _ m E) as [-> _].
  now destruct (Nat.leb _ _).
Qed.

(** The normalisation on every value: nothing on [None], on the integer 0
    and on the empty text; a [TypeError] on any other integer; on a text,
    the number the pattern finds, which is not negative, and a
    [ValueError] when the text found has more than 4300 digits. *)
Lemma normalize_floor_area_cases :
  normalize_floor_area PNone = Ok None
  /\ (forall z,
        normalize_floor_area (PInt z)
        = if (z =? 0)%Z then Ok None else Raise TypeError)
  /\ normalize_floor_area (PStr EmptyString) = Ok None
  /\ (forall s,
        normalize_floor_area (PStr s)
        = match Re.search floor_area_pattern s with
          | Some m =>
              if Nat.leb (count_digits (Re.group0 m)) int_max_str_digits
              then Ok (Some (Spec.decimal (remove_char "," (Re.group0 m))))
              else Raise ValueError
          | None => Ok None
          end)
  /\ (forall s m,
        Re.search floor_area_pattern s = Some m ->
        (0 <= Spec.decimal (remove_char "," (Re.group0 m)))%Z).
Proof.
  split; [reflexivity|]. split.
  { intros z. unfold normalize_floor_area. cbn [truthy].
    now destruct (z =? 0)%Z. }
  split; [reflexivity|].
  split; [exact normalize_floor_area_text|].
  intros s m E. exact (proj2 (floor_area_search_number s m E)).
Qed.

(** What the normalisation of a text returns is not negative, and what it
    raises is a [ValueError]. *)
Lemma normalize_floor_area_outcome (s : string) :
  match normalize_floor_area (PStr s) with
  | Ok o => forall n, o = Some n -> (0 <= n)%Z
  | Raise e => e = ValueError
  end.
Proof.
  rewrite normalize_floor_area_text.
  destruct (Re.search floor_area_pattern s) as [m|] eqn:E; [|discriminate].
  destruct (Nat.leb _ _); [|reflexivity].
  intros n H. injection H as <-. exact (proj2 (floor_area_search_number s m E)).
Qed.

End FloorAreaBehaviour.

(* ================================================================== *)
(** * Searches of the tree *)
(* ================================================================== *)

Section Find.

Import Bs4.

Variable p : tag -> bool.

Lemma find_node_sound (n : node) :
  forall sibs r, find_node p n sibs = Some r -> p (element r) = true.
Proof.
  induction n as [s|s|nm ats cs IH] using node_children_ind; intros sibs r H;
    try discriminate H.
  cbn [find_node] in H.
  destruct (p (MkTag nm ats cs)) eqn:E.
  - injection H as <-. exact E.
  - clear E. induction IH as [|c l Hc _ IHl]; [discriminate H|].
    destruct (find_node p c l) as [r'|] eqn:Ec.
    + injection H as <-. exact (Hc _ _ Ec).
    + exact (IHl H).
Qed.

(** What a search returns passes the test of the search. *)
Lemma find_forest_sound (l : list node) (r : located) :
  find_forest p l = Some r -> p (element r) = true.
Proof.
  induction l as [|c l IH]; [discriminate|].
  cbn [find_forest]. destruct (find_node p c l) as [r'|] eqn:E.
  - intros H. injection H as <-. exact (find_node_sound _ _ _ E).
  - exact IH.
Qed.

End Find.

Section Images.

Import Py Re Main.

(** The script a search with a pattern returns has a text, and the pattern
    is found in it. *)
Lemma find_script_text (r : regex) (soup : Bs4.soup) (t : Bs4.located) :
  Bs4.find "script" [] (Bs4.Matching r) soup = Some t ->
  exists s, Bs4.string_of (Bs4.element t) = PStr s /\ search r s <> None.
Proof.
  intros H. apply find_forest_sound in H. unfold Bs4.strainer in H.
  apply andb_true_iff in H as [_ H]. cbn [Bs4.string_matches] in H.
  destruct (Bs4.string_of (Bs4.element t)) as [|z|s]; try discriminate H.
  exists s. split; [reflexivity|]. now destruct (search r s).
Qed.

Lemma any_classes (r : regex) : classes_within any_char r.
Proof. induction r; cbn; auto. Qed.

(** The text the assignment pattern captures begins with a bracket. *)
Lemma group1_bracket (s : string) (m : rmatch) :
  search pattern_group s = Some m -> exists t, group1 m = String "[" t.
Proof.
  intros H. apply search_from_sound in H as (p' & Hm).
  destruct m as [from e]. cbn [m_from m_end] in Hm.
  unfold pattern_group, assignment in Hm.
  inversion Hm as [| |? ? ? st1 ? _ H1| | | |]; subst. clear Hm.
  inversion H1 as [| |? ? ? st2 ? _ H2| | | |]; subst. clear H1.
  inversion H2 as [| |? ? ? st3 ? _ H3| | | |]; subst. clear H2.
  inversion H3 as [| |? ? ? st4 ? _ H4| | | |]; subst. clear H3.
  inversion H4 as [| |? ? ? st5 ? Hg Hsemi| | | |]; subst. clear H4.
  inversion Hg as [| | | | | |? ? b Hlit]; subst. clear Hg.
  unfold array_literal in Hlit.
  inversion Hlit as [| |? ? ? st6 ? Hopen Hbody| | | |]; subst. clear Hlit.
  inversion Hopen as [|? c s0 pr g Hc| | | | |]; subst. clear Hopen.
  apply Ascii.eqb_eq in Hc. subst c.
  destruct (matches_within any_char _ _ _ Hbody (any_classes _)) as (t & Et & _).
  cbn [rest] in Et.
  inversion Hsemi as [|? c1 s1 pr1 g1 Hc1| | | | |]; subst. clear Hsemi.
  exists t. unfold group1. cbn [m_end grp rest].
  match goal with E : String c1 s1 = rest b |- _ => rewrite E end.
  exact (consumed_app (String "[" t) (rest b)).
Qed.

End Images.

(* ================================================================== *)
(** * What [json.loads] makes of a text that opens a bracket *)
(* ================================================================== *)

Section JsonArray.

Import Json.

(** The parser keeps the outermost array until it closes it. *)
Lemma parse_bottom_array (ts : list token) :
  forall st stack v,
    (bottom_array stack = true
     \/ (stack = [] /\ exists l, st = PAfter (JArray l))) ->
    parse st stack ts = Py.Ok v ->
    exists l, v = JArray l.
Proof.
  induction ts as [|t ts IH]; intros st stack v Hinv H.
  - cbn [parse] in H. destruct st; try discriminate H.
    destruct stack; [|discriminate H].
    destruct Hinv as [Hb | (_ & l & Hl)]; [discriminate Hb|].
    injection H as <-. injection Hl as ->. now exists l.
  - destruct Hinv as [Hb | (-> & l & ->)].
    2:{ cbn [parse] in H. destruct t; discriminate H. }
    cbn [parse] in H.
    destruct st; destruct t; try discriminate H;
      try (destruct (Nat.ltb _ _); [|discriminate H]);
      try (destruct stack as [|[items|ms|ms k] [|f stack]]; try discriminate H;
           try discriminate Hb;
           try (destruct items; try discriminate H);
           (eapply IH; [|exact H]); cbn [bottom_array] in *;
           first [left; exact Hb | left; reflexivity
                 | right; split; [reflexivity | eexists; reflexivity]]).
Qed.

Lemma lex_bracket (s : string) :
  lex MNormal (String "[" s) = TLBracket :: lex MNormal s.
Proof. reflexivity. Qed.

(** A text that begins with a bracket decodes to a list or not at all. *)
Lemma loads_bracket (s : string) (v : value) :
  loads (String "[" s) = Py.Ok v -> exists l, v = JArray l.
Proof.
  unfold loads. rewrite lex_bracket. cbn [parse].
  replace (Nat.ltb (List.length (@nil frame)) max_depth) with true by reflexivity.
  intros H. eapply parse_bottom_array; [|exact H]. now left.
Qed.

End JsonArray.

(* ================================================================== *)
(** * Trimmed text *)
(* ================================================================== *)

Section Trimmed.

Import Py.

Variable p : ascii -> bool.

Lemma rstrip_by_idempotent (s : string) :
  rstrip_by p (rstrip_by p s) = rstrip_by p s.
Proof.
  induction s as [|c s IH]; [reflexivity|].
  cbn [rstrip_by].
  destruct (rstrip_by p s) as [|d r] eqn:E.
  - destruct (p c) eqn:Hc; [reflexivity|]. cbn. now rewrite Hc.
  - cbn [rstrip_by]. cbn [rstrip_by] in IH. now rewrite IH.
Qed.

Lemma lstrip_by_head (s : string) :
  match lstrip_by p s with
  | String c _ => p c = false
  | EmptyString => True
  end.
Proof.
  induction s as [|c s IH]; [exact I|].
  cbn. destruct (p c) eqn:E; [exact IH | exact E].
Qed.

Lemma rstrip_by_head (c : ascii) (s : string) :
  p c = false -> exists r, rstrip_by p (String c s) = String c r.
Proof.
  intros Hc. cbn [rstrip_by].
  destruct (rstrip_by p s); [rewrite Hc|]; eauto.
Qed.

Lemma strip_by_idempotent (s : string) :
  rstrip_by p (lstrip_by p (rstrip_by p (lstrip_by p s)))
  = rstrip_by p (lstrip_by p s).
Proof.
  pose proof (lstrip_by_head s) as Hh.
  destruct (lstrip_by p s) as [|c t]; [reflexivity|].
  destruct (rstrip_by_head c t Hh) as (r & Er).
  rewrite <- (rstrip_by_idempotent (String c t)) at 2.
  rewrite Er. cbn [lstrip_by]. now rewrite Hh.
Qed.

End Trimmed.

(** Trimming a trimmed text changes nothing. *)
Lemma strip_idempotent (s : string) : Py.strip (Py.strip s) = Py.strip s.
Proof. apply strip_by_idempotent. Qed.

(* ================================================================== *)
(** * The outcome of each extractor *)
(* ================================================================== *)

Section Extractors.

Import Py Main.

(** The images: a list, or an exception of the decoder; nothing else. *)
Lemma extract_image_urls_cases :
  forall soup,
    match extract_image_urls soup with
    | Ok v => exists l, v = Json.JArray l
    | Raise e => Json.decoding e
    end.
Proof.
  intros soup. unfold extract_image_urls.
  destruct (Bs4.find "script" [] (Bs4.Matching pattern) soup) as [t|] eqn:F;
    [|now exists []].
  destruct (find_script_text _ _ _ F) as (s & -> & _).
  cbn [Re.search_value bind].
  destruct (Re.search pattern_group s) as [m|] eqn:E; [|now exists []].
  destruct (group1_bracket s m E) as (t' & ->).
  destruct (Json.loads (String "[" t')) as [v|e] eqn:L.
  - exact (loads_bracket _ _ L).
  - exact (loads_raises _ _ L).
Qed.

(** The characteristic lookup never raises, and a text it returns is
    trimmed and is one that [int] rejects. *)
Lemma extract_value_by_title_cases :
  forall soup title,
    exists v,
      extract_value_by_title soup title = Ok v
      /\ (forall text,
            v = PStr text ->
            strip text = text /\ int_of_str text = Raise ValueError).
Proof.
  intros soup title. unfold extract_value_by_title.
  destruct (Bs4.find _ _ _ soup) as [title_tag|];
    [|exists PNone; split; [reflexivity | discriminate]].
  destruct (Bs4.find_next_sibling _ _ _) as [value_tag|];
    [|exists PNone; split; [reflexivity | discriminate]].
  set (text := Bs4.text (Bs4.element value_tag)).
  destruct (int_of_str (strip text)) as [n|e] eqn:E.
  - exists (PInt n). split; [reflexivity | discriminate].
  - pose proof (int_of_str_raises _ _ E) as ->. exists (PStr (strip text)).
    split; [reflexivity|]. intros t Ht. injection Ht as <-.
    split; [apply strip_idempotent | exact E].
Qed.

Lemma first_digit_run_nonneg (text run : string) :
  Spec.first_digit_run text = Some run -> (0 <= Spec.decimal run)%Z.
Proof.
  intros E. destruct (first_digit_run_digits _ _ E) as (c & ds & _ & Hd).
  now apply decimal_from_nonneg.
Qed.

(** Numeric extraction never returns a negative number: a sign before the
    digits is not read.  It raises when the first run of digits has more
    digits than [int] converts, and only then. *)
Lemma extract_number_from_tag_cases :
  forall tag,
    match extract_number_from_tag tag with
    | Ok o =>
        (forall n, o = Some n -> (0 <= n)%Z)
        /\ (tag = None -> o = None)
    | Raise e =>
        e = ValueError
        /\ exists t run,
             tag = Some t
             /\ Spec.first_digit_run (Bs4.text (Bs4.element t)) = Some run
             /\ int_max_str_digits < String.length run
    end.
Proof.
  intros tag. rewrite extract_number_from_tag_run.
  destruct tag as [t|]; [|split; [discriminate | reflexivity]].
  destruct (Spec.first_digit_run (Bs4.text (Bs4.element t))) as [run|] eqn:E;
    [|split; discriminate].
  destruct (Nat.leb_spec (String.length run) int_max_str_digits) as [Hle|Hgt].
  - split; [|discriminate]. intros n H. injection H as <-.
    exact (first_digit_run_nonneg _ _ E).
  - split; [reflexivity|]. now exists t, run.
Qed.

Lemma extract_number_from_tag_outcome (tag : option Bs4.located) :
  match extract_number_from_tag tag with
  | Ok o => forall n, o = Some n -> (0 <= n)%Z
  | Raise e => e = ValueError
  end.
Proof.
  pose proof (extract_number_from_tag_cases tag) as H.
  destruct (extract_number_from_tag tag); [apply H | apply H].
Qed.

(** The floor area of a page: what it is, and what makes it raise. *)
Lemma floor_area_field_outcome (soup : Bs4.soup) :
  match floor_area_field soup with
  | Ok o => forall n, o = Some n -> (0 <= n)%Z
  | Raise e =>
      (e = TypeError
       /\ exists z, z <> 0%Z /\ extract_value_by_title soup "Floor Area" = Ok (PInt z))
      \/ (e = ValueError
          /\ exists text,
               extract_value_by_title soup "Floor Area" = Ok (PStr text)
               /\ normalize_floor_area (PStr text) = Raise ValueError)
  end.
Proof.
  unfold floor_area_field.
  destruct (extract_value_by_title_total soup "Floor Area") as [v ->].
  cbn [bind].
  destruct normalize_floor_area_cases as (Hnone & Hint & _).
  destruct v as [|z|s].
  - rewrite Hnone. discriminate.
  - rewrite Hint. destruct (Z.eqb_spec z 0); [discriminate|].
    left. split; [reflexivity|]. now exists z.
  - pose proof (normalize_floor_area_outcome s) as Ho.
    destruct (normalize_floor_area (PStr s)) as [o|e] eqn:E; [exact Ho|].
    subst e. right. split; [reflexivity|]. now exists s.
Qed.


(** The record in terms of the fields that can fail. *)
Lemma extract_fields (url : string) (soup : Bs4.soup) :
  match first_raise (failing_fields soup) with
  | None => exists r, extract url soup = Ok r /\ link r = url
  | Some e => extract url soup = Raise e
  end.
Proof.
  unfold failing_fields, extract, price_field, bedrooms_field, bathrooms_field.
  cbv zeta.
  destruct (extract_value_by_title_total soup "Additional Features") as [v1 ->].
  destruct (extract_value_by_title_total soup "Parking Spaces") as [v3 ->].
  destruct (parse_region_total
              (get_text_or_default
                 (Bs4.find "h2" [("class", "pt-1")] Bs4.AnyString soup))) as [rg ->].
  cbn [bind].
  destruct (extract_image_urls soup) as [im|e1]; cbn [bind outcome first_raise];
    [|reflexivity].
  destruct (match Bs4.find "meta" _ _ soup with
            | Some t => _
            | None => _
            end) as [pr|e2]; cbn [bind outcome first_raise]; [|reflexivity].
  destruct (extract_number_from_tag
              (Bs4.find "div" [("class", "col-lg-3 col-sm-6 cac")] Bs4.AnyString soup))
    as [bd|e3]; cbn [bind outcome first_raise]; [|reflexivity].
  destruct (extract_number_from_tag
              (Bs4.find "div" [("class", "col-lg-3 col-sm-6 sdb")] Bs4.AnyString soup))
    as [bt|e4]; cbn [bind outcome first_raise]; [|reflexivity].
  destruct (floor_area_field soup) as [fa|e5]; cbn [bind outcome first_raise];
    [|reflexivity].
  eexists. split; reflexivity.
Qed.


Lemma extract_link (u : string) (soup : Bs4.soup) (r : Announcement) :
  extract u soup = Ok r -> link r = u.
Proof.
  intros H. pose proof (extract_fields u soup) as Hf.
  destruct (first_raise (failing_fields soup)) as [e|].
  - rewrite H in Hf. discriminate Hf.
  - destruct Hf as (r' & Hr & Hl). rewrite H in Hr. now injection Hr as ->.
Qed.

End Extractors.

(* ================================================================== *)
(** * What every record satisfies *)
(* ================================================================== *)

Section Records.

Import Py Main.

Lemma get_text_or_default_trimmed (tag : option Bs4.located) (s : string) :
  get_text_or_default tag = Some s -> strip s = s.
Proof.
  destruct tag as [t|]; [|discriminate].
  cbn. intros H. injection H as <-. apply strip_idempotent.
Qed.

Lemma rent_pairs (soup : Bs4.soup) :
  In (extract_rent_period_and_type soup)
     [(Some "month", Some "rent"); (Some "week", Some "rent"); (None, None)].
Proof.
  unfold extract_rent_period_and_type.
  destruct (Bs4.find _ _ _ soup) as [t|]; [|cbn; tauto].
  destruct (contains "month" _); [cbn; tauto|].
  destruct (contains "week" _); cbn; tauto.
Qed.

(** What holds of every record that is produced. *)
Lemma extract_record_cases :
  forall url soup r,
    extract url soup = Ok r ->
    link r = url
    /\ In (rent_period r, type_ r)
          [(Some "month", Some "rent"); (Some "week", Some "rent"); (None, None)]
    /\ (forall s, In (Some s) (text_fields r) -> strip s = s)
    /\ (exists s, region r = Some s)
    /\ (exists l, images r = Json.JArray l)
    /\ (forall n, In (Some n) [bedrooms r; bathrooms r; floor_area r] -> (0 <= n)%Z)
    /\ (forall text,
          In (PStr text) [parking_spaces r; additional_features r] ->
          strip text = text /\ int_of_str text = Raise ValueError).
Proof.
  intros url soup r. unfold extract. cbv zeta.
  destruct (extract_value_by_title_cases soup "Additional Features")
    as (v1 & -> & Hv1).
  destruct (extract_value_by_title_cases soup "Parking Spaces")
    as (v3 & -> & Hv3).
  destruct (parse_region_total
              (get_text_or_default
                 (Bs4.find "h2" [("class", "pt-1")] Bs4.AnyString soup))) as [rg ->].
  cbn [bind].
  pose proof (extract_image_urls_cases soup) as Himg.
  destruct (extract_image_urls soup) as [im|e1]; cbn [bind]; [|discriminate].
  destruct (match Bs4.find "meta" _ _ soup with
            | Some t => _
            | None => _
            end) as [pr|e2]; cbn [bind]; [|discriminate].
  pose proof (extract_number_from_tag_outcome
                (Bs4.find "div" [("class", "col-lg-3 col-sm-6 cac")] Bs4.AnyString soup))
    as Hbd.
  destruct (extract_number_from_tag
              (Bs4.find "div" [("class", "col-lg-3 col-sm-6 cac")] Bs4.AnyString soup))
    as [bd|e3]; cbn [bind]; [|discriminate].
  pose proof (extract_number_from_tag_outcome
                (Bs4.find "div" [("class", "col-lg-3 col-sm-6 sdb")] Bs4.AnyString soup))
    as Hbt.
  destruct (extract_number_from_tag
              (Bs4.find "div" [("class", "col-lg-3 col-sm-6 sdb")] Bs4.AnyString soup))
    as [bt|e4]; cbn [bind]; [|discriminate].
  pose proof (floor_area_field_outcome soup) as Hfa.
  destruct (floor_area_field soup) as [fa|e5]; cbn [bind]; [|discriminate].
  intros H. injection H as <-. unfold text_fields. cbn [link rent_period type_ ref title address
    description realtor phone latitude longitude region images bedrooms
    bathrooms floor_area parking_spaces additional_features].
  split; [reflexivity|].
  split; [rewrite <- surjective_pairing; apply rent_pairs|].
  split.
  { intros s Hs. cbn [In] in Hs.
    repeat (destruct Hs as [Hs|Hs];
            [exact (get_text_or_default_trimmed _ _ Hs)|]).
    destruct Hs. }
  split; [now exists rg|].
  split; [exact Himg|].
  split.
  { intros n Hn. cbn [In] in Hn. destruct Hn as [Hn|[Hn|[Hn|[]]]];
      [exact (Hbd _ Hn) | exact (Hbt _ Hn) | exact (Hfa _ Hn)]. }
  intros text Ht. cbn [In] in Ht. destruct Ht as [Ht|[Ht|[]]].
  - exact (Hv3 _ Ht).
  - exact (Hv1 _ Ht).
Qed.

End Records.

(* ================================================================== *)
(** * The links of an index page *)
(* ================================================================== *)

Section Selection.

Import Bs4.

Variables c1 c2 a : string.

Lemma select_node_sound (n : node) :
  forall inside t, In t (select_node c1 c2 a inside n) -> selectable c2 a t.
Proof.
  induction n as [s|s|nm ats cs IH] using node_children_ind; intros inside t;
    [intros []|intros []|].
  cbn [select_node]. cbv zeta. intros H. apply in_app_or in H. destruct H as [H|H].
  - destruct (inside && (nm =? "a")%string && has_class c2 (MkTag nm ats cs)
              && match lookup a ats with Some _ => true | None => false end)
      eqn:E; [|destruct H].
    destruct H as [<-|[]].
    apply andb_prop in E. destruct E as [E E3].
    apply andb_prop in E. destruct E as [E E2].
    apply andb_prop in E. destruct E as [_ E1].
    apply String.eqb_eq in E1. repeat split; [exact E1 | exact E2|].
    cbn [attrs]. destruct (lookup a ats) as [v|]; [now exists v | discriminate].
  - apply in_flat_map in H. destruct H as (c & Hc & Ht).
    rewrite Forall_forall in IH. exact (IH c Hc _ _ Ht).
Qed.

Lemma select_div_a_sound (doc : soup) (t : tag) :
  In t (select_div_a c1 c2 a doc) -> selectable c2 a t.
Proof.
  unfold select_div_a. intros H. apply in_flat_map in H.
  destruct H as (n & _ & Ht). exact (select_node_sound _ _ _ Ht).
Qed.

End Selection.

Section Links.

Import Py Main.

(** Every link selected on an index page is an [a] element of the summary
    class and has an [href], so that [link['href']] does not raise. *)
Lemma select_links_cases :
  forall soup link,
    In link (select_links soup) ->
    Bs4.name link = "a"
    /\ Bs4.has_class "property-thumbnail-summary-link" link = true
    /\ exists href, Bs4.getitem link "href" = Ok href.
Proof.
  intros soup l H. apply select_div_a_sound in H.
  destruct H as (Hn & Hc & v & Hv). repeat split; [exact Hn | exact Hc|].
  exists v. unfold Bs4.getitem. now rewrite Hv.
Qed.

End Links.

(* ================================================================== *)
(** * The books of a run *)
(* ================================================================== *)

Section Accounting.

Import Py Main.

Variable w : world.
Variable url : string.
Variable limit : Z.

Lemma select_links_has_href (soup : Bs4.soup) :
  Forall has_href (select_links soup).
Proof.
  apply Forall_forall. intros l H. apply select_div_a_sound in H.
  destruct H as (_ & _ & v & Hv). exists v. unfold Bs4.getitem. now rewrite Hv.
Qed.

Lemma collected_requested (u : string) (st : state) :
  collected limit st -> collected limit (requested u st).
Proof.
  intros (Hp & Hb & Hl). repeat split; [exact Hp | exact Hb|].
  cbn [requested announcements requests].
  eapply Forall_impl; [|exact Hl]. cbn beta. intros r [Hin Hh].
  split; [apply in_or_app; now left | exact Hh].
Qed.

Lemma collected_entered (st : state) :
  collected limit st -> collected limit (entered st).
Proof. intros H. exact H. Qed.

(** The scan of the links of one page. *)
Lemma for_links_account (links : list Bs4.tag) :
  Forall has_href links ->
  forall st st' r,
    for_links w limit links st = (st', r) ->
    collected limit st ->
    collected limit st'
    /\ page_count st' = page_count st
    /\ slept st' = slept st
    /\ List.length (requests st') + List.length (announcements st)
       = List.length (requests st) + List.length (announcements st')
         + (if is_ok r then 0 else 1).
Proof.
  induction 1 as [|l links [href Hh] _ IH]; intros st st' r H Hc.
  - cbn in H. inversion H; subst. cbn [is_ok]. repeat split; try apply Hc; lia.
  - destruct (Z.ltb_spec (Z.of_nat (List.length (announcements st))) limit) as [Hlt|Hge].
    + rewrite (for_links_cons _ _ _ _ _ Hlt), Hh in H.
      destruct (w (List.length (requests st)) (prefix ++ href)) as [soup|e] eqn:Ew.
      * destruct (extract (prefix ++ href) soup) as [a|e] eqn:Ee.
        -- apply IH in H.
           ++ cbn [announcements page_count slept requests] in H.
              destruct H as (Hc' & Hpc & Hs & Hr).
              rewrite !List.length_app in Hr. cbn [List.length] in Hr.
              repeat split; try apply Hc'; try assumption. lia.
           ++ destruct Hc as (Hp & Hb & Hl).
              repeat split; cbn [announcements parsed_announcements requests].
              ** rewrite List.length_app. cbn [List.length]. lia.
              ** rewrite List.length_app. cbn [List.length]. lia.
              ** apply Forall_app. split.
                 --- eapply Forall_impl; [|exact Hl]. cbn beta. intros r0 [Hin Hx].
                     split; [apply in_or_app; now left | exact Hx].
                 --- constructor; [|constructor].
                     rewrite (extract_link _ _ _ Ee). split.
                     +++ apply in_or_app. right. now left.
                     +++ now exists href.
        -- inversion H; subst. cbn [is_ok requested announcements page_count
             slept requests]. rewrite List.length_app. cbn [List.length].
           repeat split; try apply (collected_requested _ _ Hc); lia.
      * inversion H; subst. cbn [is_ok requested announcements page_count
          slept requests]. rewrite List.length_app. cbn [List.length].
        repeat split; try apply (collected_requested _ _ Hc); lia.
    + rewrite (for_links_at_target _ _ _ _ Hge) in H. inversion H; subst.
      cbn [is_ok]. repeat split; try apply Hc; lia.
Qed.

(** One pass of the loop. *)
Lemma iteration_account (st st' : state) (r : result bool) :
  iteration w url limit st = (st', r) ->
  collected limit st -> settled st ->
  collected limit st'
  /\ page_count st' = S (page_count st)
  /\ match r with
     | Ok true => settled st'
     | _ => cut_short st'
     end.
Proof.
  rewrite iteration_unfold. intros H Hc [Hs Hr].
  destruct (w (List.length (requests st)) (page_url url (S (page_count st))))
    as [soup|e] eqn:Ew.
  - destruct (for_links w limit (select_links soup) _) as [st2 r2] eqn:Ef.
    apply (for_links_account _ (select_links_has_href soup)) in Ef;
      [|apply collected_requested, collected_entered, Hc].
    cbn [requested entered announcements page_count slept requests] in Ef.
    rewrite List.length_app in Ef. cbn [List.length] in Ef.
    destruct Ef as (Hc2 & Hpc & Hsl & Hrq).
    destruct r2 as [[]|e2].
    + inversion H; subst. cbn [is_ok] in Hrq.
      repeat split; try apply Hc2; cbn [page_count slept requests announcements];
        try lia.
    + cbn [is_ok] in Hrq.
      destruct e2; inversion H; subst;
        (split; [first [exact Hc2
                       | (repeat split; try apply Hc2)]
                | split; [cbn [page_count]; lia
                         | repeat split; cbn [page_count slept requests announcements];
                           rewrite ?List.length_app; cbn [List.length]; lia]]).
  - destruct e; inversion H; subst;
      (split; [first [apply (collected_requested _ _ Hc)
                     | (destruct Hc as (Hp & Hb & Hl); repeat split;
                        [exact Hp | exact Hb |
                         cbn [announcements requests];
                         eapply Forall_impl; [|exact Hl]; cbn beta;
                         intros r0 [Hin Hx];
                         split; [apply in_or_app; now left | exact Hx]])]
              | split; [cbn [page_count requested entered]; lia
                       | repeat split;
                         cbn [page_count slept requests announcements requested entered];
                         rewrite ?List.length_app; cbn [List.length]; lia]]).
Qed.

(** The loop. *)
Lemma while_loop_account (fuel : nat) :
  forall st st' out,
    while_loop fuel w url limit st = (st', out) ->
    collected limit st -> settled st ->
    collected limit st'
    /\ page_count st' <= page_count st + fuel
    /\ match out with
       | None => settled st' /\ page_count st' = page_count st + fuel
       | Some (Ok _) =>
           ((limit <= Z.of_nat (List.length (announcements st')))%Z /\ settled st')
           \/ cut_short st'
       | Some (Raise _) => cut_short st'
       end.
Proof.
  induction fuel as [|fuel IH]; intros st st' out; cbn [while_loop].
  - intros H Hc Hs. inversion H; subst. repeat split; try apply Hc; try apply Hs; lia.
  - destruct (Z.ltb_spec (Z.of_nat (List.length (announcements st))) limit) as [Hlt|Hge].
    + destruct (iteration w url limit st) as [st1 r1] eqn:E. intros H Hc Hs.
      destruct (iteration_account _ _ _ E Hc Hs) as (Hc1 & Hpc & Hr).
      destruct r1 as [[]|e].
      * destruct (IH _ _ _ H Hc1 Hr) as (Hc' & Hle & Ho).
        split; [exact Hc'|]. split; [lia|].
        destruct out as [[|]|]; try exact Ho.
        destruct Ho as [Ho1 Ho2]. split; [exact Ho1 | lia].
      * inversion H; subst. split; [exact Hc1|]. split; [lia|]. now right.
      * inversion H; subst. split; [exact Hc1|]. split; [lia | exact Hr].
    + intros H Hc Hs. inversion H; subst. split; [exact Hc|]. split; [lia|].
      left. now split.
Qed.

End Accounting.

(* ================================================================== *)
(** * What a scan collects, and runs that end *)
(* ================================================================== *)

Section Collecting.

Import Py Main.

Variable w : world.
Variable url : string.
Variable limit : Z.

Lemma for_links_collects (links : list Bs4.tag) :
  forall st st',
    for_links w limit links st = (st', Ok tt) ->
    exists added,
      announcements st' = (announcements st ++ added)%list
      /\ requests st' = (requests st ++ map link added)%list
      /\ stdout st'
         = (stdout st
            ++ map (progress limit)
                 (seq (S (parsed_announcements st)) (List.length added)))%list
      /\ Forall2 (record_of w)
           (firstn (Z.to_nat (limit - Z.of_nat (List.length (announcements st))))
              links)
           added.
Proof.
  induction links as [|l links IH]; intros st st' H.
  - cbn in H. inversion H; subst. exists []. cbn [map List.length seq].
    rewrite !app_nil_r, firstn_nil. repeat split. constructor.
  - destruct (Z.ltb_spec (Z.of_nat (List.length (announcements st))) limit) as [Hlt|Hge].
    + rewrite (for_links_cons _ _ _ _ _ Hlt) in H.
      destruct (Bs4.getitem l "href") as [href|e] eqn:Eh; [|discriminate H].
      destruct (w (List.length (requests st)) (prefix ++ href)) as [soup|e] eqn:Ew;
        [|discriminate H].
      destruct (extract (prefix ++ href) soup) as [a|e] eqn:Ee; [|discriminate H].
      apply IH in H. destruct H as (added & Ha & Hr & Ho & Hf).
      cbn [announcements requests stdout parsed_announcements] in Ha, Hr, Ho, Hf.
      exists (a :: added). cbn [map List.length seq].
      rewrite (extract_link _ _ _ Ee).
      rewrite Ha, Hr, Ho, <- !app_assoc. cbn [List.app].
      repeat split.
      replace (Z.to_nat (limit - Z.of_nat (List.length (announcements st))))
        with (S (Z.to_nat (limit - Z.of_nat (List.length (announcements st ++ [a])))))
        by (rewrite List.length_app; cbn [List.length]; lia).
      cbn [firstn]. constructor; [|exact Hf].
      exists href, (List.length (requests st)), soup. now repeat split.
    + rewrite (for_links_at_target _ _ _ _ Hge) in H. inversion H; subst.
      exists []. cbn [map List.length seq]. rewrite !app_nil_r.
      replace (Z.to_nat (limit - Z.of_nat (List.length (announcements st')))) with 0
        by lia.
      cbn [firstn]. repeat split. constructor.
Qed.

(** A scan of links whose pages answer and give a record, each at the
    moment it is requested, ends normally and adds a record if it can. *)
Lemma for_links_rich (links : list Bs4.tag) :
  Forall has_href links ->
  forall st,
    (forall j link href,
        nth_error links j = Some link ->
        Bs4.getitem link "href" = Ok href ->
        exists page,
          w (List.length (requests st) + j) (prefix ++ href) = Ok page
          /\ is_ok (extract (prefix ++ href) page) = true) ->
    exists st',
      for_links w limit links st = (st', Ok tt)
      /\ (links <> [] ->
          (Z.of_nat (List.length (announcements st)) < limit)%Z ->
          List.length (announcements st) < List.length (announcements st')).
Proof.
  induction 1 as [|l links [href Hh] _ IH]; intros st Hw.
  - exists st. split; [reflexivity|]. intros Hn. now destruct Hn.
  - destruct (Z.ltb_spec (Z.of_nat (List.length (announcements st))) limit) as [Hlt|Hge].
    + rewrite (for_links_cons _ _ _ _ _ Hlt), Hh.
      destruct (Hw 0 l href eq_refl Hh) as (soup & Hs & Hx).
      rewrite Nat.add_0_r in Hs. rewrite Hs.
      destruct (extract (prefix ++ href) soup) as [a|e]; [|discriminate Hx].
      match goal with |- context [for_links w limit links ?s] =>
        destruct (IH s) as (st' & Hf & _) end.
      { intros j link0 href0 Hj Hh0. cbn [requests].
        rewrite List.length_app. cbn [List.length].
        replace (List.length (requests st) + 1 + j)
          with (List.length (requests st) + S j) by lia.
        exact (Hw (S j) link0 href0 Hj Hh0). }
      exists st'. split; [exact Hf|]. intros _ _.
      apply for_links_grows in Hf. cbn [announcements] in Hf.
      rewrite List.length_app in Hf. cbn [List.length] in Hf. lia.
    + exists st. split; [now apply for_links_at_target|]. intros _ Hlt. lia.
Qed.

Hypothesis Hrich : rich w url.

Lemma iteration_rich (st : state) :
  (Z.of_nat (List.length (announcements st)) < limit)%Z ->
  exists st',
    iteration w url limit st = (st', Ok true)
    /\ List.length (announcements st) < List.length (announcements st').
Proof.
  intros Hlt. rewrite iteration_unfold.
  destruct (Hrich (List.length (requests st)) (S (page_count st)))
    as (soup & -> & Hne & Hlinks).
  destruct (for_links_rich _ (select_links_has_href soup)
              (requested (page_url url (S (page_count st))) (entered st)))
    as (st2 & -> & Hgrow).
  { intros j link0 href0 Hj Hh0. cbn [requested entered requests].
    rewrite List.length_app. cbn [List.length].
    exact (Hlinks j link0 href0 Hj Hh0). }
  eexists. split; [reflexivity|]. cbn [announcements].
  exact (Hgrow Hne Hlt).
Qed.

Lemma while_loop_rich (fuel : nat) :
  forall st,
    collected limit st -> settled st ->
    Z.to_nat limit - List.length (announcements st) < fuel ->
    exists st',
      while_loop fuel w url limit st = (st', Some (Ok tt))
      /\ List.length (announcements st') = Z.to_nat limit
      /\ page_count st' + List.length (announcements st)
         <= page_count st + Z.to_nat limit.
Proof.
  induction fuel as [|fuel IH]; intros st Hc Hs Hf; [lia|].
  cbn [while_loop].
  destruct (Z.ltb_spec (Z.of_nat (List.length (announcements st))) limit) as [Hlt|Hge].
  - destruct (iteration_rich st Hlt) as (st1 & E & Hgrow). rewrite E.
    destruct (iteration_account _ _ _ _ _ _ E Hc Hs) as (Hc1 & Hpc & Hs1).
    destruct (IH st1 Hc1 Hs1 ltac:(lia)) as (st' & Hw & Hlen & Hp).
    exists st'. split; [exact Hw|]. split; [exact Hlen|]. lia.
  - exists st. split; [reflexivity|].
    destruct Hc as (_ & Hb & _). split; lia.
Qed.

End Collecting.

(* ================================================================== *)
(** * What a run prints *)
(* ================================================================== *)

Section Output.

Import Py Main.

Variable w : world.
Variable url : string.
Variable limit : Z.

Lemma for_links_output (links : list Bs4.tag) :
  forall st st' r,
    for_links w limit links st = (st', r) ->
    List.length (stdout st') + List.length (announcements st)
    = List.length (stdout st) + List.length (announcements st')
    /\ page_count st' = page_count st
    /\ (is_ok r = false ->
        (Z.of_nat (List.length (announcements st')) < limit)%Z).
Proof.
  induction links as [|l links IH]; intros st st' r H.
  - cbn in H. inversion H; subst. cbn [is_ok].
    split; [lia|]. split; [reflexivity | discriminate].
  - destruct (Z.ltb_spec (Z.of_nat (List.length (announcements st))) limit) as [Hlt|Hge].
    + rewrite (for_links_cons _ _ _ _ _ Hlt) in H.
      destruct (Bs4.getitem l "href") as [href|e].
      * destruct (w (List.length (requests st)) (prefix ++ href)) as [soup|e].
        -- destruct (extract (prefix ++ href) soup) as [a|e].
           ++ apply IH in H. cbn [stdout announcements page_count] in H.
              rewrite !List.length_app in H. cbn [List.length] in H.
              destruct H as (H1 & H2 & H3).
              split; [lia|]. split; [exact H2 | exact H3].
           ++ inversion H; subst. cbn [requested stdout announcements page_count].
              split; [lia|]. split; [reflexivity | intros _; exact Hlt].
        -- inversion H; subst. cbn [requested stdout announcements page_count].
           split; [lia|]. split; [reflexivity | intros _; exact Hlt].
      * inversion H; subst.
        split; [lia|]. split; [reflexivity | intros _; exact Hlt].
    + rewrite (for_links_at_target _ _ _ _ Hge) in H. inversion H; subst.
      cbn [is_ok]. split; [lia|]. split; [reflexivity | discriminate].
Qed.

Lemma last_snoc (l : list line) (x d : line) : last (l ++ [x]) d = x.
Proof. apply last_last. Qed.

Lemma iteration_output (st st' : state) (r : result bool) :
  iteration w url limit st = (st', r) ->
  (Z.of_nat (List.length (announcements st)) < limit)%Z ->
  lines_settled st ->
  match r with
  | Ok false =>
      lines_after_break st'
      /\ (Z.of_nat (List.length (announcements st')) < limit)%Z
  | _ => lines_settled st'
  end.
Proof.
  rewrite iteration_unfold. unfold lines_settled, lines_after_break.
  intros H Hlt Hs.
  destruct (w (List.length (requests st)) (page_url url (S (page_count st))))
    as [soup|e] eqn:Ew.
  - destruct (for_links w limit (select_links soup) _) as [st2 r2] eqn:Ef.
    apply for_links_output in Ef.
    cbn [requested entered announcements page_count stdout] in Ef.
    rewrite List.length_app in Ef. cbn [List.length] in Ef.
    destruct Ef as (Ho & Hpc & Hbelow).
    destruct r2 as [[]|e2].
    + inversion H; subst. cbn [stdout page_count announcements]. lia.
    + specialize (Hbelow eq_refl).
      destruct e2; inversion H; subst; cbn [stdout page_count announcements];
        try lia.
      rewrite List.length_app, last_snoc. cbn [List.length].
      repeat split; [lia | exact Hbelow].
  - destruct e; inversion H; subst;
      cbn [requested entered stdout page_count announcements];
      rewrite ?List.length_app, ?last_snoc; cbn [List.length]; try lia.
    repeat split; [lia | exact Hlt].
Qed.

Lemma while_loop_output (fuel : nat) :
  forall st st' out,
    while_loop fuel w url limit st = (st', out) ->
    lines_settled st ->
    match out with
    | Some (Ok _) =>
        if (limit <=? Z.of_nat (List.length (announcements st')))%Z
        then lines_settled st'
        else lines_after_break st'
    | _ => lines_settled st'
    end.
Proof.
  induction fuel as [|fuel IH]; intros st st' out; cbn [while_loop].
  - intros H Hs. inversion H; subst. exact Hs.
  - destruct (Z.ltb_spec (Z.of_nat (List.length (announcements st))) limit) as [Hlt|Hge].
    + destruct (iteration w url limit st) as [st1 r1] eqn:E. intros H Hs.
      pose proof (iteration_output _ _ _ E Hlt Hs) as Hi.
      destruct r1 as [[]|e].
      * exact (IH _ _ _ H Hi).
      * inversion H; subst. destruct Hi as [Hi Hbelow].
        now replace (limit <=? Z.of_nat (List.length (announcements st')))%Z
          with false by (symmetry; apply Z.leb_gt; exact Hbelow).
      * inversion H; subst. exact Hi.
    + intros H Hs. inversion H; subst.
      now replace (limit <=? Z.of_nat (List.length (announcements st')))%Z
        with true by (symmetry; apply Z.leb_le; exact Hge).
Qed.

End Output.

(* ================================================================== *)
(** * Further properties of the program *)
(* ================================================================== *)

Section Properties.

Import Py Main.

(** X1.  [normalize_floor_area] on every value: nothing on [None], on the
    integer 0 and on the empty text; a [TypeError] on any other integer; on
    a text, nothing when the pattern finds nothing, and otherwise the
    number the text found denotes, its commas removed, which is not
    negative, unless the text found has more than 4300 digits: then the
    [ValueError] of [int]. *)
Theorem X1_normalize_floor_area_behaviour :
  normalize_floor_area PNone = Ok None
  /\ (forall z,
        normalize_floor_area (PInt z)
        = if (z =? 0)%Z then Ok None else Raise TypeError)
  /\ normalize_floor_area (PStr EmptyString) = Ok None
  /\ (forall s,
        normalize_floor_area (PStr s)
        = match Re.search floor_area_pattern s with
          | Some m =>
              if Nat.leb (count_digits (Re.group0 m)) int_max_str_digits
              then Ok (Some (Spec.decimal (remove_char "," (Re.group0 m))))
              else Raise ValueError
          | None => Ok None
          end)
  /\ (forall s m,
        Re.search floor_area_pattern s = Some m ->
        (0 <= Spec.decimal (remove_char "," (Re.group0 m)))%Z).
Proof. exact normalize_floor_area_cases. Qed.

(** X2.  What [extract_image_urls] returns is a list, whatever the page:
    the text handed to the decoder starts with an opening bracket, so a
    value that is decoded is an array.  What it raises is an exception of
    [json.loads]: a decoding error, the [ValueError] of an integer of more
    than 4300 digits, or a [RecursionError] on an array nested too
    deep. *)
Theorem X2_extract_image_urls_outcome :
  forall soup,
    match extract_image_urls soup with
    | Ok v => exists l, v = Json.JArray l
    | Raise e => e = JSONDecodeError \/ e = ValueError \/ e = RecursionError
    end.
Proof. exact extract_image_urls_cases. Qed.




(** X6.  Every record that is produced carries the URL it was fetched at;
    its rent period and type are month and rent, week and rent, or both
    absent; its text fields are trimmed; its region is a string and its
    images a list; its bedrooms, bathrooms and floor area are not negative;
    a parking or features value that is a text is trimmed and is a text
    that [int] rejects. *)
Theorem X6_extract_record :
  forall url soup r, extract url soup = Ok r -> record_sound url r.
Proof. exact extract_record_cases. Qed.

Lemma X6_extract_record_witness :
  record_sound "https://realtylink.org/en/a"
    (Examples.record "https://realtylink.org/en/a").
Proof.
  apply (X6_extract_record "https://realtylink.org/en/a"
           (Examples.listing "850 sqft" Examples.no_photos)
           (Examples.record "https://realtylink.org/en/a")).
  vm_compute; reflexivity.
Defined.

(** X7.  Every link selected on an index page is an [a] element of the
    summary class with an [href], so that [link['href']] of line 169 does
    not raise. *)
Theorem X7_select_links_href :
  forall soup link,
    In link (select_links soup) ->
    Bs4.name link = "a"
    /\ Bs4.has_class "property-thumbnail-summary-link" link = true
    /\ exists href, Bs4.getitem link "href" = Ok href.
Proof. exact select_links_cases. Qed.

Lemma X7_select_links_href_witness :
  Bs4.name (Examples.summary_link "/en/b") = "a"
  /\ Bs4.has_class "property-thumbnail-summary-link" (Examples.summary_link "/en/b")
     = true
  /\ exists href, Bs4.getitem (Examples.summary_link "/en/b") "href" = Ok href.
Proof.
  apply (X7_select_links_href (Examples.index_page ["/en/a"; "/en/b"])).
  vm_compute. right. left. reflexivity.
Defined.

(** X8.  A scan of the links that ends normally has appended one record per
    link, in the order of the links, for as many of the first links as were
    missing to the target; each record was extracted from the page of its
    link, whose URL is the prefix followed by the [href]; the scan has
    requested these URLs and nothing else, and printed one progress line
    per record, numbered from the count it started with. *)
Theorem X8_for_links_collects :
  forall w limit links st st',
    for_links w limit links st = (st', Ok tt) ->
    scanned w limit links st st'.
Proof. exact for_links_collects. Qed.

Lemma X8_for_links_collects_witness :
  scanned Examples.three_links 2
    (select_links (Examples.index_page ["/en/a"; "/en/b"; "/en/c"]))
    (requested (page_url Examples.base 1) (entered initial))
    (fst (for_links Examples.three_links 2
            (select_links (Examples.index_page ["/en/a"; "/en/b"; "/en/c"]))
            (requested (page_url Examples.base 1) (entered initial)))).
Proof.
  apply X8_for_links_collects.
  vm_compute; reflexivity.
Defined.

(** X9.  The books of a run, whatever the site and the target.  The counter
    of parsed records is the size of the collection, which never exceeds
    the target; the run makes at most one pass per unit of fuel.  While the
    loop runs, and when it ends at the target, it has slept one second and
    made one request per page, and one request per record.  When it ends
    otherwise, after the break or by an exception, which is never a request
    error, the last pass has not slept and at most one request has given no
    record. *)
Theorem X9_parse_announcements_accounting :
  forall fuel w url limit,
    let st := fst (parse_announcements fuel w url limit) in
    parsed_announcements st = List.length (announcements st)
    /\ (Z.of_nat (List.length (announcements st)) <= Z.max 0 limit)%Z
    /\ page_count st <= fuel
    /\ match snd (parse_announcements fuel w url limit) with
       | None => settled st /\ page_count st = fuel
       | Some (Ok l) =>
           l = announcements st
           /\ (((limit <= Z.of_nat (List.length l))%Z /\ settled st)
               \/ cut_short st)
       | Some (Raise e) => e <> RequestException /\ cut_short st
       end.
Proof.
  intros fuel w url limit. unfold parse_announcements.
  destruct (while_loop fuel w url limit initial) as [st out] eqn:E.
  assert (Hc : collected limit initial).
  { repeat split; cbn; [lia | constructor]. }
  assert (Hs : settled initial) by (split; reflexivity).
  destruct (while_loop_account _ _ _ _ _ _ _ E Hc Hs) as ((Hp & Hb & _) & Hle & Ho).
  cbn [page_count initial Nat.add] in Hle, Ho.
  destruct out as [[[]|e]|]; cbn [fst snd]; cbv zeta;
    (split; [exact Hp|]; split; [exact Hb|]; split; [exact Hle|]).
  - split; [reflexivity | exact Ho].
  - split; [exact (while_loop_catches _ _ _ _ _ _ _ E) | exact Ho].
  - exact Ho.
Qed.

(** X10.  Every record of a run has a link that starts with the prefix of
    line 145 and that the run has requested. *)
Theorem X10_records_requested :
  forall fuel w url limit,
    let st := fst (parse_announcements fuel w url limit) in
    Forall (fun r => In (link r) (requests st)
                     /\ exists href, link r = prefix ++ href)
      (announcements st).
Proof.
  intros fuel w url limit. unfold parse_announcements.
  destruct (while_loop fuel w url limit initial) as [st out] eqn:E.
  assert (Hc : collected limit initial).
  { repeat split; cbn; [lia | constructor]. }
  assert (Hs : settled initial) by (split; reflexivity).
  destruct (while_loop_account _ _ _ _ _ _ _ E Hc Hs) as ((_ & _ & Hl) & _).
  destruct out as [[[]|e]|]; exact Hl.
Qed.

(** X11.  With a target that is not positive the run makes no request,
    prints nothing and returns the empty list. *)
Theorem X11_nonpositive_limit :
  forall fuel w url limit,
    (limit <= 0)%Z ->
    parse_announcements (S fuel) w url limit = (initial, Some (Ok [])).
Proof.
  intros fuel w url limit H. unfold parse_announcements.
  cbn [while_loop initial announcements List.length].
  replace (Z.of_nat 0 <? limit)%Z with false by (symmetry; apply Z.ltb_ge; exact H).
  reflexivity.
Qed.

Lemma X11_nonpositive_limit_witness :
  parse_announcements 1 Examples.exhausted Examples.base (-3)
  = (initial, Some (Ok [])).
Proof.
  apply (X11_nonpositive_limit 0 Examples.exhausted Examples.base (-3)%Z).
  lia.
Defined.

(** X12.  On a site where every index page has a link and the page of
    every link of an index page, when the scan requests it, gives a record,
    the run ends: with more fuel than the target it returns exactly as many
    records as the target asks for, after at most as many pages. *)
Theorem X12_rich_source_terminates :
  forall fuel w url limit,
    rich w url ->
    Z.to_nat limit < fuel ->
    exists st l,
      parse_announcements fuel w url limit = (st, Some (Ok l))
      /\ List.length l = Z.to_nat limit
      /\ page_count st <= Z.to_nat limit.
Proof.
  intros fuel w url limit Hrich Hf. unfold parse_announcements.
  assert (Hc : collected limit initial).
  { repeat split; cbn; [lia | constructor]. }
  assert (Hs : settled initial) by (split; reflexivity).
  destruct (while_loop_rich w url limit Hrich fuel initial Hc Hs) as (st & E & Hl & Hp).
  { cbn. lia. }
  rewrite E. exists st, (announcements st).
  split; [reflexivity|]. split; [exact Hl|]. cbn in Hp. lia.
Qed.

Lemma X12_rich_source_terminates_witness :
  exists st l,
    parse_announcements 4 Examples.endless Examples.base 3 = (st, Some (Ok l))
    /\ List.length l = Z.to_nat 3
    /\ page_count st <= Z.to_nat 3.
Proof.
  apply (X12_rich_source_terminates 4 Examples.endless Examples.base 3%Z).
  - intros k n. exists Examples.portal. split; [reflexivity|].
    split; [vm_compute; discriminate|].
    intros j link0 href _ _. exists Examples.portal.
    split; [reflexivity|]. vm_compute. reflexivity.
  - vm_compute. lia.
Defined.

(** X13.  What a run prints: one line per page and one per record, and,
    when the loop ends before the target without an exception, the line of
    the request error as the last one. *)
Theorem X13_output_lines :
  forall fuel w url limit,
    let st := fst (parse_announcements fuel w url limit) in
    match snd (parse_announcements fuel w url limit) with
    | Some (Ok l) =>
        if (limit <=? Z.of_nat (List.length l))%Z
        then lines_settled st
        else lines_after_break st
    | _ => lines_settled st
    end.
Proof.
  intros fuel w url limit. unfold parse_announcements.
  destruct (while_loop fuel w url limit initial) as [st out] eqn:E.
  apply while_loop_output in E; [|reflexivity].
  destruct out as [[[]|e]|]; exact E.
Qed.

End Properties.
